(** * A document ingestion-and-search service (main.go)

    The program is a small HTTP server: [insertHandler] normalises a
    document through a remote chat-completion call, stores it in a
    relational table and indexes it in a full-text engine;
    [searchHandler] relays a match query to the engine; [heartbeatHandler]
    answers on the catch-all pattern; [main] opens or rebuilds the index
    before it starts to listen.

    The embedding is shallow.  Every external call (database, engine,
    remote model, response encoder) threads an explicit [World]; what the
    outside world answers is read from an [Env] of oracles indexed by a
    clock of external calls, so that a call may fail, and may answer
    differently the second time. *)

From Stdlib Require Import String Ascii List ZArith Lia Bool.
From Stdlib Require Import DecimalString DecimalZ Sorted Permutation.
Import ListNotations.

Set Warnings "-register-all".

Open Scope string_scope.
Open Scope Z_scope.

(** ** Values of the Go standard library that the program builds *)

Module Strconv.

(** [strconv.Itoa]: the decimal text of an [int]. *)
Definition Itoa (i : Z) : string := NilZero.string_of_int (Z.to_int i).

End Strconv.

Module Fmt.

(** The double quote and the line feed, as one-character strings. *)
Definition dquote : string := String (ascii_of_nat 34) EmptyString.
Definition newline : string := String (ascii_of_nat 10) EmptyString.

(** [fmt.Sprintf("%s", tokens)] for [tokens []string]: the verb is
    applied to each element, the elements are separated by one space
    and the whole is enclosed in square brackets. *)
Definition Sprint_strings (tokens : list string) : string :=
  "[" ++ String.concat " " tokens ++ "]".

End Fmt.

(** Go's [(T, error)] results; an error carries its message. *)
Inductive result (A : Type) : Type :=
| Ok (a : A)
| Error (msg : string).
Arguments Ok {A} a.
Arguments Error {A} msg.

(** What an external call reports: [None] is a nil error. *)
Definition fault : Type := option string.

Module Json.

(** A JSON text, parsed. *)
Inductive value : Type :=
| JNull
| JBool (b : bool)
| JNumber (n : Z)
| JString (s : string)
| JArray (items : list value)
| JObject (members : list (string * value)).

(** ASCII case folding, for the case-insensitive match of object keys
    against struct field names. *)
Definition lower_ascii (c : ascii) : ascii :=
  let n := nat_of_ascii c in
  if (Nat.leb 65 n && Nat.leb n 90)%bool then ascii_of_nat (n + 32) else c.

Fixpoint lower (s : string) : string :=
  match s with
  | EmptyString => EmptyString
  | String c s' => String (lower_ascii c) (lower s')
  end.

Definition key_matches (field key : string) : bool :=
  String.eqb (lower key) (lower field).

(** The request struct of [insertHandler]:
    [struct { Content string `json:"content"` }]. *)
Record InsertReq : Type := { Content : string }.

(** Decoding the members of an object into the struct, left to right:
    a string sets the field, [null] leaves it, any other value is a
    type error; members with other keys are skipped. *)
Fixpoint decode_members (ms : list (string * value)) (req : InsertReq)
  : result InsertReq :=
  match ms with
  | [] => Ok req
  | (k, v) :: ms' =>
      if key_matches "content" k then
        match v with
        | JString s => decode_members ms' {| Content := s |}
        | JNull => decode_members ms' req
        | _ => Error "json: cannot unmarshal value into Go struct field .content of type string"
        end
      else decode_members ms' req
  end.

(** [json.NewDecoder(r.Body).Decode(&req)].  The body is given parsed:
    [None] stands for a body that holds no JSON value (empty or
    malformed). *)
Definition Decode (body : option value) : result InsertReq :=
  match body with
  | None => Error "invalid character or unexpected end of JSON input"
  | Some JNull => Ok {| Content := "" |}
  | Some (JObject ms) => decode_members ms {| Content := "" |}
  | Some _ => Error "json: cannot unmarshal value into Go value of type struct"
  end.

(** An object has a member for the field [content]. *)
Definition has_content (ms : list (string * value)) : bool :=
  existsb (fun kv => key_matches "content" (fst kv)) ms.

End Json.

(** ** The full-text engine *)

Module Bleve.

(** Modelled from the spec: the Inverted Index Engine (the bleve
    library, whose code is not among the sources).  [index_Index] and
    [index_Search] follow section 4.1: indexing tokenizes the content
    and replaces what the identifier had before; a match query
    tokenizes the query text with the same rules, a document matches
    when it shares a token with the query, and the matches are ranked
    by descending score.  The tokenizer and the relevance function are
    left open by the spec and are fields of the index [Mapping]; scores
    are integers.  The defaults of a search request (a page of ten hits
    from offset zero) are those of the constructor that [searchHandler]
    calls.

    The order of equal scores is the library's, not the one of section
    4.1: the default sort of a search request is by score alone, and
    hits of equal score come in the order in which the index holds the
    documents ([docs]; a document that is indexed is put last).  The
    identifier takes no part in it. *)
Record Mapping : Type := {
  analyze : string -> list string;
  score : list (string * string) -> list string -> string -> Z
}.

Record Index : Type := {
  mapping : Mapping;
  docs : list (string * string)
}.

(** [bleve.New(path, mapping)]: a fresh empty index. *)
Definition New (m : Mapping) : Index := {| mapping := m; docs := [] |}.

(** [index.Index(id, data)]: upsert; the document comes last in the
    order of the index. *)
Definition index_Index (id data : string) (ix : Index) : Index :=
  {| mapping := mapping ix;
     docs := filter (fun d => negb (String.eqb id (fst d))) (docs ix)
               ++ [(id, data)] |}.

Record MatchQuery : Type := { Match : string }.

Definition NewMatchQuery (q : string) : MatchQuery := {| Match := q |}.

Record SearchRequest : Type := {
  Query : MatchQuery;
  Size : nat;
  From : nat;
  Explain : bool
}.

Definition NewSearchRequestOptions (q : MatchQuery) (size from : nat)
  (explain : bool) : SearchRequest :=
  {| Query := q; Size := size; From := from; Explain := explain |}.

(** [bleve.NewSearchRequest(q)]: default values for every other
    parameter. *)
Definition NewSearchRequest (q : MatchQuery) : SearchRequest :=
  NewSearchRequestOptions q 10 0 false.

Record DocumentMatch : Type := { ID : string; Score : Z }.

Record SearchResult : Type := {
  Request : SearchRequest;
  Hits : list DocumentMatch;
  Total : nat
}.

(** Two token lists share a token. *)
Definition shares (qs ds : list string) : bool :=
  existsb (fun q => existsb (String.eqb q) ds) qs.

Definition matches (ix : Index) (q : string) (d : string * string) : bool :=
  shares (analyze (mapping ix) q) (analyze (mapping ix) (snd d)).

(** The ranking order: higher score first.  [rank_insert] puts a hit
    before the first one that does not score higher, and [rank] inserts
    the hits last to first, so hits of equal score keep the order of the
    index. *)
Definition rank_leb (a b : DocumentMatch) : bool := Score b <=? Score a.

Fixpoint rank_insert (h : DocumentMatch) (l : list DocumentMatch)
  : list DocumentMatch :=
  match l with
  | [] => [h]
  | x :: l' => if rank_leb h x then h :: l else x :: rank_insert h l'
  end.

Fixpoint rank (l : list DocumentMatch) : list DocumentMatch :=
  match l with
  | [] => []
  | h :: l' => rank_insert h (rank l')
  end.

Definition hit (ix : Index) (q : string) (d : string * string)
  : DocumentMatch :=
  {| ID := fst d;
     Score := score (mapping ix) (docs ix) (analyze (mapping ix) q) (snd d) |}.

(** [index.Search(req)] when the engine can be read. *)
Definition index_Search (req : SearchRequest) (ix : Index) : SearchResult :=
  let q := Match (Query req) in
  let ms := filter (matches ix q) (docs ix) in
  {| Request := req;
     Hits := firstn (Size req) (skipn (From req) (rank (map (hit ix q) ms)));
     Total := length ms |}.

(** The identifiers a result returns. *)
Definition hit_ids (r : SearchResult) : list string := map ID (Hits r).

End Bleve.

(** ** The part of net/http that the program relies on *)

Module Http.

Definition StatusOK : Z := 200.
Definition StatusCreated : Z := 201.
Definition StatusMovedPermanently : Z := 301.
Definition StatusBadRequest : Z := 400.
Definition StatusNotFound : Z := 404.
Definition StatusMethodNotAllowed : Z := 405.
Definition StatusInternalServerError : Z := 500.

Definition MethodPost : string := "POST".

(** The target of a request line, as it was sent: the asterisk, no path
    at all (the authority form of a CONNECT, or an absolute URL without
    a path), or a path that starts with a slash, given by what follows
    the slash, escapes included. *)
Inductive target : Type :=
| Asterisk
| NoPath
| Rooted (rest : string).

(** [r.URL.EscapedPath()]: the path as it was sent.  (A byte that was
    sent as it is although it needs an escape is written escaped by the
    library; the embedding keeps it as it was sent, which changes
    neither the elements of the path nor what they decode to.) *)
Definition escaped (t : target) : string :=
  match t with
  | Asterisk => "*"
  | NoPath => ""
  | Rooted rest => "/" ++ rest
  end.

Definition ishex (c : ascii) : bool :=
  let n := nat_of_ascii c in
  (Nat.leb 48 n && Nat.leb n 57) || (Nat.leb 65 n && Nat.leb n 70)
  || (Nat.leb 97 n && Nat.leb n 102).

Definition unhex (c : ascii) : nat :=
  let n := nat_of_ascii c in
  if Nat.leb 97 n then n - 87 else if Nat.leb 65 n then n - 55 else n - 48.

(** [url.PathUnescape]: every percent sign followed by two hexadecimal
    digits is replaced by the byte they denote; a text with another
    percent sign is left as it is there (the mux keeps such a segment
    unchanged, and the server never parses such a target). *)
Fixpoint unescape (s : string) : string :=
  match s with
  | EmptyString => EmptyString
  | String c t =>
      if Ascii.eqb c "%" then
        match t with
        | String a (String b t') =>
            if ishex a && ishex b
            then String (ascii_of_nat (16 * unhex a + unhex b)) (unescape t')
            else String c (unescape t)
        | _ => String c (unescape t)
        end
      else String c (unescape t)
  end.

(** A byte that a request target may hold: neither a control byte nor
    a space. *)
Definition visible (c : ascii) : bool :=
  let n := nat_of_ascii c in Nat.ltb 32 n && negb (Nat.eqb n 127).

(** The targets that the server parses ([url.ParseRequestURI]): every
    percent sign starts an escape and no byte is a control byte.  The
    server answers any other request line with 400 before a handler is
    chosen. *)
Fixpoint well_formed (s : string) : bool :=
  match s with
  | EmptyString => true
  | String c t =>
      if Ascii.eqb c "%" then
        match t with
        | String a (String b t') => ishex a && ishex b && well_formed t'
        | _ => false
        end
      else visible c && well_formed t
  end.

(** A text without percent signs and control bytes. *)
Fixpoint plain (s : string) : bool :=
  match s with
  | EmptyString => true
  | String c s' => visible c && negb (Ascii.eqb c "%") && plain s'
  end.

(** A request as the server hands it to the mux: [r.Method], the target
    of the request line, the parsed query string in the order of the
    URL, and the body. *)
Record Request : Type := {
  Method : string;
  RequestURI : target;
  RawQuery : list (string * string);
  Body : option Json.value
}.

(** [r.URL.Path]: the path with its escapes decoded. *)
Definition Path (r : Request) : string := unescape (escaped (RequestURI r)).

(** [r.URL.Query().Get(key)]: the first value of the key, or the empty
    string when the key is absent. *)
Definition Query_Get (r : Request) (key : string) : string :=
  match find (fun kv => String.eqb (fst kv) key) (RawQuery r) with
  | Some kv => snd kv
  | None => ""
  end.

(** What a handler wrote.  A redirect names the URL it sends the
    client to: its path and the query string, which is the one of the
    request. *)
Inductive Payload : Type :=
| Text (s : string)
| JSON (v : Json.value)
| JSONResult (r : Bleve.SearchResult)
| Location (path : string) (query : list (string * string)).

Record Response : Type := { Status : Z; Written : Payload }.

(** The elements of a path between slashes. *)
Fixpoint segments (s cur : string) : list string :=
  match s with
  | EmptyString => [cur]
  | String c s' =>
      if Ascii.eqb c "/" then cur :: segments s' ""
      else segments s' (cur ++ String c "")
  end.

(** [path.Clean] on a rooted path: empty and [.] elements disappear,
    [..] removes the element before it and is dropped at the root.
    The stack holds the kept elements, last first. *)
Definition clean_step (stack : list string) (seg : string) : list string :=
  if String.eqb seg "" || String.eqb seg "." then stack
  else if String.eqb seg ".." then tl stack
  else seg :: stack.

Definition path_Clean (p : string) : string :=
  match fold_left clean_step (segments p "") [] with
  | [] => "/"
  | stack => String.concat "" (map (fun seg => "/" ++ seg) (rev stack))
  end.

Fixpoint ends_with_slash (s : string) : bool :=
  match s with
  | EmptyString => false
  | String c EmptyString => Ascii.eqb c "/"
  | String _ s' => ends_with_slash s'
  end.

(** The path starts with a slash. *)
Definition rooted (p : string) : bool :=
  match p with
  | EmptyString => false
  | String c _ => Ascii.eqb c "/"
  end.

(** [cleanPath]: the canonical path of a request, with the trailing
    slash kept. *)
Definition cleanPath (p : string) : string :=
  if String.eqb p "" then "/"
  else
    let p := if rooted p then p else "/" ++ p in
    let np := path_Clean p in
    if ends_with_slash p && negb (String.eqb np "/") then np ++ "/" else np.

Fixpoint no_slash (s : string) : bool :=
  match s with
  | EmptyString => true
  | String c s' => negb (Ascii.eqb c "/") && no_slash s'
  end.

Inductive Route : Type :=
| RouteHeartbeat
| RouteSearch
| RouteInsert
| RouteRedirect (path : string) (query : list (string * string))
| RouteOptions
| RouteBadRequest (body : string)
| RouteNotFound.

(** The patterns registered by [main], matched against a path that
    starts with a slash: the path is taken element by element, each
    element unescaped; [/search] and [/insert] match the path of that
    one element, [/] matches every other path.  Nothing matches the
    empty path. *)
Definition match_pattern (p : string) : option Route :=
  match p with
  | EmptyString => None
  | String _ seg =>
      if no_slash seg && String.eqb (unescape seg) "search" then Some RouteSearch
      else if no_slash seg && String.eqb (unescape seg) "insert"
      then Some RouteInsert
      else Some RouteHeartbeat
  end.

(** The handler of a request ([Server], then [ServeMux.ServeHTTP] and
    [findHandler] of Go 1.23).  The server answers 400 to a request
    line it cannot parse, and answers an OPTIONS request for the
    asterisk itself; the mux answers 400 to any other request for the
    asterisk.  A CONNECT request is matched as it was sent; the only
    path that no pattern matches is the empty one, which [/] matches
    once a slash is added, and the request is redirected.  Every other
    request has its escaped path cleaned, and is redirected to the
    clean path, with its query string, when that differs. *)
Definition ServeMux_Handler (r : Request) : Route :=
  match RequestURI r with
  | Asterisk =>
      if String.eqb (Method r) "OPTIONS" then RouteOptions
      else RouteBadRequest ""
  | t =>
      let e := escaped t in
      if negb (well_formed e) then RouteBadRequest "400 Bad Request"
      else if String.eqb (Method r) "CONNECT" then
        match match_pattern e with
        | Some h => h
        | None => RouteRedirect (cleanPath (unescape e) ++ "/") (RawQuery r)
        end
      else
        let p := cleanPath e in
        if String.eqb p e then
          match match_pattern p with
          | Some h => h
          | None => RouteNotFound
          end
        else RouteRedirect p (RawQuery r)
  end.


End Http.

(** ** The world outside the process *)

(** The request that [getMorphologicalAnalysis] sends: a model name and
    the messages, each a role and a content. *)
Record ChatCompletionRequest : Type := {
  Model : string;
  Messages : list (string * string)
}.

(** What the remote service answers: a transport or service error, or
    the contents of the choices of the completion. *)
Inductive ChatCompletionReply : Type :=
| APIError (msg : string)
| Choices (contents : list string).

(** The answers of the outside world.  Each oracle is read at the clock
    of the call, so the same call may be answered differently later. *)
Record Env : Type := {
  CreateChatCompletion : nat -> ChatCompletionRequest -> ChatCompletionReply;
  json_Unmarshal : string -> result (list string);
  db_fault : nat -> fault;
  index_fault : nat -> fault;
  encode_fault : nat -> fault
}.

Inductive Event : Type :=
| EvChat (req : ChatCompletionRequest) (reply : ChatCompletionReply)
| EvInsert (content : string) (r : result Z)
| EvQuery (f : fault)
| EvNext (f : fault)
| EvScan (id : Z) (content : string) (f : fault)
| EvIndex (id data : string) (f : fault)
| EvSearch (q : string) (f : fault)
| EvRespond (status : Z)
| EvListen.

(** The process state that the handlers share (the globals [index] and
    [db]) together with the table behind [db], the clock of external
    calls and the calls made so far, oldest first. *)
Record World : Type := {
  clock : nat;
  documents : list (Z * string);
  documents_id_seq : Z;
  index : option Bleve.Index;
  trace : list Event
}.

(** A Go call either returns or panics. *)
Inductive Outcome (A : Type) : Type :=
| Ret (a : A)
| Panic (msg : string).
Arguments Ret {A} a.
Arguments Panic {A} msg.

Definition M (A : Type) : Type := World -> Outcome A * World.

Definition ret {A} (a : A) : M A := fun w => (Ret a, w).

Definition bind {A B} (m : M A) (k : A -> M B) : M B :=
  fun w =>
    match m w with
    | (Ret a, w') => k a w'
    | (Panic msg, w') => (Panic msg, w')
    end.

Definition panic {A} (msg : string) : M A := fun w => (Panic msg, w).

Declare Scope go_scope.
Delimit Scope go_scope with go.
Notation "x <- m ;; k" := (bind m (fun x => k))
  (at level 61, m at next level, right associativity) : go_scope.
Notation "m ;;; k" := (bind m (fun _ => k))
  (at level 61, right associativity) : go_scope.

(** One external call: the clock advances and the call is recorded. *)
Definition tick (e : Event) (w : World) : World :=
  {| clock := S (clock w);
     documents := documents w;
     documents_id_seq := documents_id_seq w;
     index := index w;
     trace := trace w ++ [e] |}.

Definition emit (e : Event) (w : World) : World :=
  {| clock := clock w;
     documents := documents w;
     documents_id_seq := documents_id_seq w;
     index := index w;
     trace := trace w ++ [e] |}.

Definition set_index (ix : Bleve.Index) (w : World) : World :=
  {| clock := clock w;
     documents := documents w;
     documents_id_seq := documents_id_seq w;
     index := Some ix;
     trace := trace w |}.

Definition add_document (id : Z) (content : string) (w : World) : World :=
  {| clock := clock w;
     documents := documents w ++ [(id, content)];
     documents_id_seq := id + 1;
     index := index w;
     trace := trace w |}.

Section Calls.

Variable env : Env.

Definition openai_CreateChatCompletion (req : ChatCompletionRequest)
  : M ChatCompletionReply :=
  fun w =>
    let reply := CreateChatCompletion env (clock w) req in
    (Ret reply, tick (EvChat req reply) w).

(** [INSERT INTO documents(content) VALUES($1) RETURNING id], scanned
    into an [int]: the table assigns the next identifier. *)
Definition db_QueryRow_insert (content : string) : M (result Z) :=
  fun w =>
    match db_fault env (clock w) with
    | Some e => (Ret (Error e), tick (EvInsert content (Error e)) w)
    | None =>
        let id := documents_id_seq w in
        (Ret (Ok id), tick (EvInsert content (Ok id)) (add_document id content w))
    end.

(** [SELECT id, content FROM documents]: the rows of the table. *)
Definition db_Query_documents : M (result (list (Z * string))) :=
  fun w =>
    match db_fault env (clock w) with
    | Some e => (Ret (Error e), tick (EvQuery (Some e)) w)
    | None => (Ret (Ok (documents w)), tick (EvQuery None) w)
    end.

(** [rows.Next()]: a failure ends the iteration and is what
    [rows.Err()] then reports. *)
Definition rows_Next : M fault :=
  fun w => let f := db_fault env (clock w) in (Ret f, tick (EvNext f) w).

Definition rows_Scan (row : Z * string) : M fault :=
  fun w =>
    let f := db_fault env (clock w) in
    (Ret f, tick (EvScan (fst row) (snd row) f) w).

(** [index.Index(id, data)] on the global [index]; calling a method of
    a nil interface panics. *)
Definition index_Index (id data : string) : M fault :=
  fun w =>
    match index w with
    | None => (Panic "invalid memory address or nil pointer dereference", w)
    | Some ix =>
        match index_fault env (clock w) with
        | Some e => (Ret (Some e), tick (EvIndex id data (Some e)) w)
        | None =>
            (Ret None,
             tick (EvIndex id data None)
                  (set_index (Bleve.index_Index id data ix) w))
        end
    end.

Definition index_Search (req : Bleve.SearchRequest)
  : M (result Bleve.SearchResult) :=
  fun w =>
    match index w with
    | None => (Panic "invalid memory address or nil pointer dereference", w)
    | Some ix =>
        let q := Bleve.Match (Bleve.Query req) in
        match index_fault env (clock w) with
        | Some e => (Ret (Error e), tick (EvSearch q (Some e)) w)
        | None => (Ret (Ok (Bleve.index_Search req ix)), tick (EvSearch q None) w)
        end
    end.

(** [http.Error(w, msg, code)] and the other ways a handler answers. *)
Definition http_Error (msg : string) (code : Z) : M Http.Response :=
  fun w =>
    (Ret {| Http.Status := code; Http.Written := Http.Text (msg ++ Fmt.newline) |},
     emit (EvRespond code) w).

Definition respond (code : Z) (p : Http.Payload) : M Http.Response :=
  fun w =>
    (Ret {| Http.Status := code; Http.Written := p |}, emit (EvRespond code) w).

(** [json.NewEncoder(w).Encode(v)]. *)
Definition Encode : M fault :=
  fun w => (Ret (encode_fault env (clock w)),
            {| clock := S (clock w);
               documents := documents w;
               documents_id_seq := documents_id_seq w;
               index := index w;
               trace := trace w |}).

End Calls.

(** ** main.go *)

Section Program.

Variable env : Env.

Local Open Scope go_scope.

(** The prompt: the instruction followed by the text between double
    quotes. *)
Definition prompt (text : string) : string :=
  "Please analyze the following text into its morphological components and return them as a JSON array of strings: "
    ++ Fmt.dquote ++ text ++ Fmt.dquote.

Definition chat_request (text : string) : ChatCompletionRequest :=
  {| Model := "gpt-4";
     Messages := [("system", "You are a helpful assistant.");
                  ("user", prompt text)] |}.

Definition getMorphologicalAnalysis (text : string) : M (result string) :=
  resp <- openai_CreateChatCompletion env (chat_request text);;
  match resp with
  | APIError err => ret (Error ("OpenAI API request failed: " ++ err))
  | Choices [] => panic "index out of range [0] with length 0"
  | Choices (content :: _) =>
      match json_Unmarshal env content with
      | Error err => ret (Error ("Failed to parse JSON response: " ++ err))
      | Ok tokens => ret (Ok (Fmt.Sprint_strings tokens))
      end
  end.

(** The error of [Encode] is discarded. *)
Definition heartbeatHandler (r : Http.Request) : M Http.Response :=
  Encode env;;;
  respond Http.StatusOK
    (Http.JSON (Json.JObject [("status", Json.JString "ok")])).

Definition insertHandler (r : Http.Request) : M Http.Response :=
  if negb (String.eqb (Http.Method r) Http.MethodPost) then
    http_Error "Invalid request method" Http.StatusMethodNotAllowed
  else
    match Json.Decode (Http.Body r) with
    | Error _ => http_Error "Invalid request body" Http.StatusBadRequest
    | Ok req =>
        a <- getMorphologicalAnalysis (Json.Content req);;
        match a with
        | Error err =>
            http_Error ("Failed to analyze text: " ++ err)
              Http.StatusInternalServerError
        | Ok analysis =>
            row <- db_QueryRow_insert env analysis;;
            match row with
            | Error err =>
                http_Error ("Failed to insert data: " ++ err)
                  Http.StatusInternalServerError
            | Ok id =>
                f <- index_Index env (Strconv.Itoa id) analysis;;
                match f with
                | Some err =>
                    http_Error ("Failed to index data: " ++ err)
                      Http.StatusInternalServerError
                | None =>
                    respond Http.StatusCreated
                      (Http.Text ("Document inserted with ID: " ++ Strconv.Itoa id))
                end
            end
        end
    end.

Definition searchHandler (r : Http.Request) : M Http.Response :=
  fun w =>
    match index w with
    | None =>
        http_Error "Index is not initialized" Http.StatusInternalServerError w
    | Some _ =>
        let queryParam := Http.Query_Get r "q" in
        if String.eqb queryParam "" then
          http_Error "Missing query parameter 'q'" Http.StatusBadRequest w
        else
          let query := Bleve.NewMatchQuery queryParam in
          let searchRequest := Bleve.NewSearchRequest query in
          (found <- index_Search env searchRequest;;
           match found with
           | Error err =>
               http_Error ("Search failed: " ++ err)
                 Http.StatusInternalServerError
           | Ok searchResult =>
               f <- Encode env;;
               match f with
               | Some err =>
                   http_Error ("Failed to encode response: " ++ err)
                     Http.StatusInternalServerError
               | None => respond Http.StatusOK (Http.JSONResult searchResult)
               end
           end) w
    end.

(** The loop of [createIndexFromDatabase] over the rows the cursor
    still holds; [rows.Next()] is asked once more when none is left. *)
Fixpoint index_rows (rows : list (Z * string)) : M fault :=
  next <- rows_Next env;;
  match next with
  | Some err => ret (Some ("Error iterating over rows: " ++ err))
  | None =>
      match rows with
      | [] => ret None
      | row :: rest =>
          scan <- rows_Scan env row;;
          match scan with
          | Some err => ret (Some ("Failed to scan row: " ++ err))
          | None =>
              a <- getMorphologicalAnalysis (snd row);;
              match a with
              | Error err => ret (Some ("Failed to analyze text: " ++ err))
              | Ok analysis =>
                  f <- index_Index env (Strconv.Itoa (fst row)) analysis;;
                  match f with
                  | Some err => ret (Some ("Failed to index data: " ++ err))
                  | None => index_rows rest
                  end
              end
          end
      end
  end.

Definition createIndexFromDatabase : M fault :=
  q <- db_Query_documents env;;
  match q with
  | Error err => ret (Some ("Failed to query documents: " ++ err))
  | Ok rows => index_rows rows
  end.

(** What [main] finds when it starts: the [.env] file, the environment,
    the driver, the index directory ([None] when [os.Stat] reports that
    it does not exist, otherwise what [bleve.Open] gives), whether a new
    index can be created and with which analysis the mapping built by
    [main] (the CJK analyzer on the field [content]) is served, the
    table, and whether the port can be bound. *)
Record Boot : Type := {
  godotenv_Load : fault;
  OPENAI_API_KEY : string;
  sql_Open : fault;
  index_dir : option (result Bleve.Index);
  bleve_New : fault;
  indexMapping : Bleve.Mapping;
  boot_documents : list (Z * string);
  boot_id_seq : Z;
  ListenAndServe : fault
}.

(** How [main] ends: [log.Fatalf], a panic, or a server that listens. *)
Inductive Startup : Type :=
| Fatal (msg : string) (w : World)
| Crashed (msg : string) (w : World)
| Serving (w : World).

Definition boot_world (b : Boot) : World :=
  {| clock := 0%nat;
     documents := boot_documents b;
     documents_id_seq := boot_id_seq b;
     index := None;
     trace := [] |}.

Definition listen (b : Boot) (w : World) : Startup :=
  match ListenAndServe b with
  | Some err => Fatal ("Failed to start server: " ++ err) w
  | None => Serving (emit EvListen w)
  end.

Definition main (b : Boot) : Startup :=
  let w0 := boot_world b in
  match godotenv_Load b with
  | Some err => Fatal ("Error loading .env file: " ++ err) w0
  | None =>
      if String.eqb (OPENAI_API_KEY b) "" then
        Fatal "OPENAI_API_KEY environment variable is not set" w0
      else
        match sql_Open b with
        | Some err => Fatal ("Failed to connect to PostgreSQL: " ++ err) w0
        | None =>
            match index_dir b with
            | None =>
                match bleve_New b with
                | Some err => Fatal ("Failed to create index: " ++ err) w0
                | None =>
                    let w1 := set_index (Bleve.New (indexMapping b)) w0 in
                    match createIndexFromDatabase w1 with
                    | (Ret (Some err), w2) =>
                        Fatal ("Failed to create index from database: " ++ err) w2
                    | (Ret None, w2) => listen b w2
                    | (Panic msg, w2) => Crashed msg w2
                    end
                end
            | Some (Error err) => Fatal ("Failed to open index: " ++ err) w0
            | Some (Ok ix) => listen b (set_index ix w0)
            end
        end
  end.

(** The default mux with the three handlers registered by [main]. *)
Definition ServeHTTP (r : Http.Request) : M Http.Response :=
  match Http.ServeMux_Handler r with
  | Http.RouteHeartbeat => heartbeatHandler r
  | Http.RouteSearch => searchHandler r
  | Http.RouteInsert => insertHandler r
  | Http.RouteRedirect url query =>
      respond Http.StatusMovedPermanently (Http.Location url query)
  | Http.RouteOptions => respond Http.StatusOK (Http.Text "")
  | Http.RouteBadRequest body => respond Http.StatusBadRequest (Http.Text body)
  | Http.RouteNotFound => http_Error "404 page not found" Http.StatusNotFound
  end.

(** The states of a server between requests that it serves one at a
    time: the one [main] starts to listen in, and every state after one
    more request was served (a panic of a handler is recovered by the
    server and ends that request only).  The states in the middle of
    requests served at the same time are those of [steps] below. *)
Inductive reachable (b : Boot) : World -> Prop :=
| reach_main w : main b = Serving w -> reachable b w
| reach_serve w r o w' :
    reachable b w -> ServeHTTP r w = (o, w') -> reachable b w'.

End Program.

(** ** Concrete worlds, for running the program *)

Module Sample.

Definition is_alnum (c : ascii) : bool :=
  let n := nat_of_ascii c in
  (Nat.leb 48 n && Nat.leb n 57) || (Nat.leb 65 n && Nat.leb n 90)
  || (Nat.leb 97 n && Nat.leb n 122) || Nat.leb 128 n.

(** A word-boundary tokenizer: maximal runs of letters and digits, in
    lower case. *)
Fixpoint words_from (s cur : string) : list string :=
  match s with
  | EmptyString => if String.eqb cur "" then [] else [cur]
  | String c s' =>
      if is_alnum c then words_from s' (cur ++ String (Json.lower_ascii c) "")
      else if String.eqb cur "" then words_from s' ""
      else cur :: words_from s' ""
  end.

Definition words (s : string) : list string := words_from s "".

(** A relevance function: the number of query tokens that the content
    holds, however often it holds them. *)
Definition query_overlap (ds : list (string * string)) (qs : list string)
  (content : string) : Z :=
  Z.of_nat
    (length (filter (fun q => existsb (String.eqb q) (words content)) qs)).

Definition mapping : Bleve.Mapping :=
  {| Bleve.analyze := words; Bleve.score := query_overlap |}.

(** A decoder for the JSON arrays of strings that need no escape:
    [st] is 0 before the opening bracket, 1 where an element or the
    closing bracket may start, 2 inside an element, 3 after an element,
    4 where an element must start and 5 after the closing bracket. *)
Fixpoint unmarshal_from (s : string) (st : nat) (cur : string)
  (acc : list string) : result (list string) :=
  match s with
  | EmptyString =>
      if Nat.eqb st 5 then Ok (rev acc) else Error "unexpected end of JSON input"
  | String c s' =>
      let n := nat_of_ascii c in
      if Nat.eqb st 2 then
        if Nat.eqb n 34 then unmarshal_from s' 3 "" (cur :: acc)
        else if Nat.eqb n 92 || Nat.ltb n 32 then Error "escape not supported"
        else unmarshal_from s' 2 (cur ++ String c "") acc
      else if Nat.eqb n 32 then unmarshal_from s' st cur acc
      else if Nat.eqb st 0 && Nat.eqb n 91 then unmarshal_from s' 1 "" acc
      else if (Nat.eqb st 1 || Nat.eqb st 4) && Nat.eqb n 34 then
        unmarshal_from s' 2 "" acc
      else if (Nat.eqb st 1 || Nat.eqb st 3) && Nat.eqb n 93 then
        unmarshal_from s' 5 "" acc
      else if Nat.eqb st 3 && Nat.eqb n 44 then unmarshal_from s' 4 "" acc
      else Error "invalid character"
  end.

Definition unmarshal (s : string) : result (list string) :=
  unmarshal_from s 0 "" [].

(** The JSON text of an array of escape-free strings. *)
Definition array_text (tokens : list string) : string :=
  "[" ++ String.concat ","
           (map (fun t => Fmt.dquote ++ t ++ Fmt.dquote) tokens) ++ "]".

(** A world in which no call fails and the remote model answers
    [reply n] to the call made at clock [n]. *)
Definition env (reply : nat -> ChatCompletionReply) : Env :=
  {| CreateChatCompletion := fun n _ => reply n;
     json_Unmarshal := unmarshal;
     db_fault := fun _ => None;
     index_fault := fun _ => None;
     encode_fault := fun _ => None |}.

(** The remote model always answers with the same tokens. *)
Definition steady (tokens : list string) : Env :=
  env (fun _ => Choices [array_text tokens]).

(** The same, with an engine that cannot be written. *)
Definition index_down (tokens : list string) : Env :=
  {| CreateChatCompletion := fun _ _ => Choices [array_text tokens];
     json_Unmarshal := unmarshal;
     db_fault := fun _ => None;
     index_fault := fun _ => Some "disk full";
     encode_fault := fun _ => None |}.

(** A running server with an empty index and an empty table. *)
Definition fresh : World :=
  {| clock := 0%nat;
     documents := [];
     documents_id_seq := 1;
     index := Some (Bleve.New mapping);
     trace := [] |}.

(** The target of a request line, read from its text. *)
Definition target_of (p : string) : Http.target :=
  match p with
  | EmptyString => Http.NoPath
  | String c rest =>
      if Ascii.eqb c "/" then Http.Rooted rest
      else if String.eqb p "*" then Http.Asterisk
      else Http.NoPath
  end.

Definition post_insert (body : option Json.value) : Http.Request :=
  {| Http.Method := "POST"; Http.RequestURI := target_of "/insert";
     Http.RawQuery := []; Http.Body := body |}.

Definition insert_content (content : string) : Http.Request :=
  post_insert (Some (Json.JObject [("content", Json.JString content)])).

Definition get_search (q : string) : Http.Request :=
  {| Http.Method := "GET"; Http.RequestURI := target_of "/search";
     Http.RawQuery := [("q", q)]; Http.Body := None |}.

Definition get_path (p : string) : Http.Request :=
  {| Http.Method := "GET"; Http.RequestURI := target_of p;
     Http.RawQuery := []; Http.Body := None |}.

(** The world after the requests were served in turn. *)
Fixpoint serve_all (e : Env) (rs : list Http.Request) (w : World) : World :=
  match rs with
  | [] => w
  | r :: rs' => serve_all e rs' (snd (ServeHTTP e r w))
  end.

(** What the requests were answered, in turn. *)
Fixpoint answers (e : Env) (rs : list Http.Request) (w : World)
  : list (Outcome Http.Response) :=
  match rs with
  | [] => []
  | r :: rs' => fst (ServeHTTP e r w) :: answers e rs' (snd (ServeHTTP e r w))
  end.

Definition boot (dir : option (result Bleve.Index))
  (rows : list (Z * string)) : Boot :=
  {| godotenv_Load := None;
     OPENAI_API_KEY := "sk-test";
     sql_Open := None;
     index_dir := dir;
     bleve_New := None;
     indexMapping := mapping;
     boot_documents := rows;
     boot_id_seq := 1 + Z.of_nat (length rows);
     ListenAndServe := None |}.

End Sample.

(** ** Notions used in the statements *)

(** What [getMorphologicalAnalysis] makes of a reply of the remote
    service. *)
Definition normalized (env : Env) (reply : ChatCompletionReply)
  : Outcome (result string) :=
  match reply with
  | APIError err => Ret (Error ("OpenAI API request failed: " ++ err))
  | Choices [] => Panic "index out of range [0] with length 0"
  | Choices (content :: _) =>
      match json_Unmarshal env content with
      | Error err => Ret (Error ("Failed to parse JSON response: " ++ err))
      | Ok tokens => Ret (Ok (Fmt.Sprint_strings tokens))
      end
  end.

(** An external call that went well. *)
Definition event_ok (env : Env) (e : Event) : Prop :=
  match e with
  | EvChat _ reply => exists a, normalized env reply = Ret (Ok a)
  | EvInsert _ r => exists id, r = Ok id
  | EvQuery f | EvNext f | EvScan _ _ f | EvIndex _ _ f | EvSearch _ f => f = None
  | EvRespond _ | EvListen => True
  end.

(** The events of a replay: no request is served during it. *)
Definition replay_event (e : Event) : Prop :=
  match e with
  | EvQuery _ | EvNext _ | EvScan _ _ _ | EvChat _ _ | EvIndex _ _ _ => True
  | EvInsert _ _ | EvSearch _ _ | EvRespond _ | EvListen => False
  end.

(** [a] is a normalized content of the row: what
    [getMorphologicalAnalysis] returns for a reply that the remote
    service gives to the request built from the content of the row. *)
Definition normalizes (env : Env) (row : Z * string) (a : string) : Prop :=
  exists n,
    normalized env (CreateChatCompletion env n (chat_request (snd row)))
    = Ret (Ok a).

(** The ranking order as a relation: [a] may come before [b]. *)
Definition rank_le (a b : Bleve.DocumentMatch) : Prop :=
  Bleve.Score b <= Bleve.Score a.

(** The hits of one score, and the matches of a query in the order of
    the index, before they are ranked. *)
Definition tied (s : Z) (h : Bleve.DocumentMatch) : bool :=
  Z.eqb (Bleve.Score h) s.

Definition matched (ix : Bleve.Index) (q : string) : list Bleve.DocumentMatch :=
  map (Bleve.hit ix q) (filter (Bleve.matches ix q) (Bleve.docs ix)).

(** The index after the rows were indexed in turn, each with its
    normalized content. *)
Definition index_all (rows : list (Z * string)) (analyses : list string)
  (ix : Bleve.Index) : Bleve.Index :=
  fold_left
    (fun ix ra => Bleve.index_Index (Strconv.Itoa (fst (fst ra))) (snd ra) ix)
    (combine rows analyses) ix.

(** The answer of the heartbeat. *)
Definition status_ok : Http.Response :=
  {| Http.Status := 200;
     Http.Written := Http.JSON (Json.JObject [("status", Json.JString "ok")]) |}.

(** The answers of [http.Error]. *)
Definition error_response (msg : string) (code : Z) : Http.Response :=
  {| Http.Status := code; Http.Written := Http.Text (msg ++ Fmt.newline) |}.

(** An event that writes to the table or to the index writes [data]. *)
Definition writes (data : string) (e : Event) : Prop :=
  match e with
  | EvInsert content _ => content = data
  | EvIndex _ d _ => d = data
  | _ => True
  end.

(** Nothing outside fails: the database and the engine answer every
    call, and every reply of the remote service is a JSON array of
    strings. *)
Definition healthy (env : Env) : Prop :=
  (forall n, db_fault env n = None)
  /\ (forall n, index_fault env n = None)
  /\ (forall n req,
        exists a, normalized env (CreateChatCompletion env n req) = Ret (Ok a)).

(** How [main] ended, and the world it ended in. *)
Definition is_serving (s : Startup) : bool :=
  match s with
  | Serving _ => true
  | Fatal _ _ | Crashed _ _ => false
  end.

Definition startup_world (s : Startup) : World :=
  match s with
  | Serving w | Fatal _ w | Crashed _ w => w
  end.

(** The global [index] holds an index. *)
Definition initialized (w : World) : Prop := index w <> None.

(** ** The versions of the program without the normalizer *)

(** The version that stores and indexes the request content as it is and
    creates a missing index empty, without reading the table.  Its
    [heartbeatHandler] and [searchHandler] are those of main.go, word
    for word. *)
Module Plain.

Section Program.

Variable env : Env.

Local Open Scope go_scope.

Definition insertHandler (r : Http.Request) : M Http.Response :=
  if negb (String.eqb (Http.Method r) Http.MethodPost) then
    http_Error "Invalid request method" Http.StatusMethodNotAllowed
  else
    match Json.Decode (Http.Body r) with
    | Error _ => http_Error "Invalid request body" Http.StatusBadRequest
    | Ok req =>
        row <- db_QueryRow_insert env (Json.Content req);;
        match row with
        | Error err =>
            http_Error ("Failed to insert data: " ++ err)
              Http.StatusInternalServerError
        | Ok id =>
            f <- index_Index env (Strconv.Itoa id) (Json.Content req);;
            match f with
            | Some err =>
                http_Error ("Failed to index data: " ++ err)
                  Http.StatusInternalServerError
            | None =>
                respond Http.StatusCreated
                  (Http.Text ("Document inserted with ID: " ++ Strconv.Itoa id))
            end
        end
    end.

(** This [main] reads no [.env] file and no API key; [indexMapping] is
    the analysis of the default mapping it creates the index with. *)
Definition main (b : Boot) : Startup :=
  let w0 := boot_world b in
  match sql_Open b with
  | Some err => Fatal ("Failed to connect to PostgreSQL: " ++ err) w0
  | None =>
      match index_dir b with
      | None =>
          match bleve_New b with
          | Some err => Fatal ("Failed to create index: " ++ err) w0
          | None => listen b (set_index (Bleve.New (indexMapping b)) w0)
          end
      | Some (Error err) => Fatal ("Failed to open index: " ++ err) w0
      | Some (Ok ix) => listen b (set_index ix w0)
      end
  end.

Definition ServeHTTP (r : Http.Request) : M Http.Response :=
  match Http.ServeMux_Handler r with
  | Http.RouteHeartbeat => heartbeatHandler env r
  | Http.RouteSearch => searchHandler env r
  | Http.RouteInsert => insertHandler r
  | Http.RouteRedirect url query =>
      respond Http.StatusMovedPermanently (Http.Location url query)
  | Http.RouteOptions => respond Http.StatusOK (Http.Text "")
  | Http.RouteBadRequest body => respond Http.StatusBadRequest (Http.Text body)
  | Http.RouteNotFound => http_Error "404 page not found" Http.StatusNotFound
  end.

End Program.

End Plain.

(** The version that rebuilds a missing index from the table, indexing
    the stored content as it is.  Its handlers are those of [Plain],
    word for word. *)
Module Rebuild.

Section Program.

Variable env : Env.

Local Open Scope go_scope.

Fixpoint index_rows (rows : list (Z * string)) : M fault :=
  next <- rows_Next env;;
  match next with
  | Some err => ret (Some ("Error iterating over rows: " ++ err))
  | None =>
      match rows with
      | [] => ret None
      | row :: rest =>
          scan <- rows_Scan env row;;
          match scan with
          | Some err => ret (Some ("Failed to scan row: " ++ err))
          | None =>
              f <- index_Index env (Strconv.Itoa (fst row)) (snd row);;
              match f with
              | Some err => ret (Some ("Failed to index data: " ++ err))
              | None => index_rows rest
              end
          end
      end
  end.

Definition createIndexFromDatabase : M fault :=
  q <- db_Query_documents env;;
  match q with
  | Error err => ret (Some ("Failed to query documents: " ++ err))
  | Ok rows => index_rows rows
  end.

Definition main (b : Boot) : Startup :=
  let w0 := boot_world b in
  match sql_Open b with
  | Some err => Fatal ("Failed to connect to PostgreSQL: " ++ err) w0
  | None =>
      match index_dir b with
      | None =>
          match bleve_New b with
          | Some err => Fatal ("Failed to create index: " ++ err) w0
          | None =>
              let w1 := set_index (Bleve.New (indexMapping b)) w0 in
              match createIndexFromDatabase w1 with
              | (Ret (Some err), w2) =>
                  Fatal ("Failed to create index from database: " ++ err) w2
              | (Ret None, w2) => listen b w2
              | (Panic msg, w2) => Crashed msg w2
              end
          end
      | Some (Error err) => Fatal ("Failed to open index: " ++ err) w0
      | Some (Ok ix) => listen b (set_index ix w0)
      end
  end.

End Program.

End Rebuild.

(** ** Further notions *)

(** The document under which a row of the table is indexed when its
    content is indexed as it is. *)
Definition to_doc (row : Z * string) : string * string :=
  (Strconv.Itoa (fst row), snd row).

(** The identifiers an index holds. *)
Definition index_ids (ix : Bleve.Index) : list string :=
  map fst (Bleve.docs ix).

(** An event that writes a response. *)
Definition is_respond (e : Event) : Prop :=
  match e with
  | EvRespond _ => True
  | _ => False
  end.

(** An event that calls the table for an insert, or the index for a
    write. *)
Definition is_write (e : Event) : Prop :=
  match e with
  | EvInsert _ _ | EvIndex _ _ _ => True
  | _ => False
  end.

(** An event of the replay that reads the table. *)
Definition is_table_read (e : Event) : Prop :=
  match e with
  | EvQuery _ | EvNext _ | EvScan _ _ _ => True
  | _ => False
  end.

(** What a request may do to the table and to the index: nothing, or
    add one row under the next identifier and, when the index is there
    and the engine accepts the write, index it under that identifier. *)
Definition one_request (env : Env) (w w' : World) : Prop :=
  (documents w' = documents w
   /\ documents_id_seq w' = documents_id_seq w
   /\ index w' = index w)
  \/ exists a n,
       documents w' = (documents w ++ [(documents_id_seq w, a)])%list
       /\ documents_id_seq w' = documents_id_seq w + 1
       /\ index w' =
            match index w, index_fault env n with
            | Some ix, None =>
                Some (Bleve.index_Index (Strconv.Itoa (documents_id_seq w)) a ix)
            | _, _ => index w
            end.

(** *** Requests served at the same time

    The server runs the handler of every request in a goroutine of its
    own, so the calls of the handlers interleave.  A state of the
    running server is the world together with the ingestions in flight:
    the rows that an [insertHandler] has stored and not yet given to
    [index.Index]. *)
Definition row_eqb (a b : Z * string) : bool :=
  Z.eqb (fst a) (fst b) && String.eqb (snd a) (snd b).

Fixpoint remove_row (row : Z * string) (l : list (Z * string))
  : list (Z * string) :=
  match l with
  | [] => []
  | x :: l' => if row_eqb row x then l' else x :: remove_row row l'
  end.

(** One call of some handler: a call that writes neither the table nor
    the index (the remote model, a search, an answer), the store insert
    of an ingestion, or the index write of an ingestion in flight, for
    the row it stored. *)
Inductive step (env : Env)
  : World * list (Z * string) -> World * list (Z * string) -> Prop :=
| step_quiet w w' P :
    documents w' = documents w ->
    documents_id_seq w' = documents_id_seq w ->
    index w' = index w ->
    step env (w, P) (w', P)
| step_store w P content :
    step env (w, P)
      (snd (db_QueryRow_insert env content w),
       match fst (db_QueryRow_insert env content w) with
       | Ret (Ok id) => (id, content) :: P
       | _ => P
       end)
| step_index w P id content :
    In (id, content) P ->
    step env (w, P)
      (snd (index_Index env (Strconv.Itoa id) content w),
       remove_row (id, content) P).

Inductive steps (env : Env)
  : World * list (Z * string) -> World * list (Z * string) -> Prop :=
| steps_done s : steps env s s
| steps_more s s' s'' : step env s s' -> steps env s' s'' -> steps env s s''.

(** The index holds the rows of the table but those in flight, each
    once under its identifier with its stored content, in the order of
    the engine; the identifiers of the table are distinct and below the
    next one to be assigned. *)
Definition mirrors_but (P : list (Z * string)) (w : World) : Prop :=
  exists ix,
    index w = Some ix
    /\ Permutation (Bleve.docs ix ++ map to_doc P)%list (map to_doc (documents w))
    /\ NoDup (map fst (documents w))
    /\ Forall (fun row => fst row < documents_id_seq w) (documents w).

(** An event of a served request. *)
Definition served_event (e : Event) : Prop :=
  match e with
  | EvChat _ _ | EvInsert _ _ | EvIndex _ _ _ | EvSearch _ _ | EvRespond _ => True
  | EvQuery _ | EvNext _ | EvScan _ _ _ | EvListen => False
  end.

(** Worlds in which a service is down. *)
Module Outage.

(** The table cannot be written nor read. *)
Definition db_down (tokens : list string) : Env :=
  {| CreateChatCompletion := fun _ _ => Choices [Sample.array_text tokens];
     json_Unmarshal := Sample.unmarshal;
     db_fault := fun _ => Some "connection refused";
     index_fault := fun _ => None;
     encode_fault := fun _ => None |}.

(** The engine cannot be searched. *)
Definition engine_down : Env :=
  {| CreateChatCompletion := fun _ _ => APIError "unreachable";
     json_Unmarshal := Sample.unmarshal;
     db_fault := fun _ => None;
     index_fault := fun _ => Some "index closed";
     encode_fault := fun _ => None |}.

(** A process whose global [index] was never assigned. *)
Definition no_index : World :=
  {| clock := 0%nat;
     documents := [];
     documents_id_seq := 1;
     index := None;
     trace := [] |}.

End Outage.

(** ** The engine *)

Module BleveFacts.

Import Bleve.

Lemma rank_leb_le a b : rank_leb a b = true <-> rank_le a b.
Proof.
  unfold rank_leb, rank_le. apply Z.leb_le.
Qed.

Lemma rank_leb_total a b : rank_leb a b = false -> rank_le b a.
Proof.
  unfold rank_leb, rank_le. intros H.
  apply Z.leb_gt in H. lia.
Qed.

(** Ranking is stable: the hits of one score keep the order they had. *)
Lemma rank_insert_tied s h l :
  filter (tied s) (rank_insert h l) = filter (tied s) (h :: l).
Proof.
  induction l as [| x l IH]; [reflexivity |].
  cbn [rank_insert]. destruct (rank_leb h x) eqn:E; [reflexivity |].
  cbn [filter] in *. rewrite IH.
  unfold rank_leb in E. apply Z.leb_gt in E.
  unfold tied.
  destruct (Score h =? s) eqn:Eh; [| reflexivity].
  apply Z.eqb_eq in Eh.
  destruct (Score x =? s) eqn:Ex; [| reflexivity].
  apply Z.eqb_eq in Ex. lia.
Qed.

Lemma rank_tied s l : filter (tied s) (rank l) = filter (tied s) l.
Proof.
  induction l as [| h l IH]; [reflexivity |].
  cbn [rank]. rewrite rank_insert_tied. cbn [filter]. now rewrite IH.
Qed.

Lemma rank_insert_hd h l x :
  HdRel rank_le x l -> rank_le x h -> HdRel rank_le x (rank_insert h l).
Proof.
  intros Hl Hh. destruct l as [| y l]; simpl.
  - constructor. exact Hh.
  - destruct (rank_leb h y); constructor.
    + exact Hh.
    + inversion Hl; assumption.
Qed.

Lemma rank_insert_sorted h l :
  Sorted rank_le l -> Sorted rank_le (rank_insert h l).
Proof.
  induction 1 as [| x l Hs IH Hhd]; simpl.
  - repeat constructor.
  - destruct (rank_leb h x) eqn:E.
    + constructor; [constructor; assumption |].
      constructor. apply rank_leb_le. exact E.
    + constructor; [exact IH |].
      apply rank_insert_hd; [exact Hhd |].
      apply rank_leb_total. exact E.
Qed.

Lemma rank_sorted l : Sorted rank_le (rank l).
Proof.
  induction l as [| h l IH]; simpl.
  - constructor.
  - apply rank_insert_sorted. exact IH.
Qed.

Lemma firstn_hd {A} (R : A -> A -> Prop) x l n :
  HdRel R x l -> HdRel R x (firstn n l).
Proof.
  intros H. destruct n, l; simpl; try constructor.
  inversion H; assumption.
Qed.

Lemma firstn_sorted {A} (R : A -> A -> Prop) l :
  Sorted R l -> forall n, Sorted R (firstn n l).
Proof.
  induction 1 as [| x l Hs IH Hhd]; intros [| n]; simpl; try constructor.
  - apply IH.
  - apply firstn_hd. exact Hhd.
Qed.

Lemma skipn_sorted {A} (R : A -> A -> Prop) n :
  forall l, Sorted R l -> Sorted R (skipn n l).
Proof.
  induction n as [| n IH]; intros l Hs; simpl; [exact Hs |].
  destruct l as [| x l]; [constructor |].
  apply IH. inversion Hs; assumption.
Qed.

Lemma search_hits_sorted req ix : Sorted rank_le (Hits (index_Search req ix)).
Proof.
  unfold index_Search; simpl.
  apply firstn_sorted, skipn_sorted, rank_sorted.
Qed.

Lemma rank_insert_in x h l : In x (rank_insert h l) <-> x = h \/ In x l.
Proof.
  induction l as [| y l IH]; simpl.
  - intuition.
  - destruct (rank_leb h y); simpl; rewrite ?IH; intuition.
Qed.

Lemma rank_in x l : In x (rank l) <-> In x l.
Proof.
  induction l as [| h l IH]; simpl; [tauto |].
  rewrite rank_insert_in, IH. intuition.
Qed.

Lemma rank_insert_length h l : length (rank_insert h l) = S (length l).
Proof.
  induction l as [| y l IH]; simpl; [reflexivity |].
  destruct (rank_leb h y); simpl; [reflexivity | now rewrite IH].
Qed.

Lemma rank_length l : length (rank l) = length l.
Proof.
  induction l as [| h l IH]; simpl; [reflexivity |].
  now rewrite rank_insert_length, IH.
Qed.

Lemma shares_common qs ds t : In t qs -> In t ds -> shares qs ds = true.
Proof.
  intros Hq Hd. unfold shares. apply existsb_exists.
  exists t. split; [exact Hq |].
  apply existsb_exists. exists t. split; [exact Hd | apply String.eqb_refl].
Qed.

(** After [index_Index], the document is in the index under its
    identifier with the data it was given. *)
Lemma indexed_in id data ix : In (id, data) (docs (index_Index id data ix)).
Proof. simpl. apply in_or_app. right. left. reflexivity. Qed.

(** A document that shares a token with the query is counted, and is
    among the hits when the page holds every match. *)
Lemma search_finds ix q d :
  In d (docs ix) ->
  matches ix q d = true ->
  let r := index_Search (NewSearchRequest (NewMatchQuery q)) ix in
  (1 <= Total r)%nat /\ ((Total r <= 10)%nat -> In (fst d) (hit_ids r)).
Proof.
  intros Hin Hm. unfold index_Search, hit_ids; simpl.
  assert (Hf : In d (filter (matches ix q) (docs ix)))
    by (apply filter_In; split; assumption).
  split.
  - destruct (filter (matches ix q) (docs ix)); [destruct Hf | simpl; lia].
  - intros Hle.
    set (ms := filter (matches ix q) (docs ix)) in *.
    assert (Hall : firstn 10 (rank (map (hit ix q) ms)) = rank (map (hit ix q) ms)).
    { apply firstn_all2. rewrite rank_length, length_map. exact Hle. }
    change (In (fst d) (map ID (firstn 10 (rank (map (hit ix q) ms))))).
    rewrite Hall. apply in_map_iff.
    exists (hit ix q d). split; [reflexivity |].
    apply rank_in, in_map, Hf.
Qed.

End BleveFacts.

(** ** The handlers *)

(** [getMorphologicalAnalysis] makes one call to the remote service and
    returns what [normalized] makes of the reply. *)
Lemma getMorphologicalAnalysis_run env text w :
  getMorphologicalAnalysis env text w =
    (normalized env (CreateChatCompletion env (clock w) (chat_request text)),
     tick (EvChat (chat_request text)
             (CreateChatCompletion env (clock w) (chat_request text))) w).
Proof.
  unfold getMorphologicalAnalysis, bind, openai_CreateChatCompletion, normalized.
  destruct (CreateChatCompletion env (clock w) (chat_request text))
    as [err | [| content rest]]; try reflexivity.
  destruct (json_Unmarshal env content); reflexivity.
Qed.

(** Unfolding the monad and the calls of a handler. *)
Ltac unfold_calls :=
  unfold bind, ret, panic, db_QueryRow_insert, db_Query_documents, rows_Next,
    rows_Scan, index_Index, index_Search, http_Error, respond, Encode in *.

(** ** The request target and the routes *)

Module HttpFacts.

Import Http.

(** Strings by length. *)
Lemma string_ind2 (P : string -> Prop) :
  (forall s, (forall t, (String.length t < String.length s)%nat -> P t) -> P s) ->
  forall s, P s.
Proof.
  intros H s.
  assert (G : forall n t, (String.length t < n)%nat -> P t).
  { induction n as [| n IH]; intros t Ht; [lia |].
    apply H. intros u Hu. apply IH. lia. }
  apply (G (S (String.length s))). lia.
Qed.

Lemma ishex_not_slash c : ishex c = true -> Ascii.eqb c "/" = false.
Proof.
  intros H. destruct (Ascii.eqb c "/") eqn:E; [| reflexivity].
  apply Ascii.eqb_eq in E. subst c. discriminate H.
Qed.

Lemma percent_not_slash c : Ascii.eqb c "%" = true -> Ascii.eqb c "/" = false.
Proof.
  intros H. apply Ascii.eqb_eq in H. subst c. reflexivity.
Qed.

(** Unescaping neither adds nor removes a slash that was sent as such. *)
Lemma unescape_no_slash : forall s, no_slash (unescape s) = true -> no_slash s = true.
Proof.
  induction s as [s IH] using string_ind2.
  destruct s as [| c t]; [reflexivity |].
  cbn [unescape]. destruct (Ascii.eqb c "%") eqn:Ec.
  - destruct t as [| a [| b t']].
    + cbn. rewrite (percent_not_slash c Ec). reflexivity.
    + cbn [no_slash]. intros H. apply andb_true_iff in H. destruct H as [H1 H2].
      rewrite H1. apply (IH (String a "")); [cbn; lia | exact H2].
    + destruct (ishex a && ishex b) eqn:Eh.
      * apply andb_true_iff in Eh. destruct Eh as [Ha Hb].
        cbn [no_slash]. intros H. apply andb_true_iff in H. destruct H as [_ H2].
        rewrite (percent_not_slash c Ec), (ishex_not_slash a Ha),
          (ishex_not_slash b Hb). cbn.
        apply IH; [cbn; lia | exact H2].
      * cbn [no_slash]. intros H. apply andb_true_iff in H. destruct H as [H1 H2].
        rewrite H1. apply (IH (String a (String b t'))); [cbn; lia | exact H2].
  - cbn [no_slash]. intros H. apply andb_true_iff in H. destruct H as [H1 H2].
    rewrite H1. apply IH; [cbn; lia | exact H2].
Qed.

Lemma ishex_visible c : ishex c = true -> visible c = true.
Proof.
  unfold ishex, visible. intros H.
  set (n := nat_of_ascii c) in *.
  apply orb_true_iff in H. rewrite orb_true_iff in H.
  rewrite !andb_true_iff, !Nat.leb_le in H.
  apply andb_true_iff. split.
  - apply Nat.ltb_lt. lia.
  - apply negb_true_iff, Nat.eqb_neq. lia.
Qed.

Lemma unescape_plain : forall s, plain (unescape s) = true -> well_formed s = true.
Proof.
  induction s as [s IH] using string_ind2.
  destruct s as [| c t]; [reflexivity |].
  cbn [unescape well_formed]. destruct (Ascii.eqb c "%") eqn:Ec.
  - destruct t as [| a [| b t']].
    + cbn. rewrite Ec. cbn. rewrite andb_false_r. discriminate.
    + cbn [plain]. rewrite Ec. cbn. rewrite andb_false_r. discriminate.
    + destruct (ishex a && ishex b) eqn:Eh.
      * cbn [plain]. intros H. apply andb_true_iff in H. destruct H as [_ H2].
        cbn. apply IH; [cbn; lia | exact H2].
      * cbn [plain]. rewrite Ec. cbn. rewrite andb_false_r. discriminate.
  - cbn [plain]. rewrite Ec. cbn [negb]. rewrite andb_true_r.
    intros H. apply andb_true_iff in H. destruct H as [H1 H2].
    rewrite H1. cbn. apply IH; [cbn; lia | exact H2].
Qed.

Lemma append_empty_r s : s ++ "" = s.
Proof.
  induction s as [| c s IH]; cbn; [reflexivity | now rewrite IH].
Qed.

Lemma append_snoc cur c s : (cur ++ String c "") ++ s = cur ++ String c s.
Proof.
  induction cur as [| d cur IH]; cbn; [reflexivity | now rewrite IH].
Qed.

(** The elements of a text without a slash: the text itself. *)
Lemma segments_no_slash : forall s cur,
  no_slash s = true -> segments s cur = [cur ++ s].
Proof.
  induction s as [| c s IH]; intros cur H; cbn [segments].
  - now rewrite append_empty_r.
  - cbn [no_slash] in H. apply andb_true_iff in H. destruct H as [H1 H2].
    apply negb_true_iff in H1. rewrite H1. rewrite (IH _ H2).
    now rewrite append_snoc.
Qed.

Lemma ends_with_slash_no_slash : forall s c,
  no_slash s = true -> s <> "" -> ends_with_slash (String c s) = false.
Proof.
  induction s as [| d s IH]; intros c H Hne; [congruence |].
  cbn [no_slash] in H. apply andb_true_iff in H. destruct H as [H1 H2].
  destruct s as [| e s].
  - cbn. apply negb_true_iff in H1. exact H1.
  - change (ends_with_slash (String c (String d (String e s))))
      with (ends_with_slash (String d (String e s))).
    apply IH; [exact H2 | discriminate].
Qed.

(** A path of one element is clean unless the element is empty or a
    dot element. *)
Lemma cleanPath_one_segment seg :
  no_slash seg = true -> seg <> "" -> seg <> "." -> seg <> ".." ->
  cleanPath ("/" ++ seg) = "/" ++ seg.
Proof.
  intros Hs H0 H1 H2.
  assert (Hp : path_Clean (String "/" seg) = String "/" seg).
  { unfold path_Clean. cbn [segments]. change (Ascii.eqb "/" "/") with true.
    cbn iota. rewrite (segments_no_slash seg "" Hs). cbn [append fold_left].
    apply String.eqb_neq in H0, H1, H2.
    unfold clean_step. cbn [String.eqb orb]. rewrite H0, H1, H2. cbn.
    reflexivity. }
  unfold cleanPath. change ("/" ++ seg) with (String "/" seg).
  change (String.eqb (String "/" seg) "") with false.
  change (rooted (String "/" seg)) with true. cbv iota zeta.
  rewrite (ends_with_slash_no_slash seg "/" Hs H0). cbn [andb].
  exact Hp.
Qed.

(** A path that decodes to one plain element was sent as one element,
    and in canonical form. *)
Lemma decoded_segment rest name :
  unescape rest = name -> no_slash name = true -> plain name = true ->
  name <> "" -> name <> "." -> name <> ".." ->
  no_slash rest = true /\ well_formed (String "/" rest) = true
  /\ cleanPath (String "/" rest) = String "/" rest.
Proof.
  intros Hu Hs Hp H0 H1 H2. subst name.
  pose proof (unescape_no_slash rest Hs) as Hn.
  split; [exact Hn |]. split.
  - cbn [well_formed]. change (Ascii.eqb "/" "%") with false. cbn iota.
    change (visible "/") with true. cbn [andb].
    apply unescape_plain. exact Hp.
  - apply (cleanPath_one_segment rest Hn).
    + intros E. subst rest. apply H0. reflexivity.
    + intros E. subst rest. apply H1. reflexivity.
    + intros E. subst rest. apply H2. reflexivity.
Qed.

(** The request whose decoded path is the path of one plain element. *)
Lemma Path_one_segment r name :
  Path r = String "/" name ->
  exists rest, RequestURI r = Rooted rest /\ unescape rest = name.
Proof.
  unfold Path. destruct (RequestURI r) as [| | rest]; cbn [escaped].
  - intros H. cbn in H. discriminate H.
  - intros H. cbn in H. discriminate H.
  - intros H. exists rest. split; [reflexivity |].
    change ("/" ++ rest) with (String "/" rest) in H.
    cbn [unescape] in H. change (Ascii.eqb "/" "%") with false in H.
    cbn iota in H. injection H as H. exact H.
Qed.

End HttpFacts.

(** The path of a route decides the handler, whatever the method. *)

Lemma route_search r :
  Http.Path r = "/search" -> Http.ServeMux_Handler r = Http.RouteSearch.
Proof.
  intros H. destruct (HttpFacts.Path_one_segment r "search" H) as [rest [Ht Hu]].
  destruct (HttpFacts.decoded_segment rest "search" Hu eq_refl eq_refl)
    as [Hn [Hw Hc]]; try discriminate.
  unfold Http.ServeMux_Handler. rewrite Ht. cbn [Http.escaped].
  change ("/" ++ rest) with (String "/" rest).
  rewrite Hw, Hc. cbn [negb]. rewrite String.eqb_refl.
  cbn [Http.match_pattern]. rewrite Hn, Hu. cbn.
  destruct (String.eqb (Http.Method r) "CONNECT"); reflexivity.
Qed.

Lemma route_insert r :
  Http.Path r = "/insert" -> Http.ServeMux_Handler r = Http.RouteInsert.
Proof.
  intros H. destruct (HttpFacts.Path_one_segment r "insert" H) as [rest [Ht Hu]].
  destruct (HttpFacts.decoded_segment rest "insert" Hu eq_refl eq_refl)
    as [Hn [Hw Hc]]; try discriminate.
  unfold Http.ServeMux_Handler. rewrite Ht. cbn [Http.escaped].
  change ("/" ++ rest) with (String "/" rest).
  rewrite Hw, Hc. cbn [negb]. rewrite String.eqb_refl.
  cbn [Http.match_pattern]. rewrite Hn, Hu. cbn.
  destruct (String.eqb (Http.Method r) "CONNECT"); reflexivity.
Qed.

(** What a pattern match can be, and when. *)
Lemma match_pattern_rooted rest :
  (Http.match_pattern (String "/" rest) = Some Http.RouteSearch
   /\ Http.unescape rest = "search")
  \/ (Http.match_pattern (String "/" rest) = Some Http.RouteInsert
      /\ Http.unescape rest = "insert")
  \/ (Http.match_pattern (String "/" rest) = Some Http.RouteHeartbeat
      /\ (Http.no_slash rest = true -> Http.unescape rest <> "search")
      /\ (Http.no_slash rest = true -> Http.unescape rest <> "insert")).
Proof.
  cbn [Http.match_pattern].
  destruct (Http.no_slash rest) eqn:En; cbn [andb].
  - destruct (String.eqb (Http.unescape rest) "search") eqn:Es.
    + left. split; [reflexivity | now apply String.eqb_eq].
    + destruct (String.eqb (Http.unescape rest) "insert") eqn:Ei.
      * right. left. split; [reflexivity | now apply String.eqb_eq].
      * right. right. split; [reflexivity |].
        split; intros _; now apply String.eqb_neq.
  - right. right. split; [reflexivity |]. split; discriminate.
Qed.

(** The routes of a request, by its target. *)
Lemma route_cases r :
  match Http.ServeMux_Handler r with
  | Http.RouteSearch => Http.Path r = "/search"
  | Http.RouteInsert => Http.Path r = "/insert"
  | Http.RouteNotFound => False
  | _ => True
  end.
Proof.
  unfold Http.ServeMux_Handler, Http.Path.
  destruct (Http.RequestURI r) as [| | rest]; cbn [Http.escaped].
  - destruct (String.eqb (Http.Method r) "OPTIONS"); exact I.
  - cbn. destruct (String.eqb (Http.Method r) "CONNECT"); exact I.
  - change ("/" ++ rest) with (String "/" rest).
    destruct (negb (Http.well_formed (String "/" rest))); [exact I |].
    assert (Hu : Http.unescape (String "/" rest) = String "/" (Http.unescape rest))
      by reflexivity.
    rewrite Hu.
    destruct (String.eqb (Http.Method r) "CONNECT").
    + destruct (match_pattern_rooted rest) as [[E Hs] | [[E Hs] | [E _]]];
        rewrite E; [now rewrite Hs | now rewrite Hs | exact I].
    + destruct (String.eqb (Http.cleanPath (String "/" rest)) (String "/" rest))
        eqn:Ec; [| exact I].
      apply String.eqb_eq in Ec. rewrite Ec.
      destruct (match_pattern_rooted rest) as [[E Hs] | [[E Hs] | [E _]]];
        rewrite E; [now rewrite Hs | now rewrite Hs | exact I].
Qed.


(** *** The index is initialized while the server runs *)

Lemma index_rows_initialized env rows :
  forall w, initialized w -> initialized (snd (index_rows env rows w)).
Proof.
  unfold initialized.
  induction rows as [| row rest IH]; intros w Hw; simpl; unfold_calls.
  - destruct (db_fault env (clock w)); simpl; exact Hw.
  - destruct (db_fault env (clock w)) eqn:E1; simpl; [exact Hw |].
    destruct (db_fault env (S (clock w))) eqn:E2; simpl; [exact Hw |].
    rewrite getMorphologicalAnalysis_run.
    destruct (normalized env _) as [[a | e] | m]; simpl; try exact Hw.
    destruct (index w) eqn:Ei; [| contradiction]. simpl.
    destruct (index_fault env _); simpl; [rewrite Ei; discriminate |].
    apply IH. simpl. discriminate.
Qed.

Lemma main_initialized env b w : main env b = Serving w -> initialized w.
Proof.
  unfold main, listen, initialized.
  destruct (godotenv_Load b); [discriminate |].
  destruct (String.eqb (OPENAI_API_KEY b) ""); [discriminate |].
  destruct (sql_Open b); [discriminate |].
  destruct (index_dir b) as [[ix | e] |].
  - destruct (ListenAndServe b); [discriminate |].
    intros H; inversion H; subst; simpl. discriminate.
  - discriminate.
  - destruct (bleve_New b); [discriminate |].
    destruct (createIndexFromDatabase env _) as [[[e |] | m] w2] eqn:E;
      try discriminate.
    destruct (ListenAndServe b); [discriminate |].
    intros H; inversion H; subst; simpl.
    unfold createIndexFromDatabase in E. unfold_calls.
    simpl in E. destruct (db_fault env 0); simpl in E.
    + discriminate E.
    + match type of E with
      | index_rows env ?rows ?w0 = _ =>
          pose proof (index_rows_initialized env rows w0) as Hi
      end.
      rewrite E in Hi. apply Hi. unfold initialized; simpl. discriminate.
Qed.

Lemma insertHandler_initialized env r w :
  initialized w -> initialized (snd (insertHandler env r w)).
Proof.
  unfold initialized, insertHandler. intros Hw.
  destruct (negb _); [exact Hw |].
  destruct (Json.Decode (Http.Body r)) as [req | e]; [| exact Hw].
  unfold bind at 1. rewrite getMorphologicalAnalysis_run.
  destruct (normalized env _) as [[a | e] | m]; unfold_calls; simpl; try exact Hw.
  destruct (db_fault env _); simpl; [exact Hw |].
  destruct (index w) eqn:Ei; [| contradiction]. simpl.
  destruct (index_fault env _); simpl; [rewrite Ei |]; discriminate.
Qed.

Lemma searchHandler_index env r w : index (snd (searchHandler env r w)) = index w.
Proof.
  unfold searchHandler. destruct (index w) eqn:Ei; [| simpl; now rewrite Ei].
  destruct (String.eqb _ ""); [simpl; now rewrite Ei |].
  unfold_calls. rewrite Ei.
  destruct (index_fault env _); simpl; [now rewrite Ei |].
  destruct (encode_fault env _); simpl; now rewrite Ei.
Qed.

Lemma ServeHTTP_initialized env r w :
  initialized w -> initialized (snd (ServeHTTP env r w)).
Proof.
  intros Hw. unfold ServeHTTP.
  destruct (Http.ServeMux_Handler r).
  - exact Hw.
  - unfold initialized. rewrite searchHandler_index. exact Hw.
  - apply insertHandler_initialized. exact Hw.
  - exact Hw.
  - exact Hw.
  - exact Hw.
  - exact Hw.
Qed.

Lemma reachable_initialized env b w : reachable env b w -> initialized w.
Proof.
  induction 1 as [w Hm | w r o w' Hr IH Hs].
  - eapply main_initialized. exact Hm.
  - pose proof (ServeHTTP_initialized env r w IH) as H.
    rewrite Hs in H. exact H.
Qed.

(** ** Routing and validation *)

Lemma path_Clean_rooted p : Http.rooted (Http.path_Clean p) = true.
Proof.
  unfold Http.path_Clean.
  destruct (fold_left Http.clean_step (Http.segments p "") []) as [| s stack] eqn:E;
    [reflexivity |].
  destruct (rev (s :: stack)) as [| x l] eqn:Er.
  - apply (f_equal (@length string)) in Er. rewrite length_rev in Er. discriminate.
  - destruct l; reflexivity.
Qed.

Lemma rooted_app s t :
  Http.rooted s = true -> Http.rooted (s ++ t) = true.
Proof.
  destruct s as [| c s]; simpl; [discriminate | trivial].
Qed.

Lemma cleanPath_rooted p : Http.rooted (Http.cleanPath p) = true.
Proof.
  unfold Http.cleanPath.
  destruct (String.eqb p ""); [reflexivity |].
  set (p' := if Http.rooted p then p else "/" ++ p).
  pose proof (path_Clean_rooted p') as H.
  destruct (Http.ends_with_slash p' && negb (String.eqb (Http.path_Clean p') "/"));
    [| exact H].
  apply rooted_app. exact H.
Qed.



(** C7: on a running server, a request for /search whose parameter q is
    missing or empty is answered 400 (Missing query parameter 'q'): an
    empty query is never answered with a successful result. *)
Theorem search_without_query_is_400 env b w r :
  reachable env b w ->
  Http.Path r = "/search" ->
  Http.Query_Get r "q" = "" ->
  exists w',
    ServeHTTP env r w =
      (Ret (error_response "Missing query parameter 'q'" 400), w').
Proof.
  intros Hr Hp Hq.
  apply reachable_initialized in Hr. unfold initialized in Hr.
  unfold ServeHTTP. rewrite (route_search r Hp).
  unfold searchHandler.
  destruct (index w); [| contradiction].
  rewrite Hq. simpl. unfold http_Error, error_response.
  eexists. reflexivity.
Qed.

Lemma search_without_query_is_400_witness :
  exists w',
    ServeHTTP (Sample.steady ["fox"]) (Sample.get_path "/search")
      (emit EvListen (set_index (Bleve.New Sample.mapping)
         (boot_world (Sample.boot (Some (Ok (Bleve.New Sample.mapping))) [])))) =
      (Ret (error_response "Missing query parameter 'q'" 400), w').
Proof.
  apply (search_without_query_is_400 (Sample.steady ["fox"])
           (Sample.boot (Some (Ok (Bleve.New Sample.mapping))) [])).
  - apply reach_main. reflexivity.
  - reflexivity.
  - reflexivity.
Defined.




(** ** Ingestion *)

(** The run of [insertHandler] on a POST whose body decodes. *)
Lemma insertHandler_run env r req w :
  Http.Method r = "POST" ->
  Json.Decode (Http.Body r) = Ok req ->
  let chat := chat_request (Json.Content req) in
  let reply := CreateChatCompletion env (clock w) chat in
  let w1 := tick (EvChat chat reply) w in
  let id := documents_id_seq w in
  insertHandler env r w =
    match normalized env reply with
    | Panic m => (Panic m, w1)
    | Ret (Error e) =>
        (Ret (error_response ("Failed to analyze text: " ++ e) 500),
         emit (EvRespond 500) w1)
    | Ret (Ok a) =>
        match db_fault env (S (clock w)) with
        | Some e =>
            (Ret (error_response ("Failed to insert data: " ++ e) 500),
             emit (EvRespond 500) (tick (EvInsert a (Error e)) w1))
        | None =>
            let w2 := tick (EvInsert a (Ok id)) (add_document id a w1) in
            match index w with
            | None => (Panic "invalid memory address or nil pointer dereference", w2)
            | Some ix =>
                match index_fault env (S (S (clock w))) with
                | Some e =>
                    (Ret (error_response ("Failed to index data: " ++ e) 500),
                     emit (EvRespond 500)
                       (tick (EvIndex (Strconv.Itoa id) a (Some e)) w2))
                | None =>
                    (Ret {| Http.Status := 201;
                            Http.Written :=
                              Http.Text ("Document inserted with ID: " ++ Strconv.Itoa id) |},
                     emit (EvRespond 201)
                       (tick (EvIndex (Strconv.Itoa id) a None)
                          (set_index (Bleve.index_Index (Strconv.Itoa id) a ix) w2)))
                end
            end
        end
    end.
Proof.
  intros Hm Hd. cbv zeta.
  unfold insertHandler. rewrite Hm, Hd.
  change (negb (String.eqb "POST" Http.MethodPost)) with false. cbv iota.
  unfold bind at 1. rewrite getMorphologicalAnalysis_run.
  destruct (normalized env _) as [[a | e] | m]; unfold_calls; simpl;
    try reflexivity.
  destruct (db_fault env (S (clock w))); simpl; [reflexivity |].
  destruct (index w); simpl; [| reflexivity].
  destruct (index_fault env (S (S (clock w)))); reflexivity.
Qed.

(** Members with other keys leave the struct as it is. *)
Lemma decode_members_without_content ms :
  Json.has_content ms = false ->
  forall req, Json.decode_members ms req = Ok req.
Proof.
  induction ms as [| [k v] ms IH]; intros Hc req; simpl; [reflexivity |].
  simpl in Hc. apply orb_false_iff in Hc. destruct Hc as [Hk Hc].
  rewrite Hk. apply IH. exact Hc.
Qed.

(** C6, as the spec has it, fails: the well-formed body [{}] has no
    content member, and the request is not answered 400 but goes on to
    normalization, store and index, and is answered 201. *)
Lemma insert_without_content_is_accepted :
  Json.has_content [] = false
  /\ fst (ServeHTTP (Sample.steady ["fox"])
            (Sample.post_insert (Some (Json.JObject []))) Sample.fresh)
     = Ret {| Http.Status := 201;
              Http.Written := Http.Text "Document inserted with ID: 1" |}.
Proof. split; reflexivity. Qed.

(** C6, amended: a POST to [insertHandler] is answered 400 exactly when
    the body does not decode into the request struct (no JSON value, a
    value that is neither an object nor null, or a content member that
    is neither a string nor null); a body that decodes is never answered
    400, and an object without a content member is handled as the
    content "" is: it goes on to normalization, store and index. *)
Theorem insert_400_iff_body_undecodable env r w :
  Http.Method r = "POST" ->
  (forall e, Json.Decode (Http.Body r) = Error e ->
     insertHandler env r w =
       (Ret (error_response "Invalid request body" 400), emit (EvRespond 400) w))
  /\ (forall req, Json.Decode (Http.Body r) = Ok req ->
        forall resp w', insertHandler env r w = (Ret resp, w') ->
                        Http.Status resp <> 400)
  /\ (forall ms, Http.Body r = Some (Json.JObject ms) ->
        Json.has_content ms = false ->
        insertHandler env r w =
          insertHandler env
            {| Http.Method := "POST"; Http.RequestURI := Http.RequestURI r;
               Http.RawQuery := Http.RawQuery r;
               Http.Body := Some (Json.JObject [("content", Json.JString "")]) |} w).
Proof.
  intros Hm. split; [| split].
  - intros e He. unfold insertHandler. rewrite Hm, He. reflexivity.
  - intros req Hd resp w'.
    rewrite (insertHandler_run env r req w Hm Hd).
    destruct (normalized env _) as [[a | e] | m].
    + destruct (db_fault env _).
      { intros H; inversion H; subst; discriminate. }
      destruct (index w); [| discriminate].
      destruct (index_fault env _); intros H; inversion H; subst; discriminate.
    + intros H; inversion H; subst; discriminate.
    + discriminate.
  - intros ms Hb Hc.
    assert (Hd : Json.Decode (Http.Body r) = Ok {| Json.Content := "" |}).
    { rewrite Hb. simpl. apply decode_members_without_content. exact Hc. }
    rewrite (insertHandler_run env r _ w Hm Hd).
    set (r0 := {| Http.Method := "POST"; Http.RequestURI := Http.RequestURI r;
                  Http.RawQuery := Http.RawQuery r;
                  Http.Body := Some (Json.JObject [("content", Json.JString "")]) |}).
    rewrite (insertHandler_run env r0 {| Json.Content := "" |} w eq_refl eq_refl).
    reflexivity.
Qed.

Lemma insert_400_iff_body_undecodable_witness :
  fst (insertHandler (Sample.steady ["fox"]) (Sample.post_insert None) Sample.fresh)
  = Ret (error_response "Invalid request body" 400).
Proof.
  pose proof (insert_400_iff_body_undecodable (Sample.steady ["fox"])
                (Sample.post_insert None) Sample.fresh eq_refl) as [H _].
  rewrite (H _ eq_refl). reflexivity.
Defined.

(** C4: in [insertHandler] the value inserted into the table and the
    value given to [index.Index] are both the result of
    [getMorphologicalAnalysis], whatever the request content was.  On a
    POST whose body decodes, once the normalization has returned
    [analysis], the store insert is called with [analysis]; when it
    succeeds the row added to the table holds [analysis] under the new
    identifier, and [index.Index] is then called with that identifier
    and [analysis]; when that succeeds too the index holds [analysis]
    under the identifier and the answer is 201.  No other store or index
    call is made.  When the normalization returns an error the handler
    answers 500, and when it panics the request is aborted, in both
    cases with the table and the index as they were and no store or
    index call made. *)
Theorem insert_writes_normalized_content env r req w o w' :
  Http.Method r = "POST" ->
  Json.Decode (Http.Body r) = Ok req ->
  insertHandler env r w = (o, w') ->
  let chat := chat_request (Json.Content req) in
  let reply := CreateChatCompletion env (clock w) chat in
  let id := documents_id_seq w in
  match normalized env reply with
  | Ret (Ok analysis) =>
      match db_fault env (S (clock w)) with
      | Some e =>
          o = Ret (error_response ("Failed to insert data: " ++ e) 500)
          /\ documents w' = documents w
          /\ index w' = index w
          /\ trace w' =
               (trace w ++ [EvChat chat reply; EvInsert analysis (Error e);
                            EvRespond 500])%list
      | None =>
          documents w' = (documents w ++ [(id, analysis)])%list
          /\ match index w with
             | None =>
                 o = Panic "invalid memory address or nil pointer dereference"
                 /\ index w' = None
                 /\ trace w' =
                      (trace w ++ [EvChat chat reply;
                                   EvInsert analysis (Ok id)])%list
             | Some ix =>
                 match index_fault env (S (S (clock w))) with
                 | Some e =>
                     o = Ret (error_response ("Failed to index data: " ++ e) 500)
                     /\ index w' = Some ix
                     /\ trace w' =
                          (trace w ++ [EvChat chat reply;
                                       EvInsert analysis (Ok id);
                                       EvIndex (Strconv.Itoa id) analysis (Some e);
                                       EvRespond 500])%list
                 | None =>
                     (exists resp, o = Ret resp /\ Http.Status resp = 201)
                     /\ index w' =
                          Some (Bleve.index_Index (Strconv.Itoa id) analysis ix)
                     /\ trace w' =
                          (trace w ++ [EvChat chat reply;
                                       EvInsert analysis (Ok id);
                                       EvIndex (Strconv.Itoa id) analysis None;
                                       EvRespond 201])%list
                 end
             end
      end
      /\ exists evs,
           trace w' = (trace w ++ EvChat chat reply :: evs)%list
           /\ Forall (writes analysis) evs
  | Ret (Error err) =>
      o = Ret (error_response ("Failed to analyze text: " ++ err) 500)
      /\ documents w' = documents w
      /\ index w' = index w
      /\ trace w' = (trace w ++ [EvChat chat reply; EvRespond 500])%list
  | Panic msg =>
      o = Panic msg
      /\ documents w' = documents w
      /\ index w' = index w
      /\ trace w' = (trace w ++ [EvChat chat reply])%list
  end.
Proof.
  intros Hm Hd. rewrite (insertHandler_run env r req w Hm Hd). cbv zeta.
  destruct (normalized env _) as [[a | e] | m].
  - destruct (db_fault env _).
    { intros H; inversion H; subst; simpl.
      rewrite <- !app_assoc. split; [repeat split |].
      eexists. split; [reflexivity |]. repeat constructor. }
    destruct (index w) as [ix |] eqn:Ei.
    2: { intros H; inversion H; subst; simpl. rewrite ?Ei.
         rewrite <- !app_assoc. split; [repeat split |].
         eexists. split; [reflexivity |]. repeat constructor. }
    destruct (index_fault env _); intros H; inversion H; subst; simpl;
      rewrite ?Ei.
    + rewrite <- !app_assoc. split; [repeat split |].
      eexists. split; [reflexivity |]. repeat constructor.
    + rewrite <- !app_assoc.
      split; [split; [reflexivity |]; split;
              [eexists; split; reflexivity | split; reflexivity] |].
      eexists. split; [reflexivity |]. repeat constructor.
  - intros H; inversion H; subst; simpl.
    rewrite <- app_assoc. repeat split.
  - intros H; inversion H; subst; simpl. repeat split.
Qed.

Lemma insert_writes_normalized_content_witness :
  let e := Sample.steady ["quick"; "fox"] in
  let r := Sample.insert_content "the quick fox" in
  let w' := snd (insertHandler e r Sample.fresh) in
  documents w' = [(1, "[quick fox]")]
  /\ option_map Bleve.docs (index w') = Some [("1", "[quick fox]")]
  /\ trace w' =
       [EvChat (chat_request "the quick fox")
          (CreateChatCompletion e 0 (chat_request "the quick fox"));
        EvInsert "[quick fox]" (Ok 1);
        EvIndex "1" "[quick fox]" None;
        EvRespond 201].
Proof.
  intros e r w'.
  pose proof (insert_writes_normalized_content e r
                {| Json.Content := "the quick fox" |} Sample.fresh
                (fst (insertHandler e r Sample.fresh)) w'
                eq_refl eq_refl (surjective_pairing _)) as H.
  cbv zeta in H.
  change (normalized e
            (CreateChatCompletion e (clock Sample.fresh)
               (chat_request (Json.Content {| Json.Content := "the quick fox" |}))))
    with (@Ret (result string) (Ok "[quick fox]")) in H.
  cbv iota in H.
  change (db_fault e (S (clock Sample.fresh))) with (@None string) in H.
  change (index Sample.fresh) with (Some (Bleve.New Sample.mapping)) in H.
  change (index_fault e (S (S (clock Sample.fresh)))) with (@None string) in H.
  cbv iota in H.
  destruct H as [[Hdocs [_ [Hix Htr]]] _].
  split; [exact Hdocs |]. split; [rewrite Hix; reflexivity | exact Htr].
Defined.

(** C3: whenever [insertHandler] answers 201, the calls of the request
    were, in this order, the normalization, the store insert that
    returned the identifier, the index write for that identifier, which
    succeeded, and only then the response; the document is then in the
    table and in the index.  In every run, an index write is attempted
    only right after the store insert has returned its identifier. *)
Theorem insert_success_is_durable_and_indexed env r w o w' :
  insertHandler env r w = (o, w') ->
  exists evs,
    trace w' = (trace w ++ evs)%list
    /\ (forall i d f, In (EvIndex i d f) evs ->
          exists chat,
            firstn 3 evs =
              [chat; EvInsert d (Ok (documents_id_seq w)); EvIndex i d f]
            /\ i = Strconv.Itoa (documents_id_seq w))
    /\ (forall resp, o = Ret resp -> Http.Status resp = 201 ->
          exists chat analysis ix,
            let id := documents_id_seq w in
            evs = [chat; EvInsert analysis (Ok id);
                   EvIndex (Strconv.Itoa id) analysis None; EvRespond 201]
            /\ In (id, analysis) (documents w')
            /\ index w' = Some ix
            /\ In (Strconv.Itoa id, analysis) (Bleve.docs ix)).
Proof.
  destruct (String.eqb_spec (Http.Method r) "POST") as [Hm | Hm].
  2: { unfold insertHandler.
       destruct (String.eqb_spec (Http.Method r) Http.MethodPost); [contradiction |].
       intros H; inversion H; subst; simpl.
       eexists; split; [reflexivity |]. split.
       - intros i d f [Hi | []]. discriminate.
       - intros resp Hr; inversion Hr; subst; discriminate. }
  destruct (Json.Decode (Http.Body r)) as [req | e] eqn:Hd.
  2: { unfold insertHandler. rewrite Hm, Hd.
       intros H; inversion H; subst; simpl.
       eexists; split; [reflexivity |]. split.
       - intros i d f [Hi | []]. discriminate.
       - intros resp Hr; inversion Hr; subst; discriminate. }
  rewrite (insertHandler_run env r req w Hm Hd). cbv zeta.
  destruct (normalized env _) as [[a | e] | m].
  - destruct (db_fault env _).
    { intros H; inversion H; subst; simpl. rewrite <- !app_assoc.
      eexists; split; [reflexivity |]. split.
      - simpl. intros i d f Hin. intuition discriminate.
      - intros resp Hr; inversion Hr; subst; discriminate. }
    destruct (index w) as [ix |] eqn:Ei.
    2: { intros H; inversion H; subst; simpl. rewrite <- !app_assoc.
         eexists; split; [reflexivity |]. split.
         - simpl. intros i d f Hin. intuition discriminate.
         - discriminate. }
    destruct (index_fault env _); intros H; inversion H; subst; simpl;
      rewrite <- !app_assoc; (eexists; split; [reflexivity |]); split.
    + simpl. intros i d f [Hin | [Hin | [Hin | [Hin | []]]]]; try discriminate.
      inversion Hin; subst. eexists. split; reflexivity.
    + intros resp Hr; inversion Hr; subst; discriminate.
    + simpl. intros i d f [Hin | [Hin | [Hin | [Hin | []]]]]; try discriminate.
      inversion Hin; subst. eexists. split; reflexivity.
    + intros resp _ _. eexists _, a, _. simpl.
      split; [reflexivity |]. split; [apply in_or_app; right; left; reflexivity |].
      split; [reflexivity |]. apply in_or_app. right. left. reflexivity.
  - intros H; inversion H; subst; simpl. rewrite <- !app_assoc.
    eexists; split; [reflexivity |]. split.
    + simpl. intros i d f Hin. intuition discriminate.
    + intros resp Hr; inversion Hr; subst; discriminate.
  - intros H; inversion H; subst; simpl.
    eexists; split; [reflexivity |]. split.
    + simpl. intros i d f Hin. intuition discriminate.
    + discriminate.
Qed.

Lemma insert_success_is_durable_and_indexed_witness :
  exists evs,
    trace (snd (insertHandler (Sample.steady ["quick"; "fox"])
                  (Sample.insert_content "the quick fox") Sample.fresh)) = evs
    /\ In (EvRespond 201) evs.
Proof.
  destruct (insert_success_is_durable_and_indexed (Sample.steady ["quick"; "fox"])
              (Sample.insert_content "the quick fox") Sample.fresh _ _ eq_refl)
    as [evs [Ht _]].
  exists evs. split; [exact Ht |].
  simpl in Ht. rewrite <- Ht. simpl. tauto.
Defined.

(** C5: when the store insert of a request succeeds and the index write
    that follows fails, [insertHandler] answers 500 (Failed to index
    data), not 201; the row stays in the table, and the index is as it
    was before the request. *)
Theorem index_failure_leaves_row_and_reports_500 env r req w ix a e :
  Http.Method r = "POST" ->
  Json.Decode (Http.Body r) = Ok req ->
  index w = Some ix ->
  normalized env
    (CreateChatCompletion env (clock w) (chat_request (Json.Content req)))
  = Ret (Ok a) ->
  db_fault env (S (clock w)) = None ->
  index_fault env (S (S (clock w))) = Some e ->
  exists w',
    insertHandler env r w =
      (Ret (error_response ("Failed to index data: " ++ e) 500), w')
    /\ documents w' = (documents w ++ [(documents_id_seq w, a)])%list
    /\ index w' = Some ix
    /\ exists chat,
         trace w' =
           (trace w ++
              [chat; EvInsert a (Ok (documents_id_seq w));
               EvIndex (Strconv.Itoa (documents_id_seq w)) a (Some e);
               EvRespond 500])%list.
Proof.
  intros Hm Hd Hi Hn Hdb Hix.
  rewrite (insertHandler_run env r req w Hm Hd). cbv zeta.
  rewrite Hn, Hdb, Hi, Hix.
  eexists. split; [reflexivity |]. simpl.
  split; [reflexivity |]. split; [exact Hi |].
  eexists. rewrite <- !app_assoc. reflexivity.
Qed.

Lemma index_failure_leaves_row_and_reports_500_witness :
  exists w',
    insertHandler (Sample.index_down ["quick"; "fox"])
      (Sample.insert_content "the quick fox") Sample.fresh =
      (Ret (error_response ("Failed to index data: " ++ "disk full") 500), w')
    /\ documents w' = (documents Sample.fresh ++ [(1, "[quick fox]")])%list
    /\ index w' = Some (Bleve.New Sample.mapping)
    /\ exists chat,
         trace w' =
           (trace Sample.fresh ++
              [chat; EvInsert "[quick fox]" (Ok 1);
               EvIndex (Strconv.Itoa 1) "[quick fox]" (Some "disk full");
               EvRespond 500])%list.
Proof.
  apply (index_failure_leaves_row_and_reports_500
           (Sample.index_down ["quick"; "fox"])
           (Sample.insert_content "the quick fox")
           {| Json.Content := "the quick fox" |}
           Sample.fresh (Bleve.New Sample.mapping) "[quick fox]" "disk full");
    reflexivity.
Defined.

(** ** Search *)

(** A run is known from its outcome. *)
Lemma run_fst {A B} (x : A * B) (o : A) : fst x = o -> x = (o, snd x).
Proof. intros <-. apply surjective_pairing. Qed.

(** The run of [searchHandler] on an initialized index and a query that
    is not empty. *)
Lemma searchHandler_run env r w ix :
  index w = Some ix ->
  Http.Query_Get r "q" <> "" ->
  let q := Http.Query_Get r "q" in
  let result := Bleve.index_Search (Bleve.NewSearchRequest (Bleve.NewMatchQuery q)) ix in
  searchHandler env r w =
    match index_fault env (clock w) with
    | Some e =>
        (Ret (error_response ("Search failed: " ++ e) 500),
         emit (EvRespond 500) (tick (EvSearch q (Some e)) w))
    | None =>
        match encode_fault env (S (clock w)) with
        | Some e =>
            (Ret (error_response ("Failed to encode response: " ++ e) 500),
             emit (EvRespond 500)
               (snd (Encode env (tick (EvSearch q None) w))))
        | None =>
            (Ret {| Http.Status := 200; Http.Written := Http.JSONResult result |},
             emit (EvRespond 200)
               (snd (Encode env (tick (EvSearch q None) w))))
        end
    end.
Proof.
  intros Hi Hq. cbv zeta. unfold searchHandler. rewrite Hi.
  destruct (String.eqb_spec (Http.Query_Get r "q") ""); [contradiction |].
  unfold_calls. rewrite Hi. simpl.
  destruct (index_fault env (clock w)); simpl; [reflexivity |].
  destruct (encode_fault env (S (clock w))); reflexivity.
Qed.

(** C8, as the spec has it, fails: hits of equal score are not ordered
    by identifier.  A server that rebuilds its index from a table which
    the database returns as row 2, then row 1, both normalized to the
    same tokens, answers a search for fox with document 2 before
    document 1, at the same score. *)
Lemma tied_hits_are_not_in_identifier_order :
  let e := Sample.steady ["fox"] in
  let b := Sample.boot None [(2, "a fox"); (1, "the fox")] in
  is_serving (main e b) = true
  /\ exists result,
       fst (searchHandler e (Sample.get_search "fox") (startup_world (main e b)))
       = Ret {| Http.Status := 200; Http.Written := Http.JSONResult result |}
       /\ Bleve.Hits result =
            [{| Bleve.ID := "2"; Bleve.Score := 1 |};
             {| Bleve.ID := "1"; Bleve.Score := 1 |}].
Proof.
  intros e b. split; [vm_compute; reflexivity |].
  eexists. split; vm_compute; reflexivity.
Qed.

(** C8, amended: every successful answer of [searchHandler] is to a
    query that is not empty and carries the hits of the engine for the
    match query, in the order of the engine.  The hits are the head of
    the ranking of all the matches; the ranking is by descending score,
    and the matches of one score come in it in the order in which the
    index holds them (the order in which they were last indexed), not
    by identifier. *)
Theorem search_hits_are_ranked env r w resp w' :
  searchHandler env r w = (Ret resp, w') ->
  Http.Status resp = 200 ->
  Http.Query_Get r "q" <> ""
  /\ exists ix,
       index w = Some ix
       /\ Http.Written resp =
            Http.JSONResult
              (Bleve.index_Search
                 (Bleve.NewSearchRequest (Bleve.NewMatchQuery (Http.Query_Get r "q")))
                 ix)
       /\ Sorted rank_le
            (Bleve.Hits
               (Bleve.index_Search
                  (Bleve.NewSearchRequest (Bleve.NewMatchQuery (Http.Query_Get r "q")))
                  ix))
       /\ exists rest,
            let ranking :=
              (Bleve.Hits
                 (Bleve.index_Search
                    (Bleve.NewSearchRequest
                       (Bleve.NewMatchQuery (Http.Query_Get r "q")))
                    ix) ++ rest)%list in
            Sorted rank_le ranking
            /\ forall s,
                 filter (tied s) ranking
                 = filter (tied s) (matched ix (Http.Query_Get r "q")).
Proof.
  destruct (index w) as [ix |] eqn:Hi.
  2: { unfold searchHandler. rewrite Hi. unfold_calls.
       intros H; inversion H; subst; discriminate. }
  destruct (String.eqb_spec (Http.Query_Get r "q") "") as [Hq | Hq].
  { unfold searchHandler. rewrite Hi, Hq. unfold_calls. simpl.
    intros H; inversion H; subst; discriminate. }
  rewrite (searchHandler_run env r w ix Hi Hq). cbv zeta.
  destruct (index_fault env _).
  { intros H; inversion H; subst; discriminate. }
  destruct (encode_fault env _).
  { intros H; inversion H; subst; discriminate. }
  intros H _. inversion H; subst. cbn [Http.Written].
  split; [exact Hq |]. exists ix.
  split; [reflexivity |]. split; [reflexivity |].
  split; [apply BleveFacts.search_hits_sorted |].
  exists (skipn 10 (Bleve.rank (matched ix (Http.Query_Get r "q")))).
  assert (E : (Bleve.Hits
                 (Bleve.index_Search
                    (Bleve.NewSearchRequest
                       (Bleve.NewMatchQuery (Http.Query_Get r "q"))) ix)
               ++ skipn 10 (Bleve.rank (matched ix (Http.Query_Get r "q"))))%list
              = Bleve.rank (matched ix (Http.Query_Get r "q"))).
  { unfold Bleve.index_Search, matched.
    cbn [Bleve.Hits Bleve.NewSearchRequest Bleve.NewSearchRequestOptions
         Bleve.NewMatchQuery Bleve.Size Bleve.From Bleve.Query Bleve.Match skipn].
    apply firstn_skipn. }
  rewrite E. split; [apply BleveFacts.rank_sorted |].
  intros s. apply BleveFacts.rank_tied.
Qed.

Lemma search_hits_are_ranked_witness :
  let e := Sample.steady ["quick"; "fox"] in
  let w := Sample.serve_all e
             [Sample.insert_content "a"; Sample.insert_content "b"] Sample.fresh in
  exists ix,
    index w = Some ix
    /\ Sorted rank_le
         (Bleve.Hits
            (Bleve.index_Search
               (Bleve.NewSearchRequest (Bleve.NewMatchQuery "fox")) ix)).
Proof.
  intros e w.
  let o := eval vm_compute in (fst (searchHandler e (Sample.get_search "fox") w)) in
  assert (Hrun : searchHandler e (Sample.get_search "fox") w =
                 (o, snd (searchHandler e (Sample.get_search "fox") w)))
    by (apply run_fst; vm_compute; reflexivity).
  destruct (search_hits_are_ranked e (Sample.get_search "fox") w _ _ Hrun eq_refl)
    as [_ [ix [Hi [_ [Hs _]]]]].
  exists ix. split; [exact Hi | exact Hs].
Defined.

(** ** The normalizer *)

(** C9, as the spec has it, fails: two calls of
    [getMorphologicalAnalysis] on the same text return different
    normalized outputs when the remote service answers the second call
    differently. *)
Lemma normalizer_is_not_a_function_of_the_text :
  let e := Sample.env (fun n =>
             Choices [Sample.array_text (if Nat.eqb n 0 then ["a"] else ["b"])]) in
  let first := getMorphologicalAnalysis e "x" Sample.fresh in
  let second := getMorphologicalAnalysis e "x" (snd first) in
  fst first = Ret (Ok "[a]")
  /\ fst second = Ret (Ok "[b]")
  /\ fst first <> fst second.
Proof.
  cbv zeta. split; [vm_compute; reflexivity |].
  split; [vm_compute; reflexivity |].
  vm_compute. discriminate.
Qed.

(** C9, amended: [getMorphologicalAnalysis] keeps no state of its own,
    and its result is determined by the reply of the remote service to
    the request built from the text: it makes that one call, leaves the
    table and the index alone, and two calls with the same text return
    the same result whenever the service gives them the same reply. *)
Theorem normalizer_is_a_function_of_the_reply env text w1 w2 :
  CreateChatCompletion env (clock w1) (chat_request text) =
  CreateChatCompletion env (clock w2) (chat_request text) ->
  fst (getMorphologicalAnalysis env text w1) =
  fst (getMorphologicalAnalysis env text w2)
  /\ documents (snd (getMorphologicalAnalysis env text w1)) = documents w1
  /\ index (snd (getMorphologicalAnalysis env text w1)) = index w1
  /\ trace (snd (getMorphologicalAnalysis env text w1)) =
       (trace w1
          ++ [EvChat (chat_request text)
                (CreateChatCompletion env (clock w1) (chat_request text))])%list.
Proof.
  intros H. rewrite !getMorphologicalAnalysis_run. simpl.
  rewrite H. repeat split.
Qed.

Lemma normalizer_is_a_function_of_the_reply_witness :
  let e := Sample.steady ["quick"; "fox"] in
  let w1 := Sample.fresh in
  let w2 := snd (getMorphologicalAnalysis e "the quick fox" w1) in
  fst (getMorphologicalAnalysis e "the quick fox" w1) =
  fst (getMorphologicalAnalysis e "the quick fox" w2).
Proof.
  intros e w1 w2.
  exact (proj1 (normalizer_is_a_function_of_the_reply e "the quick fox" w1 w2
                  eq_refl)).
Defined.

(** ** Startup *)

Lemma serving_world s : is_serving s = true -> s = Serving (startup_world s).
Proof. destruct s; simpl; [discriminate | discriminate | reflexivity]. Qed.

(** The loop of the replay, when it returns no error: every row was
    normalized and indexed under its identifier, in the order of the
    cursor; every call went well; the table is as it was. *)
Lemma index_rows_replays env rows :
  forall w ix w',
    index w = Some ix ->
    index_rows env rows w = (Ret None, w') ->
    exists analyses evs,
      Forall2 (normalizes env) rows analyses
      /\ index w' = Some (index_all rows analyses ix)
      /\ trace w' = (trace w ++ evs)%list
      /\ Forall (event_ok env) evs
      /\ Forall replay_event evs
      /\ documents w' = documents w.
Proof.
  induction rows as [| row rest IH]; intros w ix w' Hi; simpl; unfold_calls.
  - destruct (db_fault env (clock w)) eqn:E1; simpl; [discriminate |].
    intros H; inversion H; subst; simpl.
    exists [], [EvNext None]. repeat split; try assumption.
    + constructor.
    + repeat constructor.
    + repeat constructor.
  - destruct (db_fault env (clock w)) eqn:E1; simpl; [discriminate |].
    destruct (db_fault env (S (clock w))) eqn:E2; simpl; [discriminate |].
    rewrite getMorphologicalAnalysis_run. simpl.
    destruct (normalized env _) as [[a | e] | m] eqn:En; simpl;
      [| discriminate | discriminate].
    rewrite Hi.
    destruct (index_fault env _) eqn:E3; simpl; [discriminate |].
    intros Hrest.
    apply (IH _ (Bleve.index_Index (Strconv.Itoa (fst row)) a ix)) in Hrest;
      [| reflexivity].
    destruct Hrest as [analyses [evs [Hall [Hix [Htr [Hok [Hrep Hdocs]]]]]]].
    exists (a :: analyses).
    eexists.
    split; [constructor; [eexists; exact En | exact Hall] |].
    split; [exact Hix |].
    split; [rewrite Htr; simpl; rewrite <- !app_assoc; simpl; reflexivity |].
    split.
    + repeat (constructor; simpl; try reflexivity). 
      * eexists. exact En.
      * exact Hok.
    + split; [| exact Hdocs].
      repeat (constructor; simpl; try exact I). exact Hrep.
Qed.

(** The loop of the replay runs to its end when nothing fails. *)
Lemma index_rows_completes env rows :
  healthy env ->
  forall w, initialized w -> exists w', index_rows env rows w = (Ret None, w').
Proof.
  intros [Hdb [Hix Hllm]].
  induction rows as [| row rest IH]; intros w Hw; simpl; unfold_calls.
  - rewrite Hdb. eexists. reflexivity.
  - rewrite !Hdb. rewrite getMorphologicalAnalysis_run. simpl.
    destruct (Hllm (S (S (clock w))) (chat_request (snd row))) as [a Ha].
    rewrite Ha. simpl.
    unfold initialized in Hw. destruct (index w) as [ix |]; [| contradiction].
    rewrite Hix. simpl. apply IH. unfold initialized. simpl. discriminate.
Qed.

Lemma createIndexFromDatabase_completes env :
  healthy env ->
  forall w, initialized w ->
            exists w', createIndexFromDatabase env w = (Ret None, w').
Proof.
  intros Hh w Hw. unfold createIndexFromDatabase. unfold_calls.
  rewrite (proj1 Hh).
  apply (index_rows_completes env (documents w) Hh). exact Hw.
Qed.

(** C2: when [main] gets as far as the index and no index directory
    exists, it creates an empty index and replays the table into it
    before it listens: a server that comes up holds the index of every
    row, each normalized and indexed under its identifier, all calls of
    the replay went well and no request was served meanwhile; an error
    of the replay makes [main] end with [log.Fatalf], and a panic of the
    replay ends the process; and when nothing fails the server does
    come up. *)
Theorem startup_replays_the_store env b :
  godotenv_Load b = None ->
  OPENAI_API_KEY b <> "" ->
  sql_Open b = None ->
  index_dir b = None ->
  (forall w,
     main env b = Serving w ->
     bleve_New b = None
     /\ exists analyses evs,
          Forall2 (normalizes env) (boot_documents b) analyses
          /\ index w =
               Some (index_all (boot_documents b) analyses
                       (Bleve.New (indexMapping b)))
          /\ trace w = (evs ++ [EvListen])%list
          /\ Forall (event_ok env) evs
          /\ Forall replay_event evs)
  /\ (bleve_New b = None ->
      match createIndexFromDatabase env
              (set_index (Bleve.New (indexMapping b)) (boot_world b)) with
      | (Ret (Some err), w2) =>
          main env b = Fatal ("Failed to create index from database: " ++ err) w2
      | (Panic msg, w2) => main env b = Crashed msg w2
      | (Ret None, w2) => main env b = listen b w2
      end)
  /\ (healthy env -> bleve_New b = None -> ListenAndServe b = None ->
      exists w, main env b = Serving w).
Proof.
  intros Henv Hkey Hsql Hdir.
  assert (Hk : String.eqb (OPENAI_API_KEY b) "" = false)
    by (apply String.eqb_neq; exact Hkey).
  split; [| split].
  - intros w. unfold main. rewrite Henv, Hk, Hsql, Hdir.
    destruct (bleve_New b); [discriminate |].
    destruct (createIndexFromDatabase env _) as [[[e |] | m] w2] eqn:E;
      try discriminate.
    unfold listen. destruct (ListenAndServe b); [discriminate |].
    intros H; inversion H; subst; clear H.
    split; [reflexivity |].
    unfold createIndexFromDatabase in E. unfold_calls. simpl in E.
    destruct (db_fault env 0) eqn:E0; simpl in E; [discriminate |].
    eapply index_rows_replays in E; [| reflexivity].
    destruct E as [analyses [evs [Hall [Hix [Htr [Hok [Hrep _]]]]]]].
    exists analyses, (EvQuery None :: evs).
    split; [exact Hall |].
    split; [exact Hix |].
    split; [simpl; rewrite Htr; reflexivity |].
    split; constructor; simpl; auto.
  - intros Hnew. unfold main. rewrite Henv, Hk, Hsql, Hdir, Hnew.
    destruct (createIndexFromDatabase env _) as [[[e |] | m] w2]; reflexivity.
  - intros Hh Hnew Hl. unfold main. rewrite Henv, Hk, Hsql, Hdir, Hnew.
    destruct (createIndexFromDatabase_completes env Hh
                (set_index (Bleve.New (indexMapping b)) (boot_world b)))
      as [w' Hw'].
    { unfold initialized. simpl. discriminate. }
    rewrite Hw'. unfold listen. rewrite Hl. eexists. reflexivity.
Qed.

Lemma startup_replays_the_store_witness :
  let e := Sample.steady ["quick"; "fox"] in
  let b := Sample.boot None [(1, "the quick fox"); (2, "a fox")] in
  exists w analyses,
    main e b = Serving w
    /\ Forall2 (normalizes e) (boot_documents b) analyses
    /\ index w =
         Some (index_all (boot_documents b) analyses (Bleve.New (indexMapping b))).
Proof.
  intros e b.
  destruct (startup_replays_the_store e b eq_refl) as [Hserve _];
    [discriminate | reflexivity | reflexivity |].
  assert (Hmain : main e b = Serving (startup_world (main e b)))
    by (apply serving_world; vm_compute; reflexivity).
  destruct (Hserve _ Hmain) as [_ [analyses [evs [Hall [Hix _]]]]].
  exists (startup_world (main e b)), analyses.
  split; [exact Hmain |]. split; [exact Hall | exact Hix].
Defined.

(** ** Further properties of the handlers *)

Lemma route_insert_inv r :
  Http.ServeMux_Handler r = Http.RouteInsert -> Http.Path r = "/insert".
Proof.
  intros H. pose proof (route_cases r) as C. rewrite H in C. exact C.
Qed.

(** X1: [insertHandler] answers 405 exactly for the methods other than
    POST, and when it answers 405 or 400 it has called neither the
    remote model, nor the table, nor the index: the only thing it did
    was to write the response. *)
Theorem insert_rejects_before_any_call env r w resp w' :
  insertHandler env r w = (Ret resp, w') ->
  (Http.Status resp = 405 <-> Http.Method r <> "POST")
  /\ (Http.Status resp = 405 \/ Http.Status resp = 400 ->
      clock w' = clock w
      /\ documents w' = documents w
      /\ index w' = index w
      /\ trace w' = (trace w ++ [EvRespond (Http.Status resp)])%list).
Proof.
  destruct (String.eqb_spec (Http.Method r) "POST") as [Hm | Hm].
  2: { unfold insertHandler.
       destruct (String.eqb_spec (Http.Method r) Http.MethodPost); [contradiction |].
       intros H; inversion H; subst; simpl. split; [tauto |].
       intros _. repeat split. }
  destruct (Json.Decode (Http.Body r)) as [req | e] eqn:Hd.
  2: { unfold insertHandler. rewrite Hm, Hd.
       intros H; inversion H; subst; simpl. split.
       - split; [discriminate | intros Hn; contradiction].
       - intros _. repeat split. }
  rewrite (insertHandler_run env r req w Hm Hd). cbv zeta.
  assert (Hno : forall msg w0,
             (Ret (error_response msg 500), w0) = (Ret resp, w') ->
             (Http.Status resp = 405 <-> Http.Method r <> "POST")
             /\ (Http.Status resp = 405 \/ Http.Status resp = 400 ->
                 clock w' = clock w /\ documents w' = documents w
                 /\ index w' = index w
                 /\ trace w' = (trace w ++ [EvRespond (Http.Status resp)])%list)).
  { intros msg w0 H; inversion H; subst; simpl. split.
    - split; [discriminate | intros Hn; contradiction].
    - intros [H5 | H5]; discriminate. }
  destruct (normalized env _) as [[a | e] | m]; [| apply Hno | discriminate].
  destruct (db_fault env _); [apply Hno |].
  destruct (index w); [| discriminate].
  destruct (index_fault env _); [apply Hno |].
  intros H; inversion H; subst; simpl. split.
  - split; [discriminate | intros Hn; contradiction].
  - intros [H5 | H5]; discriminate.
Qed.

Lemma insert_rejects_before_any_call_witness :
  clock (snd (insertHandler (Sample.steady ["fox"]) (Sample.get_path "/insert")
                Sample.fresh)) = clock Sample.fresh.
Proof.
  destruct (insert_rejects_before_any_call (Sample.steady ["fox"])
              (Sample.get_path "/insert") Sample.fresh
              (error_response "Invalid request method" 405)
              (snd (insertHandler (Sample.steady ["fox"])
                      (Sample.get_path "/insert") Sample.fresh))
              eq_refl) as [_ H].
  exact (proj1 (H (or_introl eq_refl))).
Defined.

(** X2: when the store insert fails, [insertHandler] answers 500
    (Failed to insert data) without attempting the index write: the
    table and the index are as they were, although the remote model was
    called. *)
Theorem store_failure_skips_the_index env r req w a e :
  Http.Method r = "POST" ->
  Json.Decode (Http.Body r) = Ok req ->
  normalized env
    (CreateChatCompletion env (clock w) (chat_request (Json.Content req)))
  = Ret (Ok a) ->
  db_fault env (S (clock w)) = Some e ->
  exists w',
    insertHandler env r w =
      (Ret (error_response ("Failed to insert data: " ++ e) 500), w')
    /\ documents w' = documents w
    /\ index w' = index w
    /\ exists chat,
         trace w' = (trace w ++ [chat; EvInsert a (Error e); EvRespond 500])%list.
Proof.
  intros Hm Hd Hn Hdb.
  rewrite (insertHandler_run env r req w Hm Hd). cbv zeta.
  rewrite Hn, Hdb. eexists. split; [reflexivity |]. simpl.
  split; [reflexivity |]. split; [reflexivity |].
  eexists. rewrite <- !app_assoc. reflexivity.
Qed.

Lemma store_failure_skips_the_index_witness :
  exists w',
    insertHandler (Outage.db_down ["quick"; "fox"])
      (Sample.insert_content "the quick fox") Sample.fresh =
      (Ret (error_response ("Failed to insert data: " ++ "connection refused") 500), w')
    /\ documents w' = documents Sample.fresh
    /\ index w' = index Sample.fresh
    /\ exists chat,
         trace w' =
           (trace Sample.fresh
              ++ [chat; EvInsert "[quick fox]" (Error "connection refused");
                  EvRespond 500])%list.
Proof.
  apply (store_failure_skips_the_index (Outage.db_down ["quick"; "fox"])
           (Sample.insert_content "the quick fox")
           {| Json.Content := "the quick fox" |} Sample.fresh
           "[quick fox]" "connection refused");
    reflexivity.
Defined.

Lemma search_read_only_state env r w :
  documents (snd (searchHandler env r w)) = documents w
  /\ documents_id_seq (snd (searchHandler env r w)) = documents_id_seq w
  /\ index (snd (searchHandler env r w)) = index w.
Proof.
  split; [| split; [| apply searchHandler_index]];
    unfold searchHandler;
    (destruct (index w) as [ix |] eqn:Hi; [| reflexivity]);
    (destruct (String.eqb (Http.Query_Get r "q") ""); [reflexivity |]);
    unfold_calls; rewrite Hi;
    (destruct (index_fault env (clock w)); simpl; [reflexivity |]);
    destruct (encode_fault env (S (clock w))); reflexivity.
Qed.

(** X3: [searchHandler] only reads: whatever the request and whatever
    fails, the table, its sequence and the index are as they were, and
    no insert and no index write was made. *)
Theorem search_is_read_only env r w :
  documents (snd (searchHandler env r w)) = documents w
  /\ documents_id_seq (snd (searchHandler env r w)) = documents_id_seq w
  /\ index (snd (searchHandler env r w)) = index w
  /\ exists evs,
       trace (snd (searchHandler env r w)) = (trace w ++ evs)%list
       /\ Forall (fun e => ~ is_write e) evs.
Proof.
  unfold searchHandler.
  destruct (index w) as [ix |] eqn:Hi.
  2: { simpl. rewrite Hi. repeat split.
       eexists. split; [reflexivity |]. repeat constructor. simpl. tauto. }
  destruct (String.eqb (Http.Query_Get r "q") "").
  { simpl. rewrite Hi. repeat split.
    eexists. split; [reflexivity |]. repeat constructor. simpl. tauto. }
  unfold_calls. rewrite Hi.
  destruct (index_fault env (clock w)); simpl.
  { rewrite Hi. repeat split. rewrite <- app_assoc.
    eexists. split; [reflexivity |]. repeat constructor; simpl; tauto. }
  destruct (encode_fault env (S (clock w))); simpl; rewrite Hi; repeat split;
    rewrite <- app_assoc;
    (eexists; split; [reflexivity |]; repeat constructor; simpl; tauto).
Qed.

(** X4: [searchHandler] always answers, and never panics.  It answers
    200 exactly when the index is initialized, the parameter q is not
    empty, the engine runs the search and the result is encoded; the
    initialization is checked first, so that without an index the answer
    is 500 (Index is not initialized) even when q is missing. *)
Theorem search_answers_200_iff env r w :
  exists resp,
    fst (searchHandler env r w) = Ret resp
    /\ (Http.Status resp = 200 <->
        initialized w
        /\ Http.Query_Get r "q" <> ""
        /\ index_fault env (clock w) = None
        /\ encode_fault env (S (clock w)) = None)
    /\ (index w = None -> resp = error_response "Index is not initialized" 500)
    /\ (Http.Status resp = 200 \/ Http.Status resp = 400 \/ Http.Status resp = 500).
Proof.
  unfold initialized.
  destruct (index w) as [ix |] eqn:Hi.
  2: { unfold searchHandler. rewrite Hi. eexists. split; [reflexivity |].
       simpl. split; [| split; [reflexivity | tauto]].
       split; [discriminate | intros [H _]; contradiction]. }
  destruct (String.eqb_spec (Http.Query_Get r "q") "") as [Hq | Hq].
  { unfold searchHandler. rewrite Hi, Hq. eexists. split; [reflexivity |].
    simpl. split; [| split; [discriminate | tauto]].
    split; [discriminate | intros [_ [H _]]; contradiction]. }
  rewrite (searchHandler_run env r w ix Hi Hq). cbv zeta.
  destruct (index_fault env (clock w)) eqn:E1.
  { eexists. split; [reflexivity |]. simpl.
    split; [| split; [discriminate | tauto]].
    split; [discriminate | intros [_ [_ [H _]]]; discriminate]. }
  destruct (encode_fault env (S (clock w))) eqn:E2.
  { eexists. split; [reflexivity |]. simpl.
    split; [| split; [discriminate | tauto]].
    split; [discriminate | intros [_ [_ [_ H]]]; discriminate]. }
  eexists. split; [reflexivity |]. simpl.
  split; [| split; [discriminate | tauto]].
  split; [intros _; repeat split; [discriminate | exact Hq] | reflexivity].
Qed.

(** X5: a successful answer of [searchHandler] carries one page of the
    request that [bleve.NewSearchRequest] builds: the first ten hits, or
    all of them when fewer than ten documents match; the total still
    counts every match. *)
Theorem search_returns_the_first_page env r w resp w' :
  searchHandler env r w = (Ret resp, w') ->
  Http.Status resp = 200 ->
  exists result,
    Http.Written resp = Http.JSONResult result
    /\ Bleve.Size (Bleve.Request result) = 10%nat
    /\ Bleve.From (Bleve.Request result) = 0%nat
    /\ length (Bleve.Hits result) = Nat.min 10 (Bleve.Total result).
Proof.
  destruct (index w) as [ix |] eqn:Hi.
  2: { unfold searchHandler. rewrite Hi. unfold_calls.
       intros H; inversion H; subst; discriminate. }
  destruct (String.eqb_spec (Http.Query_Get r "q") "") as [Hq | Hq].
  { unfold searchHandler. rewrite Hi, Hq. unfold_calls. simpl.
    intros H; inversion H; subst; discriminate. }
  rewrite (searchHandler_run env r w ix Hi Hq). cbv zeta.
  destruct (index_fault env _).
  { intros H; inversion H; subst; discriminate. }
  destruct (encode_fault env _).
  { intros H; inversion H; subst; discriminate. }
  intros H _. inversion H; subst. cbn [Http.Written].
  eexists. split; [reflexivity |].
  split; [reflexivity |]. split; [reflexivity |].
  unfold Bleve.index_Search.
  cbn [Bleve.Hits Bleve.Total Bleve.Size Bleve.From Bleve.NewSearchRequest
       Bleve.NewSearchRequestOptions skipn].
  rewrite length_firstn, BleveFacts.rank_length, length_map. reflexivity.
Qed.

Lemma search_returns_the_first_page_witness :
  let e := Sample.steady ["quick"; "fox"] in
  let w := Sample.serve_all e (repeat (Sample.insert_content "a") 12) Sample.fresh in
  exists result,
    Http.Written
      {| Http.Status := 200;
         Http.Written :=
           Http.JSONResult
             (Bleve.index_Search
                (Bleve.NewSearchRequest (Bleve.NewMatchQuery "fox"))
                {| Bleve.mapping := Sample.mapping;
                   Bleve.docs :=
                     map (fun n => (Strconv.Itoa (Z.of_nat n), "[quick fox]"))
                       (seq 1 12) |}) |}
    = Http.JSONResult result
    /\ Bleve.Size (Bleve.Request result) = 10%nat
    /\ Bleve.From (Bleve.Request result) = 0%nat
    /\ length (Bleve.Hits result) = Nat.min 10 (Bleve.Total result).
Proof.
  intros e w.
  apply (search_returns_the_first_page e (Sample.get_search "fox") w _
           (snd (searchHandler e (Sample.get_search "fox") w))).
  - apply run_fst. vm_compute. reflexivity.
  - reflexivity.
Defined.

(** What one request may do to the table and to the index. *)
Lemma insertHandler_effect env r w :
  let w' := snd (insertHandler env r w) in
  (documents w' = documents w /\ documents_id_seq w' = documents_id_seq w
   /\ index w' = index w)
  \/ (Http.Method r = "POST"
      /\ exists req a,
           Json.Decode (Http.Body r) = Ok req
           /\ normalized env
                (CreateChatCompletion env (clock w) (chat_request (Json.Content req)))
              = Ret (Ok a)
           /\ documents w' = (documents w ++ [(documents_id_seq w, a)])%list
           /\ documents_id_seq w' = documents_id_seq w + 1
           /\ (index w' = index w
               \/ exists ix,
                    index w = Some ix
                    /\ index_fault env (S (S (clock w))) = None
                    /\ index w' =
                         Some (Bleve.index_Index
                                 (Strconv.Itoa (documents_id_seq w)) a ix))).
Proof.
  cbv zeta.
  destruct (String.eqb_spec (Http.Method r) "POST") as [Hm | Hm].
  2: { left. unfold insertHandler.
       destruct (String.eqb_spec (Http.Method r) Http.MethodPost); [contradiction |].
       repeat split. }
  destruct (Json.Decode (Http.Body r)) as [req | e] eqn:Hd.
  2: { left. unfold insertHandler. rewrite Hm, Hd. repeat split. }
  rewrite (insertHandler_run env r req w Hm Hd). cbv zeta.
  destruct (normalized env _) as [[a | e] | m] eqn:Hn;
    [| left; repeat split | left; repeat split].
  destruct (db_fault env _); [left; repeat split |].
  right. split; [exact Hm |]. exists req, a.
  split; [reflexivity |]. split; [exact Hn |].
  destruct (index w) as [ix |] eqn:Hi.
  2: { simpl. repeat split. left. exact Hi. }
  destruct (index_fault env _) eqn:Hf; simpl.
  - repeat split. left. exact Hi.
  - repeat split. right. exists ix. repeat split.
Qed.

Lemma heartbeatHandler_effect env r w :
  documents (snd (heartbeatHandler env r w)) = documents w
  /\ documents_id_seq (snd (heartbeatHandler env r w)) = documents_id_seq w
  /\ index (snd (heartbeatHandler env r w)) = index w.
Proof. repeat split. Qed.

(** X6: only a POST to /insert whose body decodes can change the table
    or the index; every other request, whatever its path, method and
    body, leaves both as they were. *)
Theorem only_insert_changes_the_state env r w :
  documents (snd (ServeHTTP env r w)) <> documents w
  \/ index (snd (ServeHTTP env r w)) <> index w ->
  Http.Path r = "/insert"
  /\ Http.Method r = "POST"
  /\ exists req, Json.Decode (Http.Body r) = Ok req.
Proof.
  unfold ServeHTTP.
  destruct (Http.ServeMux_Handler r) eqn:Er.
  - simpl. intros [H | H]; contradiction H; reflexivity.
  - destruct (search_read_only_state env r w) as [Hd [_ Hi]].
    rewrite Hd, Hi. intros [H | H]; contradiction H; reflexivity.
  - intros Hch. split; [apply route_insert_inv; exact Er |].
    destruct (insertHandler_effect env r w) as [[Hd [_ Hi]] | [Hm [req [a [Hdec _]]]]].
    + rewrite Hd, Hi in Hch. destruct Hch as [H | H]; contradiction H; reflexivity.
    + split; [exact Hm |]. exists req. exact Hdec.
  - simpl. intros [H | H]; contradiction H; reflexivity.
  - simpl. intros [H | H]; contradiction H; reflexivity.
  - simpl. intros [H | H]; contradiction H; reflexivity.
  - simpl. intros [H | H]; contradiction H; reflexivity.
Qed.

Lemma only_insert_changes_the_state_witness :
  let e := Sample.steady ["quick"; "fox"] in
  let r := Sample.insert_content "the quick fox" in
  Http.Path r = "/insert"
  /\ Http.Method r = "POST"
  /\ exists req, Json.Decode (Http.Body r) = Ok req.
Proof.
  intros e r.
  apply (only_insert_changes_the_state e r Sample.fresh).
  left. vm_compute. discriminate.
Defined.

(** X7: a request that is answered was answered once, by the last thing
    that the server did for it: nothing is called and nothing is
    written after the response; a request whose handler panics was not
    answered at all. *)
Theorem every_request_is_answered_once env r w o w' :
  ServeHTTP env r w = (o, w') ->
  exists evs,
    trace w' = (trace w ++ evs)%list
    /\ match o with
       | Ret resp =>
           exists before,
             evs = (before ++ [EvRespond (Http.Status resp)])%list
             /\ Forall (fun e => ~ is_respond e) before
       | Panic _ => Forall (fun e => ~ is_respond e) evs
       end.
Proof.
  assert (Hdone : forall resp w0 before,
             (Ret resp, emit (EvRespond (Http.Status resp)) w0) = (o, w') ->
             trace w0 = (trace w ++ before)%list ->
             Forall (fun e => ~ is_respond e) before ->
             exists evs,
               trace w' = (trace w ++ evs)%list
               /\ match o with
                  | Ret resp =>
                      exists before,
                        evs = (before ++ [EvRespond (Http.Status resp)])%list
                        /\ Forall (fun e => ~ is_respond e) before
                  | Panic _ => Forall (fun e => ~ is_respond e) evs
                  end).
  { intros resp w0 before H Ht Hb. inversion H; subst; simpl. rewrite Ht.
    rewrite <- app_assoc. eexists. split; [reflexivity |].
    exists before. split; [reflexivity | exact Hb]. }
  unfold ServeHTTP.
  destruct (Http.ServeMux_Handler r).
  - unfold heartbeatHandler, bind, Encode, respond. simpl. intros H.
    eapply (Hdone status_ok _ []); [exact H | simpl; now rewrite app_nil_r | constructor].
  - destruct (index w) as [ix |] eqn:Hi.
    2: { unfold searchHandler. rewrite Hi. intros H.
         apply (Hdone (error_response "Index is not initialized" 500) w []);
           [exact H | now rewrite app_nil_r | constructor]. }
    destruct (String.eqb_spec (Http.Query_Get r "q") "") as [Hq | Hq].
    { unfold searchHandler. rewrite Hi, Hq. intros H.
      apply (Hdone (error_response "Missing query parameter 'q'" 400) w []);
        [exact H | now rewrite app_nil_r | constructor]. }
    rewrite (searchHandler_run env r w ix Hi Hq). cbv zeta.
    destruct (index_fault env _).
    { intros H. eapply (Hdone (error_response _ 500)); [exact H | reflexivity |].
      repeat constructor. simpl. tauto. }
    destruct (encode_fault env _); intros H.
    + eapply (Hdone (error_response _ 500)); [exact H | reflexivity |].
      repeat constructor. simpl. tauto.
    + eapply (Hdone {| Http.Status := 200 |}); [exact H | reflexivity |].
      repeat constructor. simpl. tauto.
  - destruct (String.eqb_spec (Http.Method r) "POST") as [Hm | Hm].
    2: { unfold insertHandler.
         destruct (String.eqb_spec (Http.Method r) Http.MethodPost); [contradiction |].
         intros H.
         apply (Hdone (error_response "Invalid request method" 405) w []);
           [exact H | now rewrite app_nil_r | constructor]. }
    destruct (Json.Decode (Http.Body r)) as [req | e] eqn:Hd.
    2: { unfold insertHandler. rewrite Hm, Hd. intros H.
         apply (Hdone (error_response "Invalid request body" 400) w []);
           [exact H | now rewrite app_nil_r | constructor]. }
    rewrite (insertHandler_run env r req w Hm Hd). cbv zeta.
    destruct (normalized env _) as [[a | e] | m].
    + destruct (db_fault env _).
      { intros H. eapply (Hdone (error_response _ 500)); [exact H | |].
        - simpl. rewrite <- app_assoc. reflexivity.
        - repeat constructor; simpl; tauto. }
      destruct (index w) as [ix |].
      2: { intros H; inversion H; subst; simpl. rewrite <- app_assoc.
           eexists. split; [reflexivity |]. repeat constructor; simpl; tauto. }
      destruct (index_fault env _); intros H.
      * eapply (Hdone (error_response _ 500)); [exact H | |].
        -- simpl. rewrite <- !app_assoc. reflexivity.
        -- repeat constructor; simpl; tauto.
      * eapply (Hdone {| Http.Status := 201 |}); [exact H | |].
        -- simpl. rewrite <- !app_assoc. reflexivity.
        -- repeat constructor; simpl; tauto.
    + intros H. eapply (Hdone (error_response _ 500)); [exact H | reflexivity |].
      repeat constructor. simpl. tauto.
    + intros H; inversion H; subst; simpl.
      eexists. split; [reflexivity |]. repeat constructor. simpl. tauto.
  - unfold respond. intros H.
    apply (Hdone {| Http.Status := 301; Http.Written := Http.Location path query |}
             w []);
      [exact H | now rewrite app_nil_r | constructor].
  - unfold respond. intros H.
    apply (Hdone {| Http.Status := 200; Http.Written := Http.Text "" |} w []);
      [exact H | now rewrite app_nil_r | constructor].
  - unfold respond. intros H.
    apply (Hdone {| Http.Status := 400; Http.Written := Http.Text body |} w []);
      [exact H | now rewrite app_nil_r | constructor].
  - intros H.
    apply (Hdone (error_response "404 page not found" 404) w []);
      [exact H | now rewrite app_nil_r | constructor].
Qed.

Lemma every_request_is_answered_once_witness :
  let e := Sample.steady ["quick"; "fox"] in
  let run := ServeHTTP e (Sample.insert_content "the quick fox") Sample.fresh in
  exists evs, trace (snd run) = (trace Sample.fresh ++ evs)%list.
Proof.
  intros e run.
  destruct (every_request_is_answered_once e
              (Sample.insert_content "the quick fox") Sample.fresh
              (fst run) (snd run) (surjective_pairing _)) as [evs [Ht _]].
  exists evs. exact Ht.
Defined.

(** One request adds at most one row, at the end of the table, and the
    sequence of identifiers does not go back. *)
Lemma ServeHTTP_table env r w :
  exists rows,
    documents (snd (ServeHTTP env r w)) = (documents w ++ rows)%list
    /\ (length rows <= 1)%nat
    /\ documents_id_seq w <= documents_id_seq (snd (ServeHTTP env r w)).
Proof.
  unfold ServeHTTP.
  destruct (Http.ServeMux_Handler r).
  - exists []. simpl. rewrite app_nil_r. repeat split; [lia | lia].
  - destruct (search_read_only_state env r w) as [Hd [Hs _]].
    exists []. rewrite Hd, Hs, app_nil_r. repeat split; [simpl; lia | lia].
  - destruct (insertHandler_effect env r w)
      as [[Hd [Hs _]] | [_ [req [a [_ [_ [Hd [Hs _]]]]]]]].
    + exists []. rewrite Hd, Hs, app_nil_r. repeat split; [simpl; lia | lia].
    + eexists. rewrite Hd, Hs. split; [reflexivity |]. simpl. split; lia.
  - exists []. simpl. rewrite app_nil_r. repeat split; [lia | lia].
  - exists []. simpl. rewrite app_nil_r. repeat split; [lia | lia].
  - exists []. simpl. rewrite app_nil_r. repeat split; [lia | lia].
  - exists []. simpl. rewrite app_nil_r. repeat split; [lia | lia].
Qed.

(** X8: the table is append-only.  After any sequence of requests the
    rows it held are still there, unchanged and in the same place; at
    most one row per request was added at its end; the identifier
    sequence did not go back; and the index is still initialized. *)
Theorem table_is_append_only env rs :
  forall w,
    exists rows,
      documents (Sample.serve_all env rs w) = (documents w ++ rows)%list
      /\ (length rows <= length rs)%nat
      /\ documents_id_seq w <= documents_id_seq (Sample.serve_all env rs w)
      /\ (initialized w -> initialized (Sample.serve_all env rs w)).
Proof.
  induction rs as [| r rs IH]; intros w; simpl.
  - exists []. rewrite app_nil_r. split; [reflexivity |].
    split; [simpl; lia |]. split; [lia | trivial].
  - destruct (ServeHTTP_table env r w) as [rows1 [Hd1 [Hl1 Hs1]]].
    destruct (IH (snd (ServeHTTP env r w))) as [rows2 [Hd2 [Hl2 [Hs2 Hi2]]]].
    exists (rows1 ++ rows2)%list.
    rewrite Hd2, Hd1, <- app_assoc. split; [reflexivity |].
    rewrite length_app. split; [lia |]. split; [lia |].
    intros Hw. apply Hi2. apply ServeHTTP_initialized. exact Hw.
Qed.

(** ** Invariants of a running server *)

Lemma Itoa_inj a b : Strconv.Itoa a = Strconv.Itoa b -> a = b.
Proof.
  unfold Strconv.Itoa. intros H.
  assert (Hn : forall z, Z.to_int z <> Decimal.Pos Decimal.Nil
                         /\ Z.to_int z <> Decimal.Neg Decimal.Nil).
  { intros [| p | p]; simpl; split; try discriminate;
      intros E; inversion E as [E'];
      exact (DecimalPos.Unsigned.to_uint_nonnil p E'). }
  apply (f_equal NilZero.int_of_string) in H.
  rewrite !NilZero.isi in H by apply Hn.
  inversion H as [H']. apply to_int_inj. exact H'.
Qed.

(** The identifiers of an index after a write: the one written, and
    those it held. *)
Lemma index_Index_ids i j d ix :
  In i (index_ids (Bleve.index_Index j d ix)) <-> i = j \/ In i (index_ids ix).
Proof.
  unfold index_ids. simpl. rewrite map_app, in_app_iff. simpl. split.
  - intros [H | [H | []]]; [right | left; symmetry; exact H].
    apply in_map_iff in H. destruct H as [x [Hx Hin]].
    apply filter_In in Hin. apply in_map_iff. exists x. tauto.
  - intros [H | H]; [right; left; symmetry; exact H |].
    destruct (String.eqb_spec j i) as [E | E]; [right; left; exact E |].
    left. apply in_map_iff in H. destruct H as [x [Hx Hin]].
    apply in_map_iff. exists x. split; [exact Hx |].
    apply filter_In. split; [exact Hin |].
    apply negb_true_iff. apply String.eqb_neq. congruence.
Qed.

Lemma index_all_ids i rows analyses :
  length rows = length analyses ->
  forall ix,
    In i (index_ids (index_all rows analyses ix))
    <-> In i (index_ids ix) \/ exists row, In row rows /\ i = Strconv.Itoa (fst row).
Proof.
  revert analyses. unfold index_all.
  induction rows as [| row rows IH]; intros [| a analyses] Hl ix; simpl in *;
    try discriminate.
  - split; [tauto | intros [H | [row [[] _]]]; exact H].
  - injection Hl as Hl. rewrite (IH analyses Hl). rewrite index_Index_ids. split.
    + intros [[H | H] | [r [Hr Hi]]].
      * right. exists row. split; [left; reflexivity | exact H].
      * left. exact H.
      * right. exists r. split; [right; exact Hr | exact Hi].
    + intros [H | [r [[Hr | Hr] Hi]]].
      * left. right. exact H.
      * subst r. left. left. exact Hi.
      * right. exists r. split; assumption.
Qed.

(** What a server that comes up after a replay holds. *)
Lemma main_rebuilds env b w :
  index_dir b = None ->
  main env b = Serving w ->
  exists analyses,
    Forall2 (normalizes env) (boot_documents b) analyses
    /\ index w =
         Some (index_all (boot_documents b) analyses (Bleve.New (indexMapping b)))
    /\ documents w = boot_documents b.
Proof.
  intros Hdir. unfold main. rewrite Hdir.
  destruct (godotenv_Load b); [discriminate |].
  destruct (String.eqb (OPENAI_API_KEY b) ""); [discriminate |].
  destruct (sql_Open b); [discriminate |].
  destruct (bleve_New b); [discriminate |].
  destruct (createIndexFromDatabase env _) as [[[e |] | m] w2] eqn:E;
    try discriminate.
  unfold listen. destruct (ListenAndServe b); [discriminate |].
  intros H; inversion H; subst; clear H.
  unfold createIndexFromDatabase in E. unfold_calls. simpl in E.
  destruct (db_fault env 0); simpl in E; [discriminate |].
  eapply index_rows_replays in E; [| reflexivity].
  destruct E as [analyses [evs [Hall [Hix [_ [_ [_ Hdocs]]]]]]].
  exists analyses. split; [exact Hall |]. split; [exact Hix | exact Hdocs].
Qed.

(** What one request does to the table and to the index. *)
Lemma ServeHTTP_one_request env r w : one_request env w (snd (ServeHTTP env r w)).
Proof.
  unfold one_request, ServeHTTP.
  destruct (Http.ServeMux_Handler r); try solve [left; repeat split].
  - left. apply search_read_only_state.
  - destruct (String.eqb_spec (Http.Method r) "POST") as [Hm | Hm].
    2: { left. unfold insertHandler.
         destruct (String.eqb_spec (Http.Method r) Http.MethodPost); [contradiction |].
         repeat split. }
    destruct (Json.Decode (Http.Body r)) as [req | e] eqn:Hd.
    2: { left. unfold insertHandler. rewrite Hm, Hd. repeat split. }
    rewrite (insertHandler_run env r req w Hm Hd). cbv zeta.
    destruct (normalized env _) as [[a | e] | m];
      [| left; repeat split | left; repeat split].
    destruct (db_fault env _); [left; repeat split |].
    right. exists a, (S (S (clock w))).
    destruct (index w) as [ix |] eqn:Ew;
      [| split; [reflexivity | split; [reflexivity | exact Ew]]].
    destruct (index_fault env _); split; try reflexivity;
      split; try reflexivity. exact Ew.
Qed.

(** X9: on a server that built its index at startup, the index holds
    nothing but rows of the table: every identifier in the index is the
    decimal text of the identifier of a stored row, in every state the
    server reaches. *)
Theorem index_holds_only_stored_rows env b w :
  index_dir b = None ->
  reachable env b w ->
  forall ix i,
    index w = Some ix ->
    In i (index_ids ix) ->
    exists row, In row (documents w) /\ i = Strconv.Itoa (fst row).
Proof.
  intros Hdir Hr. induction Hr as [w Hm | w r o w' Hr IH Hs].
  - destruct (main_rebuilds env b w Hdir Hm) as [analyses [Hall [Hix Hdocs]]].
    intros ix i Hi Hin. rewrite Hix in Hi. inversion Hi; subst ix; clear Hi.
    apply index_all_ids in Hin; [| eapply Forall2_length; exact Hall].
    destruct Hin as [[] | Hin]. rewrite Hdocs. exact Hin.
  - pose proof (ServeHTTP_one_request env r w) as He. rewrite Hs in He. simpl in He.
    intros ix' i Hi Hin.
    destruct He as [[Hd [_ Hx]] | [a [n [Hd [_ Hx]]]]].
    + rewrite Hd. apply (IH ix' i); [rewrite <- Hx; exact Hi | exact Hin].
    + rewrite Hd.
      assert (Hold : forall ix, index w = Some ix -> In i (index_ids ix) ->
                                exists row,
                                  In row (documents w ++ [(documents_id_seq w, a)])
                                  /\ i = Strconv.Itoa (fst row)).
      { intros ix H1 H2. destruct (IH ix i H1 H2) as [row [Hrow Hi']].
        exists row. split; [apply in_or_app; left; exact Hrow | exact Hi']. }
      destruct (index w) as [ix |] eqn:Ew; [| rewrite Hx in Hi; discriminate].
      destruct (index_fault env _).
      * apply (Hold ix); [reflexivity |]. rewrite Hx in Hi.
        inversion Hi; subst; exact Hin.
      * rewrite Hx in Hi. inversion Hi; subst ix'; clear Hi.
        apply index_Index_ids in Hin. destruct Hin as [Hin | Hin].
        -- exists (documents_id_seq w, a).
           split; [apply in_or_app; right; left; reflexivity | exact Hin].
        -- apply (Hold ix); [reflexivity | exact Hin].
Qed.

Lemma index_holds_only_stored_rows_witness :
  let e := Sample.steady ["quick"; "fox"] in
  let b := Sample.boot None [(7, "the quick fox")] in
  exists row,
    In row (documents (startup_world (main e b))) /\ "7" = Strconv.Itoa (fst row).
Proof.
  intros e b.
  assert (Hids : option_map index_ids (index (startup_world (main e b)))
                 = Some ["7"]) by (vm_compute; reflexivity).
  assert (Hreach : reachable e b (startup_world (main e b)))
    by (apply reach_main; apply serving_world; vm_compute; reflexivity).
  destruct (index (startup_world (main e b))) as [ix |] eqn:Hi; [| discriminate].
  apply (index_holds_only_stored_rows e b (startup_world (main e b)) eq_refl
           Hreach ix "7" Hi).
  simpl in Hids. injection Hids as Hids. rewrite Hids. left. reflexivity.
Defined.

(** ** The normalizer, the startup and the index against the table *)

Lemma string_length_append (s t : string) :
  String.length (s ++ t) = (String.length s + String.length t)%nat.
Proof. induction s as [| c s IH]; simpl; [reflexivity | now rewrite IH]. Qed.

(** X11: what [getMorphologicalAnalysis] returns on success is the
    rendering of the token slice by the verb %s: the tokens of the first
    choice of the reply, separated by spaces and enclosed in square
    brackets.  It is two characters longer than the tokens joined by
    spaces, so it is never that string and never empty; the other
    choices of the reply are not looked at. *)
Theorem normalized_content_is_bracketed env text w a w' :
  getMorphologicalAnalysis env text w = (Ret (Ok a), w') ->
  exists content rest tokens,
    CreateChatCompletion env (clock w) (chat_request text) = Choices (content :: rest)
    /\ json_Unmarshal env content = Ok tokens
    /\ a = "[" ++ String.concat " " tokens ++ "]"
    /\ String.length a = (2 + String.length (String.concat " " tokens))%nat
    /\ a <> String.concat " " tokens.
Proof.
  rewrite getMorphologicalAnalysis_run. unfold normalized.
  destruct (CreateChatCompletion env (clock w) (chat_request text))
    as [err | [| content rest]]; try discriminate.
  destruct (json_Unmarshal env content) as [tokens | err] eqn:Hu; [| discriminate].
  intros H. inversion H; subst; clear H.
  exists content, rest, tokens.
  split; [reflexivity |]. split; [exact Hu |].
  unfold Fmt.Sprint_strings. split; [reflexivity |].
  assert (Hlen : String.length ("[" ++ String.concat " " tokens ++ "]")
                 = (2 + String.length (String.concat " " tokens))%nat).
  { simpl. rewrite string_length_append. simpl. lia. }
  split; [exact Hlen |].
  intros E. rewrite E in Hlen at 1. lia.
Qed.

Lemma normalized_content_is_bracketed_witness :
  exists content rest tokens,
    CreateChatCompletion (Sample.steady ["quick"; "fox"]) (clock Sample.fresh)
      (chat_request "the quick fox") = Choices (content :: rest)
    /\ json_Unmarshal (Sample.steady ["quick"; "fox"]) content = Ok tokens
    /\ "[quick fox]" = "[" ++ String.concat " " tokens ++ "]"
    /\ String.length "[quick fox]"
       = (2 + String.length (String.concat " " tokens))%nat
    /\ "[quick fox]" <> String.concat " " tokens.
Proof.
  apply (normalized_content_is_bracketed (Sample.steady ["quick"; "fox"])
           "the quick fox" Sample.fresh "[quick fox]"
           (snd (getMorphologicalAnalysis (Sample.steady ["quick"; "fox"])
                   "the quick fox" Sample.fresh))).
  apply run_fst. vm_compute. reflexivity.
Defined.

(** X12: [main] starts to listen only when every step before went well:
    the [.env] file was loaded, the API key is set, the driver was
    opened, the index was opened or else created, and the port was
    bound; every other start ends in [log.Fatalf] or in a panic.  A
    server that listens has its index initialized, and listening is the
    last thing the startup did. *)
Theorem main_serves_only_when_initialized env b w :
  main env b = Serving w ->
  godotenv_Load b = None
  /\ OPENAI_API_KEY b <> ""
  /\ sql_Open b = None
  /\ ListenAndServe b = None
  /\ ((exists ix, index_dir b = Some (Ok ix))
      \/ (index_dir b = None /\ bleve_New b = None))
  /\ initialized w
  /\ exists evs, trace w = (evs ++ [EvListen])%list.
Proof.
  intros Hm. pose proof (main_initialized env b w Hm) as Hinit.
  revert Hm. unfold main, listen.
  destruct (godotenv_Load b); [discriminate |].
  destruct (String.eqb_spec (OPENAI_API_KEY b) ""); [discriminate |].
  destruct (sql_Open b); [discriminate |].
  destruct (index_dir b) as [[ix | e] |].
  - destruct (ListenAndServe b); [discriminate |].
    intros H; inversion H; subst.
    split; [reflexivity |]. split; [assumption |]. split; [reflexivity |].
    split; [reflexivity |]. split; [left; eexists; reflexivity |].
    split; [exact Hinit |]. exists []. reflexivity.
  - discriminate.
  - destruct (bleve_New b); [discriminate |].
    destruct (createIndexFromDatabase env _) as [[[e |] | m] w2]; try discriminate.
    destruct (ListenAndServe b); [discriminate |].
    intros H; inversion H; subst.
    split; [reflexivity |]. split; [assumption |]. split; [reflexivity |].
    split; [reflexivity |]. split; [right; split; reflexivity |].
    split; [exact Hinit |]. eexists. reflexivity.
Qed.

Lemma main_serves_only_when_initialized_witness :
  let e := Sample.steady ["quick"; "fox"] in
  let b := Sample.boot None [(7, "the quick fox")] in
  initialized (startup_world (main e b)).
Proof.
  intros e b.
  apply (main_serves_only_when_initialized e b (startup_world (main e b))).
  apply serving_world. vm_compute. reflexivity.
Defined.

(** The events of one served request: no read of the table, no listen. *)
Lemma ServeHTTP_served_events env r w :
  exists evs,
    trace (snd (ServeHTTP env r w)) = (trace w ++ evs)%list
    /\ Forall served_event evs.
Proof.
  assert (Hnil : exists evs, trace w = (trace w ++ evs)%list /\ Forall served_event evs)
    by (exists []; split; [symmetry; apply app_nil_r | constructor]).
  assert (Hmore : forall evs, Forall served_event evs ->
                              exists evs', (trace w ++ evs)%list = (trace w ++ evs')%list
                                           /\ Forall served_event evs')
    by (intros evs H; exists evs; split; [reflexivity | exact H]).
  unfold ServeHTTP.
  destruct (Http.ServeMux_Handler r).
  - simpl. apply Hmore. repeat constructor.
  - destruct (index w) as [ix |] eqn:Hi.
    2: { unfold searchHandler. rewrite Hi. simpl. apply Hmore. repeat constructor. }
    destruct (String.eqb_spec (Http.Query_Get r "q") "") as [Hq | Hq].
    { unfold searchHandler. rewrite Hi, Hq. simpl. apply Hmore. repeat constructor. }
    rewrite (searchHandler_run env r w ix Hi Hq). cbv zeta.
    destruct (index_fault env _); [simpl; rewrite <- app_assoc; apply Hmore;
                                   repeat constructor |].
    destruct (encode_fault env _); simpl; rewrite <- app_assoc; apply Hmore;
      repeat constructor.
  - destruct (String.eqb_spec (Http.Method r) "POST") as [Hm | Hm].
    2: { unfold insertHandler.
         destruct (String.eqb_spec (Http.Method r) Http.MethodPost); [contradiction |].
         simpl. apply Hmore. repeat constructor. }
    destruct (Json.Decode (Http.Body r)) as [req | e] eqn:Hd.
    2: { unfold insertHandler. rewrite Hm, Hd. simpl. apply Hmore. repeat constructor. }
    rewrite (insertHandler_run env r req w Hm Hd). cbv zeta.
    destruct (normalized env _) as [[a | e] | m];
      [| simpl; rewrite <- ?app_assoc; apply Hmore; repeat constructor
       | simpl; apply Hmore; repeat constructor].
    destruct (db_fault env _);
      [simpl; rewrite <- ?app_assoc; apply Hmore; repeat constructor |].
    destruct (index w);
      [| simpl; rewrite <- ?app_assoc; apply Hmore; repeat constructor].
    destruct (index_fault env _); simpl; rewrite <- ?app_assoc; apply Hmore;
      repeat constructor.
  - simpl. apply Hmore. repeat constructor.
  - simpl. apply Hmore. repeat constructor.
  - simpl. apply Hmore. repeat constructor.
  - simpl. apply Hmore. repeat constructor.
Qed.

(** X13: a server started on an existing index directory never reads
    the table: neither at startup nor in any state it reaches is the
    replay run, so that rows the index lacks stay out of it; and the
    index keeps the analysis of the index that was opened. *)
Theorem existing_index_is_never_rebuilt env b ix w :
  index_dir b = Some (Ok ix) ->
  reachable env b w ->
  Forall (fun e => ~ is_table_read e) (trace w)
  /\ exists ix', index w = Some ix' /\ Bleve.mapping ix' = Bleve.mapping ix.
Proof.
  intros Hdir Hr. induction Hr as [w Hm | w r o w' Hr IH Hs].
  - revert Hm. unfold main, listen. rewrite Hdir.
    destruct (godotenv_Load b); [discriminate |].
    destruct (String.eqb (OPENAI_API_KEY b) ""); [discriminate |].
    destruct (sql_Open b); [discriminate |].
    destruct (ListenAndServe b); [discriminate |].
    intros H; inversion H; subst; simpl. split.
    + repeat constructor. simpl. tauto.
    + exists ix. split; reflexivity.
  - destruct IH as [Htr [ix0 [Hi Hmap]]].
    destruct (ServeHTTP_served_events env r w) as [evs [Ht Hev]].
    pose proof (ServeHTTP_one_request env r w) as He.
    rewrite Hs in Ht, He. simpl in Ht, He. split.
    + rewrite Ht. apply Forall_app. split; [exact Htr |].
      eapply Forall_impl; [| exact Hev].
      intros [] Hs' Hr'; simpl in *; contradiction.
    + destruct He as [[_ [_ Hx]] | [a [n [_ [_ Hx]]]]].
      * exists ix0. split; [rewrite Hx; exact Hi | exact Hmap].
      * rewrite Hi in Hx. destruct (index_fault env n).
        -- exists ix0. split; [exact Hx | exact Hmap].
        -- eexists. split; [exact Hx | exact Hmap].
Qed.

Lemma existing_index_is_never_rebuilt_witness :
  let e := Sample.steady ["quick"; "fox"] in
  let b := Sample.boot (Some (Ok (Bleve.New Sample.mapping))) [(7, "the quick fox")] in
  Forall (fun e => ~ is_table_read e) (trace (startup_world (main e b)))
  /\ exists ix',
       index (startup_world (main e b)) = Some ix'
       /\ Bleve.mapping ix' = Bleve.mapping (Bleve.New Sample.mapping).
Proof.
  intros e b.
  apply (existing_index_is_never_rebuilt e b (Bleve.New Sample.mapping));
    [reflexivity |].
  apply reach_main. reflexivity.
Defined.

(** ** The index as a mirror of the table *)

Lemma filter_keeps_all {A} (f : A -> bool) l :
  (forall x, In x l -> f x = true) -> filter f l = l.
Proof.
  induction l as [| x l IH]; intros H; simpl; [reflexivity |].
  rewrite (H x (or_introl eq_refl)). f_equal. apply IH.
  intros y Hy. apply H. right. exact Hy.
Qed.

(** Indexing a row under a fresh identifier appends its document. *)
Lemma index_fresh_appends id c ix rows :
  Bleve.docs ix = map to_doc rows ->
  ~ In id (map fst rows) ->
  Bleve.docs (Bleve.index_Index (Strconv.Itoa id) c ix)
  = map to_doc (rows ++ [(id, c)]).
Proof.
  intros Hd Hfresh. simpl. rewrite Hd, map_app. simpl. f_equal.
  apply filter_keeps_all. intros d Hin.
  apply in_map_iff in Hin. destruct Hin as [row [Hrow Hin]]. subst d.
  apply negb_true_iff. apply String.eqb_neq. simpl. intros E.
  apply Itoa_inj in E. apply Hfresh. subst id. apply in_map. exact Hin.
Qed.

(** One request keeps the index a mirror of the table when the engine
    does not refuse the write. *)
(** ** The versions without the normalizer *)

(** The run of [Plain.insertHandler] on a POST whose body decodes. *)
Lemma Plain_insertHandler_run env r req w :
  Http.Method r = "POST" ->
  Json.Decode (Http.Body r) = Ok req ->
  let c := Json.Content req in
  let id := documents_id_seq w in
  Plain.insertHandler env r w =
    match db_fault env (clock w) with
    | Some e =>
        (Ret (error_response ("Failed to insert data: " ++ e) 500),
         emit (EvRespond 500) (tick (EvInsert c (Error e)) w))
    | None =>
        let w2 := tick (EvInsert c (Ok id)) (add_document id c w) in
        match index w with
        | None => (Panic "invalid memory address or nil pointer dereference", w2)
        | Some ix =>
            match index_fault env (S (clock w)) with
            | Some e =>
                (Ret (error_response ("Failed to index data: " ++ e) 500),
                 emit (EvRespond 500)
                   (tick (EvIndex (Strconv.Itoa id) c (Some e)) w2))
            | None =>
                (Ret {| Http.Status := 201;
                        Http.Written :=
                          Http.Text ("Document inserted with ID: " ++ Strconv.Itoa id) |},
                 emit (EvRespond 201)
                   (tick (EvIndex (Strconv.Itoa id) c None)
                      (set_index (Bleve.index_Index (Strconv.Itoa id) c ix) w2)))
            end
        end
    end.
Proof.
  intros Hm Hd. cbv zeta.
  unfold Plain.insertHandler. rewrite Hm, Hd.
  change (negb (String.eqb "POST" Http.MethodPost)) with false. cbv iota.
  unfold_calls.
  destruct (db_fault env (clock w)); simpl; [reflexivity |].
  destruct (index w); simpl; [| reflexivity].
  destruct (index_fault env (S (clock w))); reflexivity.
Qed.

(** X15: the ingestion of main.go is the normalization followed by the
    ingestion of the version without normalizer: once the remote model
    has returned the normalized content, [insertHandler] answers, and
    leaves the world, exactly as [Plain.insertHandler] does on a request
    whose content is the normalized content. *)
Theorem insert_is_normalize_then_plain_insert env r req w a :
  Http.Method r = "POST" ->
  Json.Decode (Http.Body r) = Ok req ->
  normalized env
    (CreateChatCompletion env (clock w) (chat_request (Json.Content req)))
  = Ret (Ok a) ->
  insertHandler env r w =
    Plain.insertHandler env
      {| Http.Method := "POST"; Http.RequestURI := Http.RequestURI r;
         Http.RawQuery := Http.RawQuery r;
         Http.Body := Some (Json.JObject [("content", Json.JString a)]) |}
      (tick (EvChat (chat_request (Json.Content req))
               (CreateChatCompletion env (clock w) (chat_request (Json.Content req))))
            w).
Proof.
  intros Hm Hd Hn.
  rewrite (insertHandler_run env r req w Hm Hd). cbv zeta. rewrite Hn.
  set (r' := {| Http.Method := "POST"; Http.RequestURI := Http.RequestURI r;
                Http.RawQuery := Http.RawQuery r;
                Http.Body := Some (Json.JObject [("content", Json.JString a)]) |}).
  rewrite (Plain_insertHandler_run env r' {| Json.Content := a |} _ eq_refl eq_refl).
  reflexivity.
Qed.

Lemma insert_is_normalize_then_plain_insert_witness :
  let e := Sample.steady ["quick"; "fox"] in
  let r := Sample.insert_content "the quick fox" in
  insertHandler e r Sample.fresh =
    Plain.insertHandler e
      {| Http.Method := "POST"; Http.RequestURI := Http.RequestURI r;
         Http.RawQuery := Http.RawQuery r;
         Http.Body := Some (Json.JObject [("content", Json.JString "[quick fox]")]) |}
      (tick (EvChat (chat_request "the quick fox")
               (CreateChatCompletion e (clock Sample.fresh)
                  (chat_request "the quick fox")))
            Sample.fresh).
Proof.
  intros e r.
  apply (insert_is_normalize_then_plain_insert e r
           {| Json.Content := "the quick fox" |} Sample.fresh "[quick fox]");
    reflexivity.
Defined.

(** X16: the version without normalizer stores and indexes the request
    content as it is, and calls no remote model: a 201 of
    [Plain.insertHandler] means that the calls were the store insert
    and then the index write, both with the content of the request. *)
Theorem plain_insert_stores_the_content_as_it_is env r w resp w' :
  Plain.insertHandler env r w = (Ret resp, w') ->
  Http.Status resp = 201 ->
  exists req ix,
    Json.Decode (Http.Body r) = Ok req
    /\ index w = Some ix
    /\ documents w' =
         (documents w ++ [(documents_id_seq w, Json.Content req)])%list
    /\ index w' =
         Some (Bleve.index_Index (Strconv.Itoa (documents_id_seq w))
                 (Json.Content req) ix)
    /\ trace w' =
         (trace w
            ++ [EvInsert (Json.Content req) (Ok (documents_id_seq w));
                EvIndex (Strconv.Itoa (documents_id_seq w)) (Json.Content req) None;
                EvRespond 201])%list.
Proof.
  intros Hrun H201.
  assert (Hm : Http.Method r = "POST").
  { destruct (String.eqb_spec (Http.Method r) "POST") as [Hm | Hm]; [exact Hm |].
    exfalso. unfold Plain.insertHandler in Hrun.
    destruct (String.eqb_spec (Http.Method r) Http.MethodPost); [contradiction |].
    inversion Hrun; subst; discriminate. }
  destruct (Json.Decode (Http.Body r)) as [req | e] eqn:Hd.
  2: { exfalso. unfold Plain.insertHandler in Hrun. rewrite Hm, Hd in Hrun.
       inversion Hrun; subst; discriminate. }
  rewrite (Plain_insertHandler_run env r req w Hm Hd) in Hrun. cbv zeta in Hrun.
  destruct (db_fault env _); [inversion Hrun; subst; discriminate |].
  destruct (index w) as [ix |]; [| discriminate].
  destruct (index_fault env _); [inversion Hrun; subst; discriminate |].
  inversion Hrun; subst; clear Hrun.
  exists req, ix. split; [reflexivity |]. split; [reflexivity |]. simpl.
  split; [reflexivity |]. split; [reflexivity |].
  rewrite <- !app_assoc. reflexivity.
Qed.

Lemma plain_insert_stores_the_content_as_it_is_witness :
  let e := Sample.steady ["quick"; "fox"] in
  let run := Plain.insertHandler e (Sample.insert_content "the quick fox")
               Sample.fresh in
  exists req ix,
    Json.Decode (Http.Body (Sample.insert_content "the quick fox")) = Ok req
    /\ index Sample.fresh = Some ix
    /\ documents (snd run) =
         (documents Sample.fresh
            ++ [(documents_id_seq Sample.fresh, Json.Content req)])%list
    /\ index (snd run) =
         Some (Bleve.index_Index (Strconv.Itoa (documents_id_seq Sample.fresh))
                 (Json.Content req) ix)
    /\ trace (snd run) =
         (trace Sample.fresh
            ++ [EvInsert (Json.Content req) (Ok (documents_id_seq Sample.fresh));
                EvIndex (Strconv.Itoa (documents_id_seq Sample.fresh))
                  (Json.Content req) None;
                EvRespond 201])%list.
Proof.
  intros e run.
  apply (plain_insert_stores_the_content_as_it_is e
           (Sample.insert_content "the quick fox") Sample.fresh
           {| Http.Status := 201;
              Http.Written := Http.Text "Document inserted with ID: 1" |}
           (snd run)).
  - apply run_fst. vm_compute. reflexivity.
  - reflexivity.
Defined.

(** X17: the version without replay never reads the table at startup:
    when no index directory exists it comes up with an empty index,
    whatever the table holds, so that no row stored before is in the
    index and no query matches; the only thing startup did was to
    listen. *)
Theorem plain_main_starts_with_an_empty_index b w :
  Plain.main b = Serving w ->
  index_dir b = None ->
  index w = Some (Bleve.New (indexMapping b))
  /\ documents w = boot_documents b
  /\ trace w = [EvListen]
  /\ (forall row, In row (boot_documents b) ->
                  ~ In (Strconv.Itoa (fst row))
                      (index_ids (Bleve.New (indexMapping b))))
  /\ forall q,
       Bleve.Total
         (Bleve.index_Search (Bleve.NewSearchRequest (Bleve.NewMatchQuery q))
            (Bleve.New (indexMapping b))) = 0%nat.
Proof.
  intros Hm Hdir. revert Hm. unfold Plain.main, listen. rewrite Hdir.
  destruct (sql_Open b); [discriminate |].
  destruct (bleve_New b); [discriminate |].
  destruct (ListenAndServe b); [discriminate |].
  intros H; inversion H; subst; clear H. simpl.
  split; [reflexivity |]. split; [reflexivity |]. split; [reflexivity |].
  split; [intros row _ [] | reflexivity].
Qed.

Lemma plain_main_starts_with_an_empty_index_witness :
  let b := Sample.boot None [(7, "the quick fox")] in
  index (startup_world (Plain.main b)) = Some (Bleve.New (indexMapping b))
  /\ documents (startup_world (Plain.main b)) = boot_documents b.
Proof.
  intros b.
  destruct (plain_main_starts_with_an_empty_index b
              (startup_world (Plain.main b)) eq_refl eq_refl) as [Hi [Hd _]].
  split; [exact Hi | exact Hd].
Defined.

(** The loop of the replay without normalizer, when it returns no
    error. *)
Lemma Rebuild_index_rows_replays env rows :
  forall w ix w',
    index w = Some ix ->
    Rebuild.index_rows env rows w = (Ret None, w') ->
    index w' = Some (index_all rows (map snd rows) ix)
    /\ documents w' = documents w
    /\ documents_id_seq w' = documents_id_seq w.
Proof.
  induction rows as [| row rest IH]; intros w ix w' Hi; simpl; unfold_calls.
  - destruct (db_fault env (clock w)); simpl; [discriminate |].
    intros H; inversion H; subst; simpl. repeat split. exact Hi.
  - destruct (db_fault env (clock w)); simpl; [discriminate |].
    destruct (db_fault env (S (clock w))); simpl; [discriminate |].
    rewrite Hi.
    destruct (index_fault env _); simpl; [discriminate |].
    intros Hrest.
    apply (IH _ (Bleve.index_Index (Strconv.Itoa (fst row)) (snd row) ix)) in Hrest;
      [| reflexivity].
    exact Hrest.
Qed.

(** Indexing rows of distinct fresh identifiers appends their
    documents. *)
Lemma index_all_appends rows :
  forall ix have,
    Bleve.docs ix = map to_doc have ->
    NoDup (map fst (have ++ rows)) ->
    Bleve.docs (index_all rows (map snd rows) ix) = map to_doc (have ++ rows).
Proof.
  unfold index_all.
  induction rows as [| [id c] rows IH]; intros ix have Hd Hnd; simpl.
  - rewrite app_nil_r. exact Hd.
  - replace (have ++ (id, c) :: rows)%list with ((have ++ [(id, c)]) ++ rows)%list
      in * by (rewrite <- app_assoc; reflexivity).
    apply IH; [| exact Hnd].
    apply index_fresh_appends; [exact Hd |].
    rewrite !map_app in Hnd. simpl in Hnd.
    apply NoDup_app_remove_r in Hnd.
    apply NoDup_remove_2 in Hnd. rewrite app_nil_r in Hnd. exact Hnd.
Qed.

Lemma index_all_mapping rows analyses ix :
  Bleve.mapping (index_all rows analyses ix) = Bleve.mapping ix.
Proof.
  unfold index_all. revert ix.
  induction (combine rows analyses) as [| x l IH]; intros ix; simpl;
    [reflexivity |].
  rewrite IH. reflexivity.
Qed.

(** X18: the replay of the version without normalizer indexes the stored
    content as it is: when no index directory exists and the identifiers
    of the table are distinct, a server that comes up holds exactly the
    rows of the table, in order, each under the decimal text of its
    identifier with its stored content. *)
Theorem rebuild_indexes_the_stored_content env b w :
  Rebuild.main env b = Serving w ->
  index_dir b = None ->
  NoDup (map fst (boot_documents b)) ->
  exists ix,
    index w = Some ix
    /\ Bleve.mapping ix = indexMapping b
    /\ Bleve.docs ix = map to_doc (boot_documents b)
    /\ documents w = boot_documents b.
Proof.
  intros Hm Hdir Hnd. revert Hm. unfold Rebuild.main, listen. rewrite Hdir.
  destruct (sql_Open b); [discriminate |].
  destruct (bleve_New b); [discriminate |].
  destruct (Rebuild.createIndexFromDatabase env _) as [[[e |] | m] w2] eqn:E;
    try discriminate.
  destruct (ListenAndServe b); [discriminate |].
  intros H; inversion H; subst; clear H.
  unfold Rebuild.createIndexFromDatabase in E. unfold_calls. simpl in E.
  destruct (db_fault env 0); simpl in E; [discriminate |].
  eapply Rebuild_index_rows_replays in E; [| reflexivity].
  destruct E as [Hix [Hdocs _]]. simpl in Hdocs.
  eexists. simpl. split; [exact Hix |]. split.
  - apply index_all_mapping.
  - split; [| exact Hdocs].
    apply (index_all_appends (boot_documents b) (Bleve.New (indexMapping b)) []);
      [reflexivity | exact Hnd].
Qed.

Lemma rebuild_indexes_the_stored_content_witness :
  let e := Sample.steady ["fox"] in
  let b := Sample.boot None [(7, "the quick fox"); (9, "a dog")] in
  exists ix,
    index (startup_world (Rebuild.main e b)) = Some ix
    /\ Bleve.mapping ix = indexMapping b
    /\ Bleve.docs ix = map to_doc (boot_documents b)
    /\ documents (startup_world (Rebuild.main e b)) = boot_documents b.
Proof.
  intros e b.
  apply (rebuild_indexes_the_stored_content e b).
  - apply serving_world. vm_compute. reflexivity.
  - reflexivity.
  - repeat constructor; simpl; intuition discriminate.
Defined.

(** ** The replay of main.go against its ingestion *)

(** The documents of an index after rows of distinct fresh identifiers
    were indexed, each with the content given for it. *)
Lemma index_all_docs rows :
  forall analyses ix have,
    length rows = length analyses ->
    Bleve.docs ix = map to_doc have ->
    NoDup (map fst (have ++ rows)) ->
    Bleve.docs (index_all rows analyses ix)
    = map to_doc (have ++ combine (map fst rows) analyses).
Proof.
  unfold index_all.
  induction rows as [| [id c] rows IH]; intros [| a analyses] ix have Hl Hd Hnd;
    simpl in *; try discriminate.
  - rewrite app_nil_r. exact Hd.
  - injection Hl as Hl.
    replace (have ++ (id, a) :: combine (map fst rows) analyses)%list
      with ((have ++ [(id, a)]) ++ combine (map fst rows) analyses)%list
      by (rewrite <- app_assoc; reflexivity).
    assert (Hfresh : ~ In id (map fst have)).
    { rewrite map_app in Hnd. simpl in Hnd.
      apply NoDup_remove_2 in Hnd. intros Hin. apply Hnd.
      apply in_or_app. left. exact Hin. }
    apply IH; [exact Hl | apply index_fresh_appends; assumption |].
    rewrite <- app_assoc. simpl.
    rewrite !map_app in *. simpl in *. exact Hnd.
Qed.

Lemma to_doc_inj r1 r2 : to_doc r1 = to_doc r2 -> r1 = r2.
Proof.
  destruct r1 as [i1 c1], r2 as [i2 c2]. unfold to_doc. simpl.
  intros H. inversion H as [[Hi Hc]]. apply Itoa_inj in Hi. congruence.
Qed.

Lemma map_to_doc_inj l1 :
  forall l2, map to_doc l1 = map to_doc l2 -> l1 = l2.
Proof.
  induction l1 as [| x l1 IH]; intros [| y l2] H; cbn [map] in H;
    try discriminate; [reflexivity |].
  pose proof (f_equal (hd (to_doc x)) H) as Hx.
  pose proof (f_equal (@tl _) H) as Hl. cbn [hd tl] in Hx, Hl.
  apply to_doc_inj in Hx. apply IH in Hl. congruence.
Qed.

(** X20: the replay of main.go normalizes the stored content once more.
    The table holds normalized content, and the replay sends it to the
    remote model again; so when a server comes up after a replay (with
    distinct identifiers in the table), its index holds the stored
    content of the rows, as the index built by ingestion does, only if
    the remote model gave back every stored content unchanged. *)
Theorem replay_mirrors_only_fixed_points env b w :
  main env b = Serving w ->
  index_dir b = None ->
  NoDup (map fst (boot_documents b)) ->
  option_map Bleve.docs (index w) = Some (map to_doc (boot_documents b)) ->
  Forall (fun row => normalizes env row (snd row)) (boot_documents b).
Proof.
  intros Hm Hdir Hnd Hd.
  destruct (main_rebuilds env b w Hdir Hm) as [analyses [Hall [Hix _]]].
  rewrite Hix in Hd. simpl in Hd. injection Hd as Hd.
  rewrite (index_all_docs (boot_documents b) analyses
             (Bleve.New (indexMapping b)) []) in Hd;
    [| eapply Forall2_length; exact Hall | reflexivity | exact Hnd].
  simpl in Hd. apply map_to_doc_inj in Hd.
  revert Hd. clear Hix Hm Hnd.
  induction Hall as [| row a rows analyses Hn Hall IH]; intros Hd;
    [constructor |].
  simpl in Hd. injection Hd as Hrow Hrest.
  constructor.
  - destruct row as [id c]. simpl in *. injection Hrow as Ha. subst a. exact Hn.
  - apply IH. exact Hrest.
Qed.

Lemma replay_mirrors_only_fixed_points_witness :
  let e := Sample.env (fun _ => Choices [Sample.array_text []]) in
  let b := Sample.boot None [(7, "[]")] in
  Forall (fun row => normalizes e row (snd row)) (boot_documents b).
Proof.
  intros e b.
  apply (replay_mirrors_only_fixed_points e b (startup_world (main e b))).
  - apply serving_world. vm_compute. reflexivity.
  - reflexivity.
  - repeat constructor. simpl. tauto.
  - vm_compute. reflexivity.
Defined.

(** ** Requests served at the same time *)

Lemma row_eqb_eq a b : row_eqb a b = true <-> a = b.
Proof.
  destruct a as [i c], b as [j d]. unfold row_eqb. cbn [fst snd].
  rewrite andb_true_iff, Z.eqb_eq, String.eqb_eq.
  split; [intros [-> ->]; reflexivity | intros H; inversion H; tauto].
Qed.

Lemma remove_row_hd row P : remove_row row (row :: P) = P.
Proof.
  cbn [remove_row]. now rewrite (proj2 (row_eqb_eq row row) eq_refl).
Qed.

Lemma remove_row_perm row P :
  In row P -> Permutation P (row :: remove_row row P).
Proof.
  induction P as [| x P IH]; intros Hin; [destruct Hin |].
  cbn [remove_row]. destruct (row_eqb row x) eqn:E.
  - apply row_eqb_eq in E. subst x. apply Permutation_refl.
  - destruct Hin as [Hx | Hin].
    + subst x. rewrite (proj2 (row_eqb_eq row row) eq_refl) in E. discriminate.
    + eapply perm_trans; [apply perm_skip, IH, Hin | apply perm_swap].
Qed.

Lemma remove_row_keeps x row P :
  In x P -> In row P -> x = row \/ In x (remove_row row P).
Proof.
  intros Hx Hrow.
  apply (Permutation_in x (remove_row_perm row P Hrow)) in Hx.
  destruct Hx as [Hx | Hx]; [left; symmetry; exact Hx | right; exact Hx].
Qed.

Lemma steps_one env s s' : step env s s' -> steps env s s'.
Proof. intros H. eapply steps_more; [exact H | apply steps_done]. Qed.

Lemma steps_trans env s s' s'' :
  steps env s s' -> steps env s' s'' -> steps env s s''.
Proof.
  induction 1 as [| s s1 s2 H1 _ IH]; intros H2; [exact H2 |].
  eapply steps_more; [exact H1 | apply IH, H2].
Qed.

(** The store insert and the index write of one ingestion, as two calls
    between which the row is in flight. *)
Lemma store_then_index_steps env a w P ix :
  index w = Some ix ->
  db_fault env (clock w) = None ->
  let id := documents_id_seq w in
  let w2 := tick (EvInsert a (Ok id)) (add_document id a w) in
  steps env (w, P)
    (match index_fault env (S (clock w)) with
     | Some e => tick (EvIndex (Strconv.Itoa id) a (Some e)) w2
     | None =>
         tick (EvIndex (Strconv.Itoa id) a None)
           (set_index (Bleve.index_Index (Strconv.Itoa id) a ix) w2)
     end, P).
Proof.
  intros Hi Hdb id w2.
  assert (E1 : db_QueryRow_insert env a w = (Ret (Ok id), w2))
    by (unfold db_QueryRow_insert; rewrite Hdb; reflexivity).
  pose proof (step_store env w P a) as S1. rewrite E1 in S1. cbn [fst snd] in S1.
  assert (Hin : In (id, a) ((id, a) :: P)) by (left; reflexivity).
  pose proof (step_index env w2 ((id, a) :: P) id a Hin) as S2.
  rewrite remove_row_hd in S2.
  assert (E2 : snd (index_Index env (Strconv.Itoa id) a w2) =
               match index_fault env (S (clock w)) with
               | Some e => tick (EvIndex (Strconv.Itoa id) a (Some e)) w2
               | None =>
                   tick (EvIndex (Strconv.Itoa id) a None)
                     (set_index (Bleve.index_Index (Strconv.Itoa id) a ix) w2)
               end).
  { unfold index_Index. cbn [index w2 tick add_document clock]. rewrite Hi.
    destruct (index_fault env (S (clock w))); reflexivity. }
  rewrite E2 in S2.
  eapply steps_more; [exact S1 | apply steps_one; exact S2].
Qed.

Lemma quiet_steps env w w' P :
  documents w' = documents w ->
  documents_id_seq w' = documents_id_seq w ->
  index w' = index w ->
  steps env (w, P) (w', P).
Proof. intros. apply steps_one, step_quiet; assumption. Qed.

(** An ingestion of main.go is such a sequence of calls. *)
Lemma insertHandler_steps env r w P :
  initialized w -> steps env (w, P) (snd (insertHandler env r w), P).
Proof.
  intros Hw.
  destruct (String.eqb_spec (Http.Method r) "POST") as [Hm | Hm].
  2: { unfold insertHandler.
       destruct (String.eqb_spec (Http.Method r) Http.MethodPost); [contradiction |].
       apply quiet_steps; reflexivity. }
  destruct (Json.Decode (Http.Body r)) as [req | e] eqn:Hd.
  2: { unfold insertHandler. rewrite Hm, Hd. apply quiet_steps; reflexivity. }
  rewrite (insertHandler_run env r req w Hm Hd). cbv zeta.
  destruct (normalized env _) as [[a | e] | m];
    [| apply quiet_steps; reflexivity | apply quiet_steps; reflexivity].
  destruct (db_fault env (S (clock w))) eqn:Hdb;
    [apply quiet_steps; reflexivity |].
  destruct (index w) as [ix |] eqn:Hi; [| contradiction Hw; exact Hi].
  set (w1 := tick (EvChat (chat_request (Json.Content req))
                     (CreateChatCompletion env (clock w)
                        (chat_request (Json.Content req)))) w).
  eapply steps_trans; [apply (quiet_steps env w w1 P); reflexivity |].
  pose proof (store_then_index_steps env a w1 P ix Hi Hdb) as St. cbv zeta in St.
  change (documents_id_seq w1) with (documents_id_seq w) in St.
  change (clock w1) with (S (clock w)) in St.
  destruct (index_fault env (S (S (clock w)))); cbn [snd];
    (eapply steps_trans; [exact St | apply quiet_steps; reflexivity]).
Qed.

(** So is an ingestion of the version without normalizer. *)
Lemma Plain_insertHandler_steps env r w P :
  initialized w -> steps env (w, P) (snd (Plain.insertHandler env r w), P).
Proof.
  intros Hw.
  destruct (String.eqb_spec (Http.Method r) "POST") as [Hm | Hm].
  2: { unfold Plain.insertHandler.
       destruct (String.eqb_spec (Http.Method r) Http.MethodPost); [contradiction |].
       apply quiet_steps; reflexivity. }
  destruct (Json.Decode (Http.Body r)) as [req | e] eqn:Hd.
  2: { unfold Plain.insertHandler. rewrite Hm, Hd. apply quiet_steps; reflexivity. }
  rewrite (Plain_insertHandler_run env r req w Hm Hd). cbv zeta.
  destruct (db_fault env (clock w)) eqn:Hdb; [apply quiet_steps; reflexivity |].
  destruct (index w) as [ix |] eqn:Hi; [| contradiction Hw; exact Hi].
  pose proof (store_then_index_steps env (Json.Content req) w P ix Hi Hdb) as St.
  cbv zeta in St.
  destruct (index_fault env (S (clock w))); cbn [snd];
    (eapply steps_trans; [exact St | apply quiet_steps; reflexivity]).
Qed.

(** Every request served alone is a sequence of calls that leaves no
    ingestion in flight. *)
Lemma ServeHTTP_steps env r w P :
  initialized w -> steps env (w, P) (snd (ServeHTTP env r w), P).
Proof.
  intros Hw. unfold ServeHTTP.
  destruct (Http.ServeMux_Handler r); try solve [apply quiet_steps; reflexivity].
  - destruct (search_read_only_state env r w) as [Hd [Hs Hi]].
    apply quiet_steps; assumption.
  - apply insertHandler_steps. exact Hw.
Qed.

Lemma Plain_ServeHTTP_steps env r w P :
  initialized w -> steps env (w, P) (snd (Plain.ServeHTTP env r w), P).
Proof.
  intros Hw. unfold Plain.ServeHTTP.
  destruct (Http.ServeMux_Handler r); try solve [apply quiet_steps; reflexivity].
  - destruct (search_read_only_state env r w) as [Hd [Hs Hi]].
    apply quiet_steps; assumption.
  - apply Plain_insertHandler_steps. exact Hw.
Qed.

(** The states between requests served one at a time are among the
    states of the interleaved server, with nothing in flight. *)
Lemma reachable_steps env b w :
  reachable env b w ->
  exists w0, main env b = Serving w0 /\ steps env (w0, []) (w, []).
Proof.
  induction 1 as [w Hm | w r o w' Hr IH Hs].
  - exists w. split; [exact Hm | apply steps_done].
  - destruct IH as [w0 [Hm H0]]. exists w0. split; [exact Hm |].
    eapply steps_trans; [exact H0 |].
    replace w' with (snd (ServeHTTP env r w)) by (rewrite Hs; reflexivity).
    apply ServeHTTP_steps. eapply reachable_initialized. exact Hr.
Qed.

(** With an engine that never refuses a write, every call keeps every
    stored row either indexed or in flight. *)
Lemma step_keeps_rows_indexed env s s' :
  (forall n, index_fault env n = None) ->
  step env s s' ->
  (exists ix, index (fst s) = Some ix
              /\ forall row, In row (documents (fst s)) ->
                             In (Strconv.Itoa (fst row)) (index_ids ix)
                             \/ In row (snd s)) ->
  exists ix, index (fst s') = Some ix
             /\ forall row, In row (documents (fst s')) ->
                            In (Strconv.Itoa (fst row)) (index_ids ix)
                            \/ In row (snd s').
Proof.
  intros Hok Hstep. destruct Hstep as [w w' P Hd Hs Hi | w P c | w P id c Hin];
    cbn [fst snd]; intros [ix [Hix Hall]].
  - exists ix. rewrite Hi, Hd. split; assumption.
  - unfold db_QueryRow_insert. destruct (db_fault env (clock w)); cbn [fst snd].
    + exists ix. split; [exact Hix | exact Hall].
    + exists ix. split; [exact Hix |].
      cbn [documents tick add_document]. intros row Hrow.
      apply in_app_or in Hrow. destruct Hrow as [Hrow | [Hrow | []]].
      * destruct (Hall row Hrow) as [H | H]; [left; exact H | right; right; exact H].
      * right. left. exact Hrow.
  - unfold index_Index. rewrite Hix, Hok. cbn [snd].
    eexists. split; [reflexivity |].
    cbn [documents tick set_index]. intros row Hrow.
    destruct (Hall row Hrow) as [H | H].
    + left. apply index_Index_ids. right. exact H.
    + destruct (remove_row_keeps row (id, c) P H Hin) as [E | E].
      * left. apply index_Index_ids. left. subst row. reflexivity.
      * right. exact E.
Qed.

Lemma steps_keep_rows_indexed env s s' :
  (forall n, index_fault env n = None) ->
  steps env s s' ->
  (exists ix, index (fst s) = Some ix
              /\ forall row, In row (documents (fst s)) ->
                             In (Strconv.Itoa (fst row)) (index_ids ix)
                             \/ In row (snd s)) ->
  exists ix, index (fst s') = Some ix
             /\ forall row, In row (documents (fst s')) ->
                            In (Strconv.Itoa (fst row)) (index_ids ix)
                            \/ In row (snd s').
Proof.
  intros Hok. induction 1 as [| s s1 s2 H1 _ IH]; intros H; [exact H |].
  apply IH. apply (step_keeps_rows_indexed env s s1 Hok H1 H).
Qed.

(** X10: on a server that built its index at startup and whose engine
    never refuses a write, however the calls of the requests served at
    the same time interleave, every row of the table is either in the
    index, under the decimal text of its identifier, or the row of an
    ingestion in flight, between its store insert and its index write.
    So whenever no ingestion is in flight, what was stored can be
    searched. *)
Theorem stored_rows_are_indexed env b w0 w P :
  index_dir b = None ->
  (forall n, index_fault env n = None) ->
  main env b = Serving w0 ->
  steps env (w0, []) (w, P) ->
  exists ix,
    index w = Some ix
    /\ forall row, In row (documents w) ->
                   In (Strconv.Itoa (fst row)) (index_ids ix) \/ In row P.
Proof.
  intros Hdir Hok Hm Hsteps.
  apply (steps_keep_rows_indexed env (w0, []) (w, P) Hok Hsteps). cbn [fst snd].
  destruct (main_rebuilds env b w0 Hdir Hm) as [analyses [Hall [Hix Hdocs]]].
  eexists. split; [exact Hix |].
  intros row Hrow. left.
  apply index_all_ids; [eapply Forall2_length; exact Hall |].
  right. exists row. split; [rewrite <- Hdocs; exact Hrow | reflexivity].
Qed.

Lemma stored_rows_are_indexed_witness :
  let e := Sample.steady ["quick"; "fox"] in
  let b := Sample.boot None [(1, "the quick fox")] in
  let w := snd (db_QueryRow_insert e "[a dog]" (startup_world (main e b))) in
  exists ix,
    index w = Some ix
    /\ forall row, In row (documents w) ->
                   In (Strconv.Itoa (fst row)) (index_ids ix)
                   \/ In row [(2, "[a dog]")].
Proof.
  intros e b w.
  apply (stored_rows_are_indexed e b (startup_world (main e b)) w [(2, "[a dog]")]);
    [reflexivity | reflexivity | apply serving_world; vm_compute; reflexivity |].
  apply steps_one.
  assert (E : fst (db_QueryRow_insert e "[a dog]" (startup_world (main e b)))
              = Ret (Ok 2)) by (vm_compute; reflexivity).
  pose proof (step_store e (startup_world (main e b)) [] "[a dog]") as St.
  rewrite E in St. exact St.
Defined.

(** *** The index against the table *)

Lemma NoDup_map_Itoa l : NoDup l -> NoDup (map Strconv.Itoa l).
Proof.
  induction 1 as [| x l Hx _ IH]; cbn [map]; constructor; [| exact IH].
  intros Hin. apply in_map_iff in Hin. destruct Hin as [y [Hy Hin]].
  apply Itoa_inj in Hy. subst y. contradiction.
Qed.

Lemma NoDup_app_disjoint {A} (l1 l2 : list A) :
  NoDup (l1 ++ l2) -> forall x, In x l1 -> In x l2 -> False.
Proof.
  induction l1 as [| y l1 IH]; cbn [app]; intros Hnd x H1 H2; [destruct H1 |].
  inversion Hnd as [| ? ? Hy Hnd']; subst.
  destruct H1 as [E | H1].
  - subst y. apply Hy. apply in_or_app. right. exact H2.
  - apply (IH Hnd' x H1 H2).
Qed.

Lemma map_fst_to_doc l : map fst (map to_doc l) = map Strconv.Itoa (map fst l).
Proof.
  induction l as [| x l IH]; cbn [map]; [reflexivity | now rewrite IH].
Qed.

(** With an engine that never refuses a write, every call keeps the
    index the mirror of the table but for the rows in flight. *)
Lemma step_mirrors env s s' :
  (forall n, index_fault env n = None) ->
  step env s s' -> mirrors_but (snd s) (fst s) -> mirrors_but (snd s') (fst s').
Proof.
  intros Hok Hstep. destruct Hstep as [w w' P Hd Hs Hi | w P c | w P id c Hin];
    cbn [fst snd]; intros [ix [Hix [Hp [Hnd Hlt]]]].
  - exists ix. rewrite Hi, Hd, Hs. repeat split; assumption.
  - unfold db_QueryRow_insert. destruct (db_fault env (clock w)); cbn [fst snd].
    + exists ix. repeat split; assumption.
    + exists ix. cbn [index documents documents_id_seq tick add_document].
      split; [exact Hix |]. split; [| split].
      * rewrite map_app. cbn [map].
        eapply perm_trans; [apply Permutation_sym, Permutation_middle |].
        eapply perm_trans; [apply perm_skip, Hp |].
        apply Permutation_cons_append.
      * rewrite map_app. cbn [map fst].
        apply NoDup_app; [exact Hnd | repeat constructor; simpl; tauto |].
        intros x Hx [Hx' | []]. subst x.
        apply in_map_iff in Hx. destruct Hx as [row [Hrow Hx]].
        rewrite Forall_forall in Hlt. specialize (Hlt row Hx). lia.
      * apply Forall_app. split.
        -- eapply Forall_impl; [| exact Hlt]. cbn beta. intros; lia.
        -- repeat constructor. cbn [fst]. lia.
  - unfold index_Index. rewrite Hix, Hok. cbn [snd].
    eexists. cbn [index documents documents_id_seq tick set_index].
    split; [reflexivity |]. split; [| split; assumption].
    assert (Hnd2 : NoDup (map fst (Bleve.docs ix ++ map to_doc P)%list)).
    { apply (Permutation_NoDup (l := map fst (map to_doc (documents w)))).
      - apply Permutation_map, Permutation_sym, Hp.
      - rewrite map_fst_to_doc. apply NoDup_map_Itoa. exact Hnd. }
    rewrite map_app in Hnd2.
    assert (Hfresh : forall d, In d (Bleve.docs ix) ->
                               negb (String.eqb (Strconv.Itoa id) (fst d)) = true).
    { intros d Hd. apply negb_true_iff, String.eqb_neq. intros E.
      apply (NoDup_app_disjoint _ _ Hnd2 (Strconv.Itoa id)).
      - rewrite E. apply in_map. exact Hd.
      - apply in_map_iff. exists (to_doc (id, c)). split; [reflexivity |].
        apply in_map. exact Hin. }
    cbn [Bleve.docs Bleve.index_Index].
    rewrite (filter_keeps_all _ _ Hfresh).
    rewrite <- app_assoc. cbn [app].
    eapply perm_trans; [| exact Hp].
    apply Permutation_app_head.
    change ((Strconv.Itoa id, c) :: map to_doc (remove_row (id, c) P))
      with (map to_doc ((id, c) :: remove_row (id, c) P)).
    apply Permutation_map, Permutation_sym, remove_row_perm. exact Hin.
Qed.

Lemma steps_mirror env s s' :
  (forall n, index_fault env n = None) ->
  steps env s s' -> mirrors_but (snd s) (fst s) -> mirrors_but (snd s') (fst s').
Proof.
  intros Hok. induction 1 as [| s s1 s2 H1 _ IH]; intros H; [exact H |].
  apply IH. apply (step_mirrors env s s1 Hok H1 H).
Qed.

(** X14: from a state in which the index mirrors the table (an empty
    index on an empty table, for one), and with an engine that never
    refuses a write, however the calls of the requests served at the
    same time interleave, the index holds exactly the rows of the table
    whose ingestion is not in flight, each once under the decimal text
    of its identifier with the content that was stored, in the order of
    the engine; and the identifiers of the table stay distinct. *)
Theorem index_mirrors_the_table env w0 P0 w P :
  (forall n, index_fault env n = None) ->
  mirrors_but P0 w0 ->
  steps env (w0, P0) (w, P) ->
  mirrors_but P w.
Proof.
  intros Hok H0 Hsteps.
  apply (steps_mirror env (w0, P0) (w, P) Hok Hsteps H0).
Qed.

Lemma index_mirrors_the_table_witness :
  mirrors_but []
    (snd (ServeHTTP (Sample.steady ["quick"; "fox"])
            (Sample.insert_content "the quick fox") Sample.fresh)).
Proof.
  apply (index_mirrors_the_table (Sample.steady ["quick"; "fox"]) Sample.fresh []).
  - reflexivity.
  - exists (Bleve.New Sample.mapping).
    split; [reflexivity |]. split; [apply Permutation_refl |].
    split; constructor.
  - apply ServeHTTP_steps. discriminate.
Defined.

(** X19: rebuilding gives back the documents that ingestion indexed.
    Start from an index that mirrors the table, let any requests be
    served, their calls interleaved in any way, by an engine that never
    refuses a write, until no ingestion is in flight; then lose the
    index directory and restart the version that replays the stored
    content, on the same table, whose rows the database may return in
    any order: the rebuilt index holds the same documents as the index
    the server had, each once, in the order of the engine. *)
Theorem rebuild_reproduces_the_live_index env env' w0 w b w2 :
  (forall n, index_fault env n = None) ->
  mirrors_but [] w0 ->
  steps env (w0, []) (w, []) ->
  Permutation (boot_documents b) (documents w) ->
  index_dir b = None ->
  Rebuild.main env' b = Serving w2 ->
  exists ix ix2,
    index w = Some ix
    /\ index w2 = Some ix2
    /\ Permutation (Bleve.docs ix2) (Bleve.docs ix)
    /\ Bleve.mapping ix2 = indexMapping b.
Proof.
  intros Hok Hw0 Hsteps Hb Hdir Hm.
  destruct (steps_mirror env (w0, []) (w, []) Hok Hsteps Hw0)
    as [ix [Hi [Hp [Hnd _]]]].
  cbn [fst snd map] in Hi, Hp, Hnd. rewrite app_nil_r in Hp.
  assert (Hndb : NoDup (map fst (boot_documents b))).
  { apply (Permutation_NoDup (l := map fst (documents w))); [| exact Hnd].
    apply Permutation_map, Permutation_sym, Hb. }
  revert Hm. unfold Rebuild.main, listen. rewrite Hdir.
  destruct (sql_Open b); [discriminate |].
  destruct (bleve_New b); [discriminate |].
  destruct (Rebuild.createIndexFromDatabase env' _) as [[[e |] | m] w3] eqn:E;
    try discriminate.
  destruct (ListenAndServe b); [discriminate |].
  intros H; inversion H; subst; clear H.
  unfold Rebuild.createIndexFromDatabase in E. unfold_calls. simpl in E.
  destruct (db_fault env' 0); simpl in E; [discriminate |].
  eapply Rebuild_index_rows_replays in E; [| reflexivity].
  destruct E as [Hix _].
  exists ix. eexists. split; [exact Hi |]. simpl. split; [exact Hix |]. split.
  - rewrite (index_all_appends (boot_documents b) (Bleve.New (indexMapping b)) []
               eq_refl Hndb).
    cbn [app].
    eapply perm_trans; [apply Permutation_map, Hb |].
    apply Permutation_sym, Hp.
  - apply index_all_mapping.
Qed.

Lemma rebuild_reproduces_the_live_index_witness :
  let e := Sample.steady ["fox"] in
  let w1 := snd (Plain.ServeHTTP e (Sample.insert_content "the quick fox")
                   Sample.fresh) in
  let w := snd (Plain.ServeHTTP e (Sample.insert_content "a dog") w1) in
  let b := Sample.boot None (rev (documents w)) in
  exists ix ix2,
    index w = Some ix
    /\ index (startup_world (Rebuild.main e b)) = Some ix2
    /\ Permutation (Bleve.docs ix2) (Bleve.docs ix)
    /\ Bleve.mapping ix2 = indexMapping b.
Proof.
  intros e w1 w b.
  apply (rebuild_reproduces_the_live_index e e Sample.fresh w b).
  - reflexivity.
  - exists (Bleve.New Sample.mapping).
    split; [reflexivity |]. split; [apply Permutation_refl |].
    split; constructor.
  - eapply steps_trans.
    + apply (Plain_ServeHTTP_steps e (Sample.insert_content "the quick fox")
               Sample.fresh []). discriminate.
    + apply (Plain_ServeHTTP_steps e (Sample.insert_content "a dog") w1 []).
      intros E.
      assert (H : match index w1 with Some _ => true | None => false end = true)
        by (vm_compute; reflexivity).
      rewrite E in H. discriminate H.
  - apply Permutation_sym, Permutation_rev.
  - reflexivity.
  - apply serving_world. vm_compute. reflexivity.
Defined.

(** ** Retrieval of an ingested document *)

Lemma remove_row_subset x row P : In x (remove_row row P) -> In x P.
Proof.
  induction P as [| y P IH]; cbn [remove_row]; [trivial |].
  destruct (row_eqb row y); [intros H; right; exact H |].
  intros [H | H]; [left; exact H | right; apply IH, H].
Qed.

(** A document that the index holds stays in it, whatever is served
    next and however the calls interleave: the identifiers under which
    other ingestions index are other ones. *)
Lemma step_keeps_document env s s' id a m :
  step env s s' ->
  (id < documents_id_seq (fst s)
   /\ ~ In id (map fst (snd s))
   /\ exists ix, index (fst s) = Some ix
                 /\ In (Strconv.Itoa id, a) (Bleve.docs ix)
                 /\ Bleve.mapping ix = m) ->
  id < documents_id_seq (fst s')
  /\ ~ In id (map fst (snd s'))
  /\ exists ix, index (fst s') = Some ix
                /\ In (Strconv.Itoa id, a) (Bleve.docs ix)
                /\ Bleve.mapping ix = m.
Proof.
  intros Hstep. destruct Hstep as [w w' P Hd Hs Hi | w P c | w P id' c Hin];
    cbn [fst snd]; intros [Hlt [Hout [ix [Hix [Hdoc Hm]]]]].
  - rewrite Hs, Hi. split; [exact Hlt |]. split; [exact Hout |].
    exists ix. repeat split; assumption.
  - unfold db_QueryRow_insert. destruct (db_fault env (clock w)); cbn [fst snd].
    + split; [exact Hlt |]. split; [exact Hout |].
      exists ix. repeat split; assumption.
    + cbn [documents_id_seq index tick add_document].
      split; [lia |]. split.
      * cbn [map fst]. intros [E | E]; [lia | contradiction].
      * exists ix. repeat split; assumption.
  - assert (Hne : id' <> id).
    { intros E. subst id'. apply Hout.
      apply in_map_iff. exists (id, c). split; [reflexivity | exact Hin]. }
    assert (Hout' : ~ In id (map fst (remove_row (id', c) P))).
    { intros E. apply Hout. apply in_map_iff in E. destruct E as [x [Hx E]].
      apply in_map_iff. exists x. split; [exact Hx |].
      apply (remove_row_subset x (id', c) P E). }
    unfold index_Index. rewrite Hix.
    destruct (index_fault env (clock w)); cbn [fst snd];
      cbn [documents_id_seq index tick set_index];
      (split; [exact Hlt |]); (split; [exact Hout' |]).
    + exists ix. repeat split; assumption.
    + eexists. split; [reflexivity |]. split; [| exact Hm].
      cbn [Bleve.docs Bleve.index_Index]. apply in_or_app. left.
      apply filter_In. split; [exact Hdoc |].
      cbn [fst]. apply negb_true_iff, String.eqb_neq.
      intros E. apply Itoa_inj in E. contradiction.
Qed.

Lemma steps_keep_document env s s' id a m :
  steps env s s' ->
  (id < documents_id_seq (fst s)
   /\ ~ In id (map fst (snd s))
   /\ exists ix, index (fst s) = Some ix
                 /\ In (Strconv.Itoa id, a) (Bleve.docs ix)
                 /\ Bleve.mapping ix = m) ->
  exists ix, index (fst s') = Some ix
             /\ In (Strconv.Itoa id, a) (Bleve.docs ix)
             /\ Bleve.mapping ix = m.
Proof.
  induction 1 as [s | s s1 s2 H1 _ IH]; intros H.
  - destruct H as [_ [_ H]]. exact H.
  - apply IH. apply (step_keeps_document env s s1 id a m H1 H).
Qed.

(** C1, as the spec has it, fails: eleven documents are ingested one
    after the other, each answered 201, each holding the token fox; the
    search for fox that follows is answered 200 and counts eleven
    matches, but returns a page of ten hits, so that the identifier of
    one of the eleven documents is absent from it. *)
Lemma inserted_document_missing_from_hits :
  let e := Sample.steady ["fox"] in
  let rs := repeat (Sample.insert_content "fox") 11 in
  let ids := [1; 2; 3; 4; 5; 6; 7; 8; 9; 10; 11] in
  let w := Sample.serve_all e rs Sample.fresh in
  Sample.answers e rs Sample.fresh =
    map (fun id =>
           Ret {| Http.Status := 201;
                  Http.Written :=
                    Http.Text ("Document inserted with ID: " ++ Strconv.Itoa id) |})
      ids
  /\ documents w = map (fun id => (id, "[fox]")) ids
  /\ In "fox" (Sample.words "[fox]")
  /\ exists result,
       fst (ServeHTTP e (Sample.get_search "fox") w)
       = Ret {| Http.Status := 200; Http.Written := Http.JSONResult result |}
       /\ Bleve.Total result = 11%nat
       /\ length (Bleve.Hits result) = 10%nat
       /\ exists id, In id ids /\ ~ In (Strconv.Itoa id) (Bleve.hit_ids result).
Proof.
  cbv zeta. split; [vm_compute; reflexivity |].
  split; [vm_compute; reflexivity |].
  split; [vm_compute; tauto |].
  eexists. split; [vm_compute; reflexivity |].
  split; [vm_compute; reflexivity |].
  split; [vm_compute; reflexivity |].
  exists 11. split; [vm_compute; tauto |].
  vm_compute. intuition discriminate.
Qed.

(** C1, amended: when [insertHandler] has answered 201 for a document,
    then in every state the server is in afterwards (whatever requests
    were served since, their calls interleaved in any way, the
    ingestions in flight holding other rows), for every token of the
    document's normalized content that is not empty and is its own
    analysis, a search for that token (with the engine and the response
    encoder working) is answered 200, counts the document among its
    matches, and returns the document's identifier among the hits
    whenever at most ten documents match, ten being the size of the
    page that [searchHandler] asks for. *)
Theorem inserted_document_is_found env r w ix resp w1 :
  index w = Some ix ->
  insertHandler env r w = (Ret resp, w1) ->
  Http.Status resp = 201 ->
  exists id analysis,
    Http.Written resp = Http.Text ("Document inserted with ID: " ++ Strconv.Itoa id)
    /\ In (id, analysis) (documents w1)
    /\ index w1 = Some (Bleve.index_Index (Strconv.Itoa id) analysis ix)
    /\ forall P1 w2 P2 t rq,
         ~ In id (map fst P1) ->
         steps env (w1, P1) (w2, P2) ->
         In t (Bleve.analyze (Bleve.mapping ix) analysis) ->
         In t (Bleve.analyze (Bleve.mapping ix) t) ->
         t <> "" ->
         Http.Query_Get rq "q" = t ->
         index_fault env (clock w2) = None ->
         encode_fault env (S (clock w2)) = None ->
         exists ix2,
           index w2 = Some ix2
           /\ let result :=
                Bleve.index_Search
                  (Bleve.NewSearchRequest (Bleve.NewMatchQuery t)) ix2 in
              fst (searchHandler env rq w2) =
                Ret {| Http.Status := 200; Http.Written := Http.JSONResult result |}
              /\ (1 <= Bleve.Total result)%nat
              /\ ((Bleve.Total result <= 10)%nat ->
                  In (Strconv.Itoa id) (Bleve.hit_ids result)).
Proof.
  intros Hi Hrun H201.
  assert (Hm : Http.Method r = "POST").
  { destruct (String.eqb_spec (Http.Method r) "POST") as [Hm | Hm]; [exact Hm |].
    exfalso. unfold insertHandler in Hrun.
    destruct (String.eqb_spec (Http.Method r) Http.MethodPost); [contradiction |].
    inversion Hrun; subst; discriminate. }
  destruct (Json.Decode (Http.Body r)) as [req | e] eqn:Hd.
  2: { exfalso. unfold insertHandler in Hrun. rewrite Hm, Hd in Hrun.
       inversion Hrun; subst; discriminate. }
  rewrite (insertHandler_run env r req w Hm Hd) in Hrun. cbv zeta in Hrun.
  rewrite Hi in Hrun.
  destruct (normalized env _) as [[a | e] | m]; [| | discriminate].
  2: { inversion Hrun; subst; discriminate. }
  destruct (db_fault env _); [inversion Hrun; subst; discriminate |].
  destruct (index_fault env _); [inversion Hrun; subst; discriminate |].
  inversion Hrun; subst; clear Hrun.
  exists (documents_id_seq w), a.
  split; [reflexivity |].
  split; [simpl; apply in_or_app; right; left; reflexivity |].
  split; [reflexivity |].
  intros P1 w2 P2 t rq Hout Hsteps Hta Htt Hne Hq Hix Hen.
  assert (Hq' : Http.Query_Get rq "q" <> "") by (rewrite Hq; exact Hne).
  destruct (steps_keep_document env _ _ (documents_id_seq w) a (Bleve.mapping ix)
              Hsteps) as [ix2 [Hi2 [Hin Hmap]]].
  { cbn [fst snd]. split; [simpl; lia |]. split; [exact Hout |].
    eexists. split; [reflexivity |].
    split; [apply BleveFacts.indexed_in | reflexivity]. }
  cbn [fst] in Hi2.
  exists ix2. split; [exact Hi2 |].
  rewrite (searchHandler_run env rq w2 ix2 Hi2 Hq').
  cbv zeta. rewrite Hix, Hen, Hq.
  split; [reflexivity |].
  apply (BleveFacts.search_finds ix2 t (Strconv.Itoa (documents_id_seq w), a)).
  - exact Hin.
  - unfold Bleve.matches. rewrite Hmap.
    apply (BleveFacts.shares_common _ _ t); assumption.
Qed.

Lemma inserted_document_is_found_witness :
  let e := Sample.steady ["quick"; "fox"] in
  let inserted := insertHandler e (Sample.insert_content "the quick fox") Sample.fresh in
  let w2 := snd (ServeHTTP e (Sample.insert_content "a dog") (snd inserted)) in
  exists result,
    fst (searchHandler e (Sample.get_search "fox") w2) =
      Ret {| Http.Status := 200; Http.Written := Http.JSONResult result |}
    /\ In "1" (Bleve.hit_ids result).
Proof.
  intros e inserted w2.
  let o := eval vm_compute in (fst inserted) in
  assert (Hrun : inserted = (o, snd inserted))
    by (apply run_fst; vm_compute; reflexivity).
  destruct (inserted_document_is_found e _ Sample.fresh _ _ _ eq_refl Hrun eq_refl)
    as [id [a [Hw [Hd [_ Hfind]]]]].
  vm_compute in Hd. destruct Hd as [Hd | []].
  inversion Hd; subst id a; clear Hd.
  destruct (Hfind [] w2 [] "fox" (Sample.get_search "fox"))
    as [ix2 [_ [Hs [_ Hten]]]].
  - intros [].
  - apply (ServeHTTP_steps e (Sample.insert_content "a dog") (snd inserted) []).
    intros E.
    assert (H : match index (snd inserted) with Some _ => true | None => false end
                = true) by (vm_compute; reflexivity).
    rewrite E in H. discriminate H.
  - vm_compute. tauto.
  - vm_compute. tauto.
  - discriminate.
  - reflexivity.
  - reflexivity.
  - reflexivity.
  - eexists. split; [exact Hs |].
    apply Hten.
    assert (Ht : match fst (searchHandler e (Sample.get_search "fox") w2) with
                 | Ret {| Http.Written := Http.JSONResult res |} =>
                     (Bleve.Total res <= 10)%nat
                 | _ => False
                 end) by (vm_compute; lia).
    rewrite Hs in Ht. exact Ht.
Defined.

